(** * SkillPath front end (src/frontend/app.js): view controller model

    The client module is embedded as state-passing code over an explicit
    [World]: the [AppState] session object, the part of the document the
    handlers read and write, the pending timers and the log of network
    requests.  Values that arrive from the backend are JavaScript values
    ([JsValue]); computations that can throw return a [Result].  A handler is
    run to completion from the state it is dispatched in: what other events
    do while it awaits a response is outside the model.

    app.js holds two revisions of the script, one after the other; the model
    follows the first, which has the multi-step form and the photo upload.
    The three calls of the submit handler, the filter and the display
    functions other than [displayResume] are the same in both. *)

From Stdlib Require Import Floats ZArith String Ascii List.
From stdpp Require Import base option list strings gmap.

(** ** JavaScript values and the host operations the source relies on *)

Module Js.

#[local] Set Warnings "-register-all".

(** A value as [JSON.parse] or the DOM hands it to the script.  Numbers are
    IEEE-754 doubles.  An object is its list of own properties; the first
    binding of a key is the one that is read. *)
Inductive JsValue : Type :=
| JUndefined
| JNull
| JBool (b : bool)
| JNum (x : float)
| JStr (s : string)
| JArr (xs : list JsValue)
| JObj (fields : list (string * JsValue)).

(** What a [throw] carries: the [Error] objects the source constructs, the
    [TypeError]s raised by the language on a bad property read or call, and
    errors rejected by the host ([fetch], [Response.json]). *)
Inductive JsError : Type :=
| Error (message : string)
| TypeError (message : string)
| HostError (name message : string).

Definition error_message (e : JsError) : string :=
  match e with
  | Error m => m
  | TypeError m => m
  | HostError _ m => m
  end.

Inductive Result (A : Type) : Type :=
| Ok (a : A)
| Throw (e : JsError).
Arguments Ok {A} a.
Arguments Throw {A} e.

#[global] Instance Result_ret : MRet Result := fun _ a => Ok a.
#[global] Instance Result_bind : MBind Result := fun _ _ f r =>
  match r with
  | Ok a => f a
  | Throw e => Throw e
  end.

Definition is_ok {A} (r : Result A) : bool :=
  match r with Ok _ => true | Throw _ => false end.

(** [xs.map(f)] with a callback that can throw: left to right, stopping at
    the first exception. *)
Fixpoint mapR {A B} (f : A -> Result B) (xs : list A) : Result (list B) :=
  match xs with
  | [] => Ok []
  | x :: rest =>
      match f x with
      | Ok y => match mapR f rest with
                | Ok ys => Ok (y :: ys)
                | Throw e => Throw e
                end
      | Throw e => Throw e
      end
  end.

(** Host functions whose results the source only passes along.  They are
    specified by ECMAScript and the browser, not by this repository. *)
Class Host : Type := {
  Number_toString : float -> string;        (* ToString applied to a Number *)
  StringToNumber : string -> float;         (* ToNumber applied to a String *)
  parseFloat : string -> float;
  parseInt : string -> float;
  String_trim : string -> string;
  Date_toLocaleDateString : JsValue -> string   (* new Date(v).toLocaleDateString() *)
}.

Definition dq : string := String (ascii_of_nat 34) EmptyString.

(** The text of an attribute value between double quotes. *)
Definition quoted (s : string) : string := dq +:+ s +:+ dq.

Fixpoint concat (xs : list string) : string :=
  match xs with
  | [] => EmptyString
  | x :: rest => x +:+ concat rest
  end.

(** [Array.prototype.join] on already converted elements. *)
Fixpoint join (sep : string) (xs : list string) : string :=
  match xs with
  | [] => EmptyString
  | [x] => x
  | x :: rest => x +:+ sep +:+ join sep rest
  end.

Definition of_nat (n : nat) : float :=
  PrimFloat.of_uint63 (Uint63.of_Z (Z.of_nat n)).

Definition of_Z (z : Z) : float :=
  if (z <? 0)%Z then PrimFloat.opp (PrimFloat.of_uint63 (Uint63.of_Z (- z)))
  else PrimFloat.of_uint63 (Uint63.of_Z z).

(** [Math.round]: the integer nearest to [x], ties towards +infinity; NaN,
    the infinities and the zeros are returned as they are, and a result of
    zero keeps the sign of [x].  Computed exactly on the decoded double. *)
Definition Math_round (x : float) : float :=
  match Prim2SF x with
  | S754_finite s m e =>
      if (0 <=? e)%Z then x
      else
        let d := (2 ^ (- e))%Z in
        let n := if s then Z.neg m else Z.pos m in
        let r := ((2 * n + d) / (2 * d))%Z in
        if (r =? 0)%Z then (if s then PrimFloat.neg_zero else PrimFloat.zero) else of_Z r
  | _ => x
  end.

(** Number of UTF-16 code units of a string held as UTF-8 bytes: one per
    code point, two for a code point outside the basic plane. *)
Fixpoint utf16_length (s : string) : nat :=
  match s with
  | EmptyString => 0
  | String c rest =>
      let b := nat_of_ascii c in
      (if (b <? 128)%nat || (192 <=? b)%nat then 1 else 0)
      + (if (240 <=? b)%nat then 1 else 0)
      + utf16_length rest
  end.

Fixpoint drop_chars (n : nat) (s : string) : string :=
  match n, s with
  | O, _ => s
  | S n', String _ rest => drop_chars n' rest
  | S _, EmptyString => EmptyString
  end.

(** [s.replace(pat, rep)] for string arguments: the first occurrence only
    ([rep] is taken literally; the source passes a single space). *)
Fixpoint replace_first (pat rep s : string) : string :=
  if String.prefix pat s then rep +:+ drop_chars (String.length pat) s
  else match s with
       | EmptyString => EmptyString
       | String c rest => String c (replace_first pat rep rest)
       end.

(** [s.split(sep)] for a one-character separator. *)
Fixpoint split (sep : ascii) (s : string) : list string :=
  match s with
  | EmptyString => [EmptyString]
  | String c rest =>
      if Ascii.eqb c sep then EmptyString :: split sep rest
      else match split sep rest with
           | x :: xs => String c x :: xs
           | [] => [String c EmptyString]
           end
  end.

Section WithHost.
Context `{Host}.

(** ToString, as a template literal applies it to a substitution. *)
Fixpoint toStr (v : JsValue) : string :=
  match v with
  | JUndefined => "undefined"
  | JNull => "null"
  | JBool true => "true"
  | JBool false => "false"
  | JNum x => Number_toString x
  | JStr s => s
  | JArr xs =>
      join ","
        (map (fun x => match x with
                       | JUndefined | JNull => EmptyString
                       | _ => toStr x
                       end) xs)
  | JObj _ => "[object Object]"
  end.

(** ToNumber. *)
Definition toNum (v : JsValue) : float :=
  match v with
  | JUndefined => PrimFloat.nan
  | JNull => PrimFloat.zero
  | JBool true => PrimFloat.one
  | JBool false => PrimFloat.zero
  | JNum x => x
  | JStr s => StringToNumber s
  | JArr _ => StringToNumber (toStr v)
  | JObj _ => PrimFloat.nan
  end.

End WithHost.

(** ToBoolean. *)
Definition truthy (v : JsValue) : bool :=
  match v with
  | JUndefined | JNull => false
  | JBool b => b
  | JNum x => negb (PrimFloat.eqb x PrimFloat.zero || PrimFloat.is_nan x)
  | JStr s => negb (String.eqb s EmptyString)
  | JArr _ | JObj _ => true
  end.

(** [a || b] *)
Definition or_else (a b : JsValue) : JsValue := if truthy a then a else b.

Fixpoint assoc (k : string) (fs : list (string * JsValue)) : JsValue :=
  match fs with
  | [] => JUndefined
  | (k', v) :: rest => if String.eqb k k' then v else assoc k rest
  end.

(** [v.k] for the property names the source reads (none of them is an index
    or a name found on a built-in prototype, [length] apart). *)
Definition get (v : JsValue) (k : string) : Result JsValue :=
  match v with
  | JUndefined =>
      Throw (TypeError ("Cannot read properties of undefined (reading '" +:+ k +:+ "')"))
  | JNull =>
      Throw (TypeError ("Cannot read properties of null (reading '" +:+ k +:+ "')"))
  | JObj fs => Ok (assoc k fs)
  | JArr xs => Ok (if String.eqb k "length" then JNum (of_nat (length xs)) else JUndefined)
  | JStr s => Ok (if String.eqb k "length" then JNum (of_nat (utf16_length s)) else JUndefined)
  | JBool _ | JNum _ => Ok JUndefined
  end.

(** [v?.k] *)
Definition get_opt (v : JsValue) (k : string) : JsValue :=
  match v with
  | JUndefined | JNull => JUndefined
  | _ => match get v k with Ok x => x | Throw _ => JUndefined end
  end.

(** The TypeError of a call whose callee is not a function.  The message
    names the callee as the source writes it ([roadmap.phases.map is not a
    function]), so the method helpers below take that text, [callee], next
    to the receiver. *)
Definition not_a_function (callee : string) : JsError :=
  TypeError (callee +:+ " is not a function").

(** [v.map(f)]: only an array has the method. *)
Definition call_map {B} (callee : string) (v : JsValue) (f : JsValue -> Result B)
  : Result (list B) :=
  match v with
  | JArr xs => mapR f xs
  | JUndefined | JNull => x ← get v "map"; Throw (not_a_function callee)
  | _ => Throw (not_a_function callee)
  end.

(** [v.filter(p)] *)
Definition call_filter (callee : string) (v : JsValue) (p : JsValue -> Result bool)
  : Result JsValue :=
  match v with
  | JArr xs =>
      keep ← mapR (fun x => b ← p x; mret (x, b)) xs;
      mret (JArr (map fst (List.filter snd keep)))
  | JUndefined | JNull => x ← get v "filter"; Throw (not_a_function callee)
  | _ => Throw (not_a_function callee)
  end.

(** [v.replace(pat, rep)]: only a string has the method. *)
Definition call_replace (callee : string) (v : JsValue) (pat rep : string)
  : Result string :=
  match v with
  | JStr s => Ok (replace_first pat rep s)
  | JUndefined | JNull => x ← get v "replace"; Throw (not_a_function callee)
  | _ => Throw (not_a_function callee)
  end.

(** [a === b].  Arrays and objects compare by reference; the operands the
    source compares are a payload value and a constant or attribute string,
    which are never the same reference. *)
Definition strictEq (a b : JsValue) : bool :=
  match a, b with
  | JUndefined, JUndefined => true
  | JNull, JNull => true
  | JBool x, JBool y => Bool.eqb x y
  | JNum x, JNum y => PrimFloat.eqb x y
  | JStr x, JStr y => String.eqb x y
  | _, _ => false
  end.

Section WithHost2.
Context `{Host}.

(** [v.join(sep)] *)
Definition call_join (callee : string) (v : JsValue) (sep : string) : Result string :=
  match v with
  | JArr xs =>
      Ok (join sep (map (fun x => match x with
                                  | JUndefined | JNull => EmptyString
                                  | _ => toStr x
                                  end) xs))
  | JUndefined | JNull => x ← get v "join"; Throw (not_a_function callee)
  | _ => Throw (not_a_function callee)
  end.

(** [v > 0] *)
Definition gt0 (v : JsValue) : bool := PrimFloat.ltb PrimFloat.zero (toNum v).

End WithHost2.

End Js.

Export Js.

(** ** The world the handlers run in *)

(** The session object [AppState] of the source. *)
Record AppState : Type := mkAppState {
  currentUser : JsValue;
  currentPage : string;
  roadmap : JsValue;
  progressData : JsValue;
  profileData : JsValue
}.

Definition AppState_init : AppState :=
  {| currentUser := JNull; currentPage := "onboarding"; roadmap := JNull;
     progressData := JNull; profileData := JNull |}.

(** A [fetch] call: the URL, the method and the object handed to
    [JSON.stringify] as the body. *)
Record Request : Type := mkRequest {
  url : string;
  method : string;
  body : JsValue
}.

(** What the script looks at in a response: the status, and the outcome of
    [response.json()]. *)
Record Response : Type := mkResponse {
  status : Z;
  json : Result JsValue
}.

(** [response.ok] *)
Definition ok (r : Response) : bool := (200 <=? status r)%Z && (status r <=? 299)%Z.

Inductive FetchResult : Type :=
| Rejected (e : JsError)
| Responded (r : Response).

(** The backend and the network, seen from the client: the answer to a
    request may depend on the requests made before it. *)
Definition Server : Type := list Request -> Request -> FetchResult.

(** A toast node appended to [#toast-container]. *)
Record Toast : Type := mkToast {
  className : string;
  innerHTML : string
}.

(** What a [setTimeout] callback of the source does when it fires. *)
Inductive TimerAction : Type :=
| RemoveToast (t : Toast)
| DeactivateStatus (elementId : string)
| ClickNav (target : string).

Record StatusElement : Type := mkStatusElement {
  textContent : string;
  status_className : string
}.

(** A control of the onboarding form: [checkValidity] is what the native
    constraint check of the control answers at the moment of the click. *)
Record Input : Type := mkInput {
  input_id : string;
  input_type : string;
  checkValidity : bool;
  error_class : bool
}.

Record FormStep : Type := mkFormStep {
  data_step : Z;
  step_active : bool;
  inputs : list Input
}.

(** A step dot; [dot_step] is [parseInt(dot.dataset.step)], [None] for NaN. *)
Record StepDot : Type := mkStepDot {
  dot_step : option Z;
  dot_active : bool
}.

Record File : Type := mkFile {
  file_type : string;
  file_size : N
}.

(** The page outside the onboarding form.  The elements the source fetches
    without a null check ([#loading-overlay], [#toast-container], the status
    and display containers) are part of the static page and are taken to
    exist. *)
Record Page : Type := mkPage {
  loading : bool;
  toasts : list Toast;
  timers : list (Z * TimerAction);
  statuses : gmap string StatusElement;
  containers : gmap string string;
  console : list (string * JsError);
  activeFilter : JsValue
}.

(** The multi-step form: the closure variable [currentStep] and the elements
    the step handlers touch.  A button the source null-checks is optional
    ([None]: not in the document); a present button carries its
    [style.display]. *)
Record Wizard : Type := mkWizard {
  currentStep : Z;
  formSteps : list FormStep;
  stepDots : list StepDot;
  prevBtn : option string;
  nextBtn : option string;
  submitBtn : option string;
  focused : option string
}.

(** The controls the submit and photo handlers read and write.
    [photoPreview] is [Some None] while the preview keeps its initial content
    and [Some (Some src)] once it holds the image; [reading] lists the files
    handed to a [FileReader]. *)
Record Fields : Type := mkFields {
  formData : gmap string string;
  photoBase64 : option string;
  photoPreview : option (option string);
  reading : list File;
  relocationToggle : option bool;
  horizonSlider : option string
}.

Record World : Type := mkWorld {
  app : AppState;
  page : Page;
  wizard : Wizard;
  fields : Fields;
  requests : list Request
}.

Definition set_currentUser (v : JsValue) (r : AppState) : AppState :=
  {| currentUser := v; currentPage := currentPage r; roadmap := roadmap r; progressData := progressData r; profileData := profileData r |}.

Definition set_loading (v : bool) (r : Page) : Page :=
  {| loading := v; toasts := toasts r; timers := timers r; statuses := statuses r; containers := containers r; console := console r; activeFilter := activeFilter r |}.

Definition set_toasts (v : list Toast) (r : Page) : Page :=
  {| loading := loading r; toasts := v; timers := timers r; statuses := statuses r; containers := containers r; console := console r; activeFilter := activeFilter r |}.

Definition set_timers (v : list (Z * TimerAction)) (r : Page) : Page :=
  {| loading := loading r; toasts := toasts r; timers := v; statuses := statuses r; containers := containers r; console := console r; activeFilter := activeFilter r |}.

Definition set_statuses (v : gmap string StatusElement) (r : Page) : Page :=
  {| loading := loading r; toasts := toasts r; timers := timers r; statuses := v; containers := containers r; console := console r; activeFilter := activeFilter r |}.

Definition set_containers (v : gmap string string) (r : Page) : Page :=
  {| loading := loading r; toasts := toasts r; timers := timers r; statuses := statuses r; containers := v; console := console r; activeFilter := activeFilter r |}.

Definition set_console (v : list (string * JsError)) (r : Page) : Page :=
  {| loading := loading r; toasts := toasts r; timers := timers r; statuses := statuses r; containers := containers r; console := v; activeFilter := activeFilter r |}.

Definition set_activeFilter (v : JsValue) (r : Page) : Page :=
  {| loading := loading r; toasts := toasts r; timers := timers r; statuses := statuses r; containers := containers r; console := console r; activeFilter := v |}.

Definition set_currentStep (v : Z) (r : Wizard) : Wizard :=
  {| currentStep := v; formSteps := formSteps r; stepDots := stepDots r; prevBtn := prevBtn r; nextBtn := nextBtn r; submitBtn := submitBtn r; focused := focused r |}.

Definition set_formSteps (v : list FormStep) (r : Wizard) : Wizard :=
  {| currentStep := currentStep r; formSteps := v; stepDots := stepDots r; prevBtn := prevBtn r; nextBtn := nextBtn r; submitBtn := submitBtn r; focused := focused r |}.

Definition set_stepDots (v : list StepDot) (r : Wizard) : Wizard :=
  {| currentStep := currentStep r; formSteps := formSteps r; stepDots := v; prevBtn := prevBtn r; nextBtn := nextBtn r; submitBtn := submitBtn r; focused := focused r |}.

Definition set_prevBtn (v : option string) (r : Wizard) : Wizard :=
  {| currentStep := currentStep r; formSteps := formSteps r; stepDots := stepDots r; prevBtn := v; nextBtn := nextBtn r; submitBtn := submitBtn r; focused := focused r |}.

Definition set_nextBtn (v : option string) (r : Wizard) : Wizard :=
  {| currentStep := currentStep r; formSteps := formSteps r; stepDots := stepDots r; prevBtn := prevBtn r; nextBtn := v; submitBtn := submitBtn r; focused := focused r |}.

Definition set_submitBtn (v : option string) (r : Wizard) : Wizard :=
  {| currentStep := currentStep r; formSteps := formSteps r; stepDots := stepDots r; prevBtn := prevBtn r; nextBtn := nextBtn r; submitBtn := v; focused := focused r |}.

Definition set_focused (v : option string) (r : Wizard) : Wizard :=
  {| currentStep := currentStep r; formSteps := formSteps r; stepDots := stepDots r; prevBtn := prevBtn r; nextBtn := nextBtn r; submitBtn := submitBtn r; focused := v |}.

Definition set_photoBase64 (v : option string) (r : Fields) : Fields :=
  {| formData := formData r; photoBase64 := v; photoPreview := photoPreview r; reading := reading r; relocationToggle := relocationToggle r; horizonSlider := horizonSlider r |}.

Definition set_photoPreview (v : option (option string)) (r : Fields) : Fields :=
  {| formData := formData r; photoBase64 := photoBase64 r; photoPreview := v; reading := reading r; relocationToggle := relocationToggle r; horizonSlider := horizonSlider r |}.

Definition set_reading (v : list File) (r : Fields) : Fields :=
  {| formData := formData r; photoBase64 := photoBase64 r; photoPreview := photoPreview r; reading := v; relocationToggle := relocationToggle r; horizonSlider := horizonSlider r |}.

Definition set_app (v : AppState) (r : World) : World :=
  {| app := v; page := page r; wizard := wizard r; fields := fields r; requests := requests r |}.

Definition set_page (v : Page) (r : World) : World :=
  {| app := app r; page := v; wizard := wizard r; fields := fields r; requests := requests r |}.

Definition set_wizard (v : Wizard) (r : World) : World :=
  {| app := app r; page := page r; wizard := v; fields := fields r; requests := requests r |}.

Definition set_fields (v : Fields) (r : World) : World :=
  {| app := app r; page := page r; wizard := wizard r; fields := v; requests := requests r |}.

Definition set_requests (v : list Request) (r : World) : World :=
  {| app := app r; page := page r; wizard := wizard r; fields := fields r; requests := v |}.


(** ** Handlers as state-passing code that can throw *)

Definition M (A : Type) : Type := World -> Result A * World.

#[global] Instance M_ret : MRet M := fun _ a w => (Ok a, w).
#[global] Instance M_bind : MBind M := fun _ _ f m w =>
  match m w with
  | (Ok a, w') => f a w'
  | (Throw e, w') => (Throw e, w')
  end.

Definition world : M World := fun w => (Ok w, w).
Definition modify (f : World -> World) : M unit := fun w => (Ok tt, f w).
Definition throw {A} (e : JsError) : M A := fun w => (Throw e, w).
Definition liftR {A} (r : Result A) : M A := fun w => (r, w).

(** [try { body } catch (error) { handler }] *)
Definition try_catch (body : M unit) (handler : JsError -> M unit) : M unit :=
  fun w =>
    match body w with
    | (Ok tt, w') => (Ok tt, w')
    | (Throw e, w') => handler e w'
    end.

Definition on_page (f : Page -> Page) : M unit :=
  modify (fun w => set_page (f (page w)) w).
Definition on_wizard (f : Wizard -> Wizard) : M unit :=
  modify (fun w => set_wizard (f (wizard w)) w).
Definition on_fields (f : Fields -> Fields) : M unit :=
  modify (fun w => set_fields (f (fields w)) w).
Definition on_app (f : AppState -> AppState) : M unit :=
  modify (fun w => set_app (f (app w)) w).

(** [setTimeout(callback, ms)] *)
Definition setTimeout (a : TimerAction) (ms : Z) : M unit :=
  on_page (fun p => set_timers (timers p ++ [(ms, a)]) p).

(** [await fetch(...)]: the request is logged and the server answers. *)
Definition fetch (server : Server) (r : Request) : M Response :=
  fun w =>
    let w' := set_requests (requests w ++ [r]) w in
    match server (requests w) r with
    | Rejected e => (Throw e, w')
    | Responded resp => (Ok resp, w')
    end.

Definition API_BASE_URL : string := "http://localhost:5000/api/v1".

(** *** Utility functions *)

Definition showLoading : M unit := on_page (set_loading true).

Definition hideLoading : M unit := on_page (set_loading false).

(** The node [showToast] builds. *)
Definition toast_node (message type : string) : Toast :=
  {| className := "toast toast-" +:+ type;
     innerHTML := "
        <span>" +:+ (if String.eqb type "success" then "✓"
                     else if String.eqb type "error" then "✗" else "ℹ") +:+ "</span>
        <span>" +:+ message +:+ "</span>
    " |}.

Definition showToast (message : string) (type : string) : M unit :=
  let toast := toast_node message type in
  on_page (fun p => set_toasts (toasts p ++ [toast]) p);;
  setTimeout (RemoveToast toast) 5000.

Definition showStatusMessage (elementId message type : string) : M unit :=
  on_page (fun p =>
    set_statuses
      (<[elementId := {| textContent := message;
                         status_className := "status-message active " +:+ type |}]>
         (statuses p)) p);;
  setTimeout (DeactivateStatus elementId) 5000.

Definition console_error (label : string) (e : JsError) : M unit :=
  on_page (fun p => set_console (console p ++ [(label, e)]) p).

(** *** initOnboarding: the multi-step form *)

Definition totalSteps : Z := 4.

(** [document.querySelector('.form-step[data-step=N]')]: the first match in
    document order. *)
Definition querySelector_step (n : Z) (steps : list FormStep) : option FormStep :=
  List.find (fun s => (data_step s =? n)%Z) steps.

Definition set_step_active (b : bool) (s : FormStep) : FormStep :=
  {| data_step := data_step s; step_active := b; inputs := inputs s |}.

Definition set_step_inputs (ins : list Input) (s : FormStep) : FormStep :=
  {| data_step := data_step s; step_active := step_active s; inputs := ins |}.

(** Apply [f] to the element [querySelector_step] returns, in place. *)
Fixpoint on_first_step (n : Z) (f : FormStep -> FormStep) (steps : list FormStep)
  : list FormStep :=
  match steps with
  | [] => []
  | s :: rest =>
      if (data_step s =? n)%Z then f s :: rest
      else s :: on_first_step n f rest
  end.

Definition updateStepVisibility (wz : Wizard) : Wizard :=
  match formSteps wz with
  | [] => wz
  | _ :: _ =>
      let n := currentStep wz in
      let steps := map (set_step_active false) (formSteps wz) in
      let steps := on_first_step n (set_step_active true) steps in
      let dots :=
        map (fun dot =>
               {| dot_step := dot_step dot;
                  dot_active := match dot_step dot with
                                | Some step => (step <=? n)%Z
                                | None => false
                                end |}) (stepDots wz) in
      let prev := (fun _ => if (1 <? n)%Z then "inline-flex" else "none") <$> prevBtn wz in
      let next := (fun _ => if (n =? totalSteps)%Z then "none" else "inline-flex") <$> nextBtn wz in
      let submit := (fun _ => if (n =? totalSteps)%Z then "inline-flex" else "none") <$> submitBtn wz in
      {| currentStep := n; formSteps := steps; stepDots := dots;
         prevBtn := prev; nextBtn := next; submitBtn := submit;
         focused := focused wz |}
  end.

(** The state of the [inputs.forEach] loop of the Next handler.
    [reportValidity] may move the focus to the control it reports; the model
    lets it do so. *)
Record Scan : Type := mkScan {
  scanned : list Input;
  isValid : bool;
  firstInvalid : option string;
  scan_focus : option string
}.

Definition set_error_class (b : bool) (i : Input) : Input :=
  {| input_id := input_id i; input_type := input_type i;
     checkValidity := checkValidity i; error_class := b |}.

Definition check_input (st : Scan) (input : Input) : Scan :=
  if String.eqb (input_type input) "hidden" then
    {| scanned := scanned st ++ [input]; isValid := isValid st;
       firstInvalid := firstInvalid st; scan_focus := scan_focus st |}
  else if negb (checkValidity input) then
    {| scanned := scanned st ++ [set_error_class true input];
       isValid := false;
       firstInvalid := match firstInvalid st with
                       | None => Some (input_id input)
                       | Some i => Some i
                       end;
       scan_focus := Some (input_id input) |}
  else
    {| scanned := scanned st ++ [set_error_class false input]; isValid := isValid st;
       firstInvalid := firstInvalid st; scan_focus := scan_focus st |}.

Definition scan_inputs (focus : option string) (ins : list Input) : Scan :=
  fold_left check_input ins
    {| scanned := []; isValid := true; firstInvalid := None; scan_focus := focus |}.

(** The click listener of [#next-btn] (registered only when the button is in
    the document). *)
Definition nextBtn_click : M unit :=
  w ← world;
  let wz := wizard w in
  match nextBtn wz with
  | None => mret tt
  | Some _ =>
      match querySelector_step (currentStep wz) (formSteps wz) with
      | None => mret tt
      | Some currentStepEl =>
          let st := scan_inputs (focused wz) (inputs currentStepEl) in
          on_wizard (fun wz =>
            set_focused (scan_focus st)
              (set_formSteps
                 (on_first_step (currentStep wz) (set_step_inputs (scanned st))
                    (formSteps wz)) wz));;
          if isValid st then
            if (currentStep wz <? totalSteps)%Z then
              on_wizard (fun wz =>
                updateStepVisibility (set_currentStep (currentStep wz + 1) wz))
            else mret tt
          else
            match firstInvalid st with
            | Some i => on_wizard (set_focused (Some i))
            | None => mret tt
            end;;
            showToast "Please fill in all required fields." "error"
      end
  end.

(** The click listener of [#prev-btn]. *)
Definition prevBtn_click : M unit :=
  w ← world;
  match prevBtn (wizard w) with
  | None => mret tt
  | Some _ =>
      if (1 <? currentStep (wizard w))%Z then
        on_wizard (fun wz =>
          updateStepVisibility (set_currentStep (currentStep wz - 1) wz))
      else mret tt
  end.

(** The change listener of [#profile-photo-input] (registered only when the
    input, the preview and the hidden base64 field are all in the document);
    [file] is [e.target.files[0]]. *)
Definition photoInput_change (file : option File) : M unit :=
  w ← world;
  match photoPreview (fields w), photoBase64 (fields w) with
  | Some _, Some _ =>
      match file with
      | None => mret tt
      | Some file =>
          if negb (String.prefix "image/" (file_type file)) then
            showToast "Please upload a valid image file" "error"
          else if (2 * 1024 * 1024 <? file_size file)%N then
            showToast "Image is too large (max 2MB)" "error"
          else
            on_fields (fun f => set_reading (reading f ++ [file]) f)
      end
  | _, _ => mret tt
  end.

(** [reader.onload], with [e.target.result] *)
Definition reader_onload (result : string) : M unit :=
  on_fields (fun f => set_photoBase64 (Some result) (set_photoPreview (Some (Some result)) f)).

Definition reader_onerror : M unit := showToast "Error reading file" "error".

(** The part of [initOnboarding] that runs when the page loads. *)
Definition initOnboarding : M unit :=
  on_wizard (fun wz => updateStepVisibility (set_currentStep 1 wz)).

(** *** initOnboarding: the submit handler *)

Definition getUserIdByEmail (email : JsValue) : M JsValue := mret (JNum 1).

Section Submit.
Context `{Host} (server : Server).

(** [formData.get(name)]: the value of the field, or null. *)
Definition formData_get (f : Fields) (name : string) : JsValue :=
  match formData f !! name with
  | Some s => JStr s
  | None => JNull
  end.

(** [v.split(',').map(s => s.trim())] *)
Definition split_trim (v : JsValue) : Result JsValue :=
  match v with
  | JStr s => Ok (JArr (map (fun x => JStr (String_trim x)) (split "," s)))
  | JUndefined | JNull => x ← get v "split"; Throw (not_a_function "formData.get(...).split")
  | _ => Throw (not_a_function "formData.get(...).split")
  end.

(** [v ? v.split(',').map(s => s.trim()) : []] *)
Definition split_trim_opt (v : JsValue) : Result JsValue :=
  if truthy v then split_trim v else Ok (JArr []).

Definition null_read (prop : string) : JsError :=
  TypeError ("Cannot read properties of null (reading '" +:+ prop +:+ "')").

(** [el.value] of an element fetched without a null check. *)
Definition value_of (el : option string) : Result string :=
  match el with
  | Some v => Ok v
  | None => Throw (null_read "value")
  end.

(** The object literal [data] of the submit handler, field by field: a read
    of the form controls, which throws when a list field or a control is
    missing. *)
Definition gather (f : Fields) : Result (list (string * JsValue)) :=
  let name := formData_get f "name" in
  let email := formData_get f "email" in
  let major := formData_get f "major" in
  let university := formData_get f "university" in
  let gpa := or_else (JNum (parseFloat (toStr (formData_get f "gpa")))) JNull in
  let career_aspirations := formData_get f "career_aspirations" in
  target_industries ← split_trim (formData_get f "target_industries");
  current_skills ← split_trim (formData_get f "current_skills");
  let experience_level := formData_get f "experience_level" in
  let preferred_learning := formData_get f "preferred_learning" in
  preferred_content_types ← split_trim_opt (formData_get f "preferred_content_types");
  let time_commitment := formData_get f "time_commitment" in
  (* New Fields *)
  photo ← value_of (photoBase64 f);
  let profile_photo := or_else (JStr photo) JNull in
  relocation_goal ←
    match relocationToggle f with
    | Some true => Ok (formData_get f "relocation_goal")
    | Some false => Ok JNull
    | None => Throw (null_read "checked")
    end;
  extracurricular_interests ←
    split_trim_opt (formData_get f "extracurricular_interests");
  horizon ← value_of (horizonSlider f);
  let planning_horizon_years := JNum (parseInt horizon) in
  mret [("name", name); ("email", email); ("major", major);
        ("university", university); ("gpa", gpa);
        ("career_aspirations", career_aspirations);
        ("target_industries", target_industries);
        ("current_skills", current_skills);
        ("experience_level", experience_level);
        ("preferred_learning", preferred_learning);
        ("preferred_content_types", preferred_content_types);
        ("time_commitment", time_commitment);
        ("profile_photo", profile_photo);
        ("relocation_goal", relocation_goal);
        ("extracurricular_interests", extracurricular_interests);
        ("planning_horizon_years", planning_horizon_years)].

(** [const timeline = parseInt(horizonSlider.value) * 12] *)
Definition timeline_of (f : Fields) : Result JsValue :=
  horizon ← value_of (horizonSlider f);
  mret (JNum (parseInt horizon * 12)).

Definition register_request (data : list (string * JsValue)) : Request :=
  {| url := API_BASE_URL +:+ "/users/register"; method := "POST";
     body := JObj [("email", assoc "email" data); ("name", assoc "name" data)] |}.

Definition onboard_request (userId : JsValue) (data : list (string * JsValue)) : Request :=
  {| url := API_BASE_URL +:+ "/users/onboard"; method := "POST";
     body := JObj (("user_id", userId) :: data) |}.

Definition generate_request (userId timeline : JsValue) : Request :=
  {| url := API_BASE_URL +:+ "/growth-path/generate"; method := "POST";
     body := JObj [("user_id", userId); ("timeline_months", timeline)] |}.

(** The end of the [try] block, once the three calls have succeeded. *)
Definition submit_done : M unit :=
  hideLoading;;
  showToast "Growth path generated successfully! 🎉" "success";;
  showStatusMessage "onboarding-status"
    ("Success! Navigate to " +:+ quoted "My Roadmap" +:+ " to see your personalized path.")
    "success";;
  (* Switch to roadmap view *)
  setTimeout (ClickNav "roadmap") 2000.

(** The body of the [try] block. *)
Definition submit_try : M unit :=
  w ← world;
  data ← liftR (gather (fields w));
  timeline ← liftR (timeline_of (fields w));
  (* Register user *)
  registerResponse ← fetch server (register_request data);
  if negb (ok registerResponse) && negb (status registerResponse =? 409)%Z then
    throw (Error "Failed to register user")
  else
    registerData ← liftR (json registerResponse);
    user ← liftR (get registerData "user");
    userId ← (if truthy (get_opt user "id") then mret (get_opt user "id")
              else getUserIdByEmail (assoc "email" data));
    (* Complete onboarding *)
    onboardResponse ← fetch server (onboard_request userId data);
    if negb (ok onboardResponse) then
      throw (Error "Failed to complete onboarding")
    else
      onboardData ← liftR (json onboardResponse);
      on_app (set_currentUser (JObj (("id", userId) :: data)));;
      (* Generate growth path *)
      roadmapResponse ← fetch server (generate_request userId timeline);
      if negb (ok roadmapResponse) then
        throw (Error "Failed to generate growth path")
      else
        submit_done.

(** The [catch] block. *)
Definition submit_catch (error : JsError) : M unit :=
  hideLoading;;
  console_error "Onboarding error:" error;;
  showToast "Error during onboarding. Please try again." "error";;
  showStatusMessage "onboarding-status" (error_message error) "error".

(** The submit listener of [#onboarding-form]. *)
Definition form_submit : M unit :=
  showLoading;;
  try_catch submit_try submit_catch.

End Submit.

(** ** Display functions *)

Section Display.
Context `{Host}.

(** [container.innerHTML = html] *)
Definition set_innerHTML (elementId html : string) : M unit :=
  on_page (fun p => set_containers (<[elementId := html]> (containers p)) p).

(** [v.forEach(f)] and [v.map(f)] differ only in the name reported when [v]
    has no such method. *)
Definition call_forEach {B} (callee : string) (v : JsValue) (f : JsValue -> Result B)
  : Result (list B) :=
  match v with
  | JArr xs => mapR f xs
  | JUndefined | JNull => x ← get v "forEach"; Throw (not_a_function callee)
  | _ => Throw (not_a_function callee)
  end.

(** [v?.join(', ')] *)
Definition join_opt (callee : string) (v : JsValue) : Result JsValue :=
  match v with
  | JUndefined | JNull => Ok JUndefined
  | _ => s ← call_join callee v ", "; mret (JStr s)
  end.

(** The callback [s => `<li>${s}</li>`]. *)
Definition li (s : JsValue) : Result string :=
  Ok ("<li>"
      +:+ toStr s
      +:+ "</li>").

(** [owner.k.map(li).join('')], [name] being the variable that holds
    [owner]. *)
Definition li_list (name : string) (owner : JsValue) (k : string) : Result string :=
  xs ← get owner k;
  items ← call_map (name +:+ "." +:+ k +:+ ".map") xs li;
  mret (concat items).

Definition displayAnalysis_html (analysis : JsValue) : Result string :=
  strengths ← li_list "analysis" analysis "strengths";
  gaps ← li_list "analysis" analysis "gaps";
  career_paths ← li_list "analysis" analysis "career_paths";
  learning_tips ← li_list "analysis" analysis "learning_tips";
  mret ("
        <h2>Your Profile Analysis</h2>
        <div class=" +:+ dq +:+ "analysis-grid" +:+ dq +:+ ">
            <div class=" +:+ dq +:+ "analysis-card" +:+ dq +:+ ">
                <h3>💪 Strengths</h3>
                <ul>
                    "
      +:+ strengths
      +:+ "
                </ul>
            </div>
            <div class=" +:+ dq +:+ "analysis-card" +:+ dq +:+ ">
                <h3>🎯 Areas to Develop</h3>
                <ul>
                    "
      +:+ gaps
      +:+ "
                </ul>
            </div>
            <div class=" +:+ dq +:+ "analysis-card" +:+ dq +:+ ">
                <h3>🚀 Career Paths</h3>
                <ul>
                    "
      +:+ career_paths
      +:+ "
                </ul>
            </div>
            <div class=" +:+ dq +:+ "analysis-card" +:+ dq +:+ ">
                <h3>📚 Learning Tips</h3>
                <ul>
                    "
      +:+ learning_tips
      +:+ "
                </ul>
            </div>
        </div>
    ").

Definition displayAnalysis (analysis : JsValue) : M unit :=
  html ← liftR (displayAnalysis_html analysis);
  set_innerHTML "profile-analysis" html.

Definition renderItem (item : JsValue) (type : string) : Result string :=
  progress ← get item "progress";
  let progress := or_else progress (JObj [("status", JStr "not_started")]) in
  details ←
    (if String.eqb type "course" then
       platform ← get item "platform";
       duration ← get item "duration";
       mret ("
            <div class=" +:+ dq +:+ "item-details" +:+ dq +:+ ">
                📍 "
         +:+ toStr platform
         +:+ " | ⏱️ "
         +:+ toStr (or_else duration (JStr "Self-paced"))
         +:+ "
            </div>
        ")
     else if String.eqb type "test" then
       target_score ← get item "target_score";
       timing ← get item "timing";
       mret ("
            <div class=" +:+ dq +:+ "item-details" +:+ dq +:+ ">
                🎯 Target: "
         +:+ toStr target_score
         +:+ " | 📅 "
         +:+ toStr timing
         +:+ "
            </div>
        ")
     else if String.eqb type "internship" then
       when ← get item "when";
       companies ← get item "companies";
       companies ← join_opt "item.companies?.join" companies;
       mret ("
            <div class=" +:+ dq +:+ "item-details" +:+ dq +:+ ">
                📅 "
         +:+ toStr when
         +:+ " | 🏢 "
         +:+ toStr (or_else companies (JStr "Various companies"))
         +:+ "
            </div>
        ")
     else if String.eqb type "certificate" then
       provider ← get item "provider";
       timing ← get item "timing";
       mret ("
            <div class=" +:+ dq +:+ "item-details" +:+ dq +:+ ">
                🏫 "
         +:+ toStr provider
         +:+ " | 📅 "
         +:+ toStr timing
         +:+ "
            </div>
        ")
     else if String.eqb type "project" then
       skills ← get item "skills_demonstrated";
       skills ← join_opt "item.skills_demonstrated?.join" skills;
       mret ("
            <div class=" +:+ dq +:+ "item-details" +:+ dq +:+ ">
                🛠️ Skills: "
         +:+ toStr (or_else skills (JStr "Multiple skills"))
         +:+ "
            </div>
        ")
     else mret EmptyString);
  id ← get item "id";
  name ← get item "name";
  name ← (if truthy name then mret name else get item "type");
  description ← get item "description";
  rationale ← get item "rationale";
  status ← get progress "status";
  status_text ← call_replace "progress.status.replace" status "_" " ";
  encouragement ← get progress "encouragement_message";
  mret ("
        <div class=" +:+ dq +:+ "item-card" +:+ dq +:+ " data-item-id=" +:+ dq
      +:+ toStr id
      +:+ dq +:+ ">
            <div class=" +:+ dq +:+ "item-header" +:+ dq +:+ ">
                <div class=" +:+ dq +:+ "item-type" +:+ dq +:+ ">"
      +:+ type
      +:+ "</div>
            </div>
            <div class=" +:+ dq +:+ "item-name" +:+ dq +:+ ">"
      +:+ toStr name
      +:+ "</div>
            "
      +:+ details
      +:+ "
            "
      +:+ (if truthy description
         then "<div class=" +:+ dq +:+ "item-details" +:+ dq +:+ ">"
              +:+ toStr description
              +:+ "</div>"
         else EmptyString)
      +:+ "
            <div class=" +:+ dq +:+ "item-rationale" +:+ dq +:+ ">
                💡 "
      +:+ toStr rationale
      +:+ "
            </div>
            <div class=" +:+ dq +:+ "item-progress" +:+ dq +:+ ">
                <span class=" +:+ dq +:+ "status-badge status-"
      +:+ toStr status
      +:+ dq +:+ ">
                    "
      +:+ status_text
      +:+ "
                </span>
                "
      +:+ (if strictEq status (JStr "completed") && truthy encouragement
         then "<div class=" +:+ dq +:+ "encouragement-message" +:+ dq +:+ ">"
              +:+ toStr encouragement
              +:+ "</div>"
         else EmptyString)
      +:+ "
            </div>
        </div>
    ").

Definition renderPhaseItems (title : string) (items : JsValue) (type : string)
  : Result string :=
  if negb (truthy items) then Ok EmptyString
  else
    len ← get items "length";
    if strictEq len (JNum 0) then Ok EmptyString
    else
      cards ← call_map "items.map" items (fun item => renderItem item type);
      mret ("
        <h3>"
        +:+ title
        +:+ "</h3>
        <div class=" +:+ dq +:+ "items-grid" +:+ dq +:+ ">
            "
        +:+ concat cards
        +:+ "
        </div>
    ").

(** The callback of [roadmap.phases.map]. *)
Definition phase_html (phase : JsValue) : Result string :=
  title ← get phase "title";
  number ← get phase "phase";
  focus ← get phase "focus";
  courses ← get phase "courses";
  courses ← renderPhaseItems "Courses 📚" courses "course";
  projects ← get phase "projects";
  projects ← renderPhaseItems "Projects 💻" projects "project";
  certificates ← get phase "certificates";
  certificates ← renderPhaseItems "Certificates 🏆" certificates "certificate";
  internships ← get phase "internships";
  internships ← renderPhaseItems "Internships 💼" internships "internship";
  tests ← get phase "tests";
  tests ← renderPhaseItems "Tests 📝" tests "test";
  mret ("
        <div class=" +:+ dq +:+ "phase-card" +:+ dq +:+ ">
            <div class=" +:+ dq +:+ "phase-header" +:+ dq +:+ ">
                <div>
                    <h2>"
      +:+ toStr title
      +:+ "</h2>
                    <span class=" +:+ dq +:+ "phase-badge" +:+ dq +:+ ">Phase "
      +:+ toStr number
      +:+ "</span>
                </div>
            </div>
            <p class=" +:+ dq +:+ "phase-focus" +:+ dq +:+ ">Focus: "
      +:+ toStr focus
      +:+ "</p>

            "
      +:+ courses
      +:+ "
            "
      +:+ projects
      +:+ "
            "
      +:+ certificates
      +:+ "
            "
      +:+ internships
      +:+ "
            "
      +:+ tests
      +:+ "
        </div>
    ").

Definition roadmap_empty : string :=
  "<p class=" +:+ dq +:+ "empty-state" +:+ dq +:+ ">No roadmap data available</p>".

Definition displayRoadmap_html (roadmap : JsValue) : Result string :=
  if negb (truthy roadmap) then Ok roadmap_empty
  else
    phases ← get roadmap "phases";
    if negb (truthy phases) then Ok roadmap_empty
    else
      cards ← call_map "roadmap.phases.map" phases phase_html;
      mret (concat cards).

Definition displayRoadmap (roadmap : JsValue) : M unit :=
  html ← liftR (displayRoadmap_html roadmap);
  set_innerHTML "roadmap-content" html.

(** [const percentage = summary.total > 0 ? Math.round(...) : 0] *)
Definition percentage (summary : JsValue) : Result float :=
  total ← get summary "total";
  if gt0 total then
    completed ← get summary "completed";
    total ← get summary "total";
    mret (Math_round (toNum completed / toNum total * 100))
  else mret PrimFloat.zero.

Definition displayProgressSummary_html (summary : JsValue) : Result string :=
  percentage ← percentage summary;
  total ← get summary "total";
  completed ← get summary "completed";
  in_progress ← get summary "in_progress";
  mret ("
        <div class=" +:+ dq +:+ "progress-stat" +:+ dq +:+ ">
            <div class=" +:+ dq +:+ "progress-stat-value" +:+ dq +:+ ">"
      +:+ toStr total
      +:+ "</div>
            <div class=" +:+ dq +:+ "progress-stat-label" +:+ dq +:+ ">Total Tasks</div>
        </div>
        <div class=" +:+ dq +:+ "progress-stat" +:+ dq +:+ ">
            <div class=" +:+ dq +:+ "progress-stat-value" +:+ dq +:+ ">"
      +:+ toStr completed
      +:+ "</div>
            <div class=" +:+ dq +:+ "progress-stat-label" +:+ dq +:+ ">Completed</div>
        </div>
        <div class=" +:+ dq +:+ "progress-stat" +:+ dq +:+ ">
            <div class=" +:+ dq +:+ "progress-stat-value" +:+ dq +:+ ">"
      +:+ toStr in_progress
      +:+ "</div>
            <div class=" +:+ dq +:+ "progress-stat-label" +:+ dq +:+ ">In Progress</div>
        </div>
        <div class=" +:+ dq +:+ "progress-stat" +:+ dq +:+ ">
            <div class=" +:+ dq +:+ "progress-stat-value" +:+ dq +:+ ">"
      +:+ Number_toString percentage
      +:+ "%</div>
            <div class=" +:+ dq +:+ "progress-stat-label" +:+ dq +:+ ">Completion Rate</div>
        </div>
    ").

Definition displayProgressSummary (summary : JsValue) : M unit :=
  html ← liftR (displayProgressSummary_html summary);
  set_innerHTML "progress-summary" html.

(** [tasks.filter(t => t.item_type === filter)] when the filter is not
    ['all'], [tasks] itself otherwise. *)
Definition filteredTasks (tasks filter : JsValue) : Result JsValue :=
  if negb (strictEq filter (JStr "all")) then
    call_filter "tasks.filter" tasks
      (fun t => item_type ← get t "item_type"; mret (strictEq item_type filter))
  else Ok tasks.

(** The callback of [filteredTasks.map]. *)
Definition task_html (task : JsValue) : Result string :=
  item_name ← get task "item_name";
  item_type ← get task "item_type";
  status ← get task "status";
  status_text ← call_replace "task.status.replace" status "_" " ";
  completion_date ← get task "completion_date";
  encouragement ← get task "encouragement_message";
  item_id ← get task "item_id";
  mret ("
        <div class=" +:+ dq +:+ "task-card" +:+ dq +:+ ">
            <div class=" +:+ dq +:+ "task-info" +:+ dq +:+ ">
                <div class=" +:+ dq +:+ "task-name" +:+ dq +:+ ">"
      +:+ toStr item_name
      +:+ "</div>
                <div class=" +:+ dq +:+ "task-meta" +:+ dq +:+ ">
                    <span class=" +:+ dq +:+ "item-type" +:+ dq +:+ ">"
      +:+ toStr item_type
      +:+ "</span>
                    <span class=" +:+ dq +:+ "status-badge status-"
      +:+ toStr status
      +:+ dq +:+ ">"
      +:+ status_text
      +:+ "</span>
                    "
      +:+ (if truthy completion_date
         then "<span>✓ "
              +:+ Date_toLocaleDateString completion_date
              +:+ "</span>"
         else EmptyString)
      +:+ "
                </div>
                "
      +:+ (if truthy encouragement
         then "<div class=" +:+ dq +:+ "encouragement-message" +:+ dq +:+ ">"
              +:+ toStr encouragement
              +:+ "</div>"
         else EmptyString)
      +:+ "
            </div>
            <div class=" +:+ dq +:+ "task-actions" +:+ dq +:+ ">
                "
      +:+ (if negb (strictEq status (JStr "completed"))
         then "
                    <button class=" +:+ dq +:+ "btn btn-secondary" +:+ dq +:+ " onclick=" +:+ dq +:+ "updateTaskStatus('"
              +:+ toStr item_id
              +:+ "', 'in_progress')" +:+ dq +:+ ">
                        ▶ Start
                    </button>
                    <button class=" +:+ dq +:+ "btn btn-success" +:+ dq +:+ " onclick=" +:+ dq +:+ "updateTaskStatus('"
              +:+ toStr item_id
              +:+ "', 'completed')" +:+ dq +:+ ">
                        ✓ Complete
                    </button>
                "
         else "<span style=" +:+ dq +:+ "color: var(--success-color); font-weight: bold;" +:+ dq +:+ ">✓ Completed</span>")
      +:+ "
            </div>
        </div>
    ").

Definition tasks_empty : string :=
  "<p class=" +:+ dq +:+ "empty-state" +:+ dq +:+ ">No tasks found</p>".

Definition displayTasks_html (tasks filter : JsValue) : Result string :=
  shown ← filteredTasks tasks filter;
  len ← get shown "length";
  if strictEq len (JNum 0) then Ok tasks_empty
  else
    cards ← call_map "filteredTasks.map" shown task_html;
    mret (concat cards).

(** [displayTasks(tasks, filter = 'all')]: an undefined argument takes the
    default. *)
Definition displayTasks (tasks filter : JsValue) : M unit :=
  let filter := match filter with JUndefined => JStr "all" | _ => filter end in
  html ← liftR (displayTasks_html tasks filter);
  set_innerHTML "progress-tasks" html.


Definition resume_empty : string :=
  "<p class=" +:+ dq +:+ "empty-state" +:+ dq +:+ ">Loading resume data...</p>".

(** The callbacks of the three [forEach] loops of [displayResume]. *)
Definition experience_html (exp : JsValue) : Result string :=
  title ← get exp "title";
  date ← get exp "date";
  bullets ← li_list "exp" exp "bullets";
  mret ("
                <div class=" +:+ dq +:+ "resume-entry" +:+ dq +:+ ">
                    <div class=" +:+ dq +:+ "resume-entry-header" +:+ dq +:+ ">
                        <span>"
      +:+ toStr title
      +:+ "</span>
                        <span>"
      +:+ toStr date
      +:+ "</span>
                    </div>
                     <ul class=" +:+ dq +:+ "resume-list" +:+ dq +:+ ">
                        "
      +:+ bullets
      +:+ "
                    </ul>
                </div>
            ").

Definition project_html (proj : JsValue) : Result string :=
  name ← get proj "name";
  date ← get proj "date";
  bullets ← li_list "proj" proj "bullets";
  mret ("
                <div class=" +:+ dq +:+ "resume-entry" +:+ dq +:+ ">
                    <div class=" +:+ dq +:+ "resume-entry-header" +:+ dq +:+ ">
                        <span>"
      +:+ toStr name
      +:+ "</span>
                        <span>"
      +:+ toStr date
      +:+ "</span>
                    </div>
                     <ul class=" +:+ dq +:+ "resume-list" +:+ dq +:+ ">
                        "
      +:+ bullets
      +:+ "
                    </ul>
                </div>
            ").

Definition certification_html (cert : JsValue) : Result string :=
  name ← get cert "name";
  date ← get cert "date";
  mret ("
                <div class=" +:+ dq +:+ "resume-entry" +:+ dq +:+ ">
                    <div class=" +:+ dq +:+ "resume-entry-header" +:+ dq +:+ ">
                        <span>"
      +:+ toStr name
      +:+ "</span>
                        <span>"
      +:+ toStr date
      +:+ "</span>
                    </div>
                </div>
            ").

(** [if (xs && xs.length > 0) { html += heading; xs.forEach(entry) }],
    [name] being the expression that holds [xs]. *)
Definition resume_section (name : string) (xs : JsValue) (heading : string)
    (entry : JsValue -> Result string) : Result string :=
  if negb (truthy xs) then Ok EmptyString
  else
    len ← get xs "length";
    if gt0 len then
      entries ← call_forEach (name +:+ ".forEach") xs entry;
      mret (heading +:+ concat entries)
    else Ok EmptyString.

Definition displayResume_html (resume : JsValue) : Result string :=
  if negb (truthy resume) then Ok resume_empty
  else
    h ← get resume "header";
    if negb (truthy h) then Ok resume_empty
    else
      email ← get h "email";
      phone ← get h "phone";
      location ← get h "location";
      linkedin ← get h "linkedin";
      github ← get h "github";
      portfolio ← get h "portfolio";
      let contactParts :=
        (if truthy email then [email] else [])
        ++ (if truthy phone then [phone] else [])
        ++ (if truthy location then [location] else [])
        ++ (if truthy linkedin
            then [JStr ("<a href=" +:+ dq
                +:+ toStr linkedin
                +:+ dq +:+ " target=" +:+ dq +:+ "_blank" +:+ dq +:+ ">LinkedIn</a>")]
            else [])
        ++ (if truthy github
            then [JStr ("<a href=" +:+ dq
                +:+ toStr github
                +:+ dq +:+ " target=" +:+ dq +:+ "_blank" +:+ dq +:+ ">GitHub</a>")]
            else [])
        ++ (if truthy portfolio
            then [JStr ("<a href=" +:+ dq
                +:+ toStr portfolio
                +:+ dq +:+ " target=" +:+ dq +:+ "_blank" +:+ dq +:+ ">Portfolio</a>")]
            else []) in
      name ← get h "name";
      contact ← call_join "contactParts.join" (JArr contactParts) " | ";
      let html := "
        <div class=" +:+ dq +:+ "resume-header" +:+ dq +:+ ">
            <div class=" +:+ dq +:+ "resume-name" +:+ dq +:+ ">"
        +:+ toStr name
        +:+ "</div>
            <div class=" +:+ dq +:+ "resume-contact" +:+ dq +:+ ">
                "
        +:+ contact
        +:+ "
            </div>
        </div>
    " in
      (* Education *)
      education ← get resume "education";
      education ←
        (if truthy education then
           university ← get education "university";
           graduation_year ← get education "graduation_year";
           major ← get education "major";
           gpa ← get education "gpa";
           mret ("
            <div class=" +:+ dq +:+ "resume-section-title" +:+ dq +:+ ">Education</div>
            <div class=" +:+ dq +:+ "resume-entry" +:+ dq +:+ ">
                <div class=" +:+ dq +:+ "resume-entry-header" +:+ dq +:+ ">
                    <span>"
             +:+ toStr university
             +:+ "</span>
                    <span>"
             +:+ toStr graduation_year
             +:+ "</span>
                </div>
                <div class=" +:+ dq +:+ "resume-entry-subheader" +:+ dq +:+ ">
                    <span>"
             +:+ toStr major
             +:+ "</span>
                </div>
                "
             +:+ (if truthy gpa
              then "<div>GPA: "
                  +:+ toStr gpa
                  +:+ "</div>"
              else EmptyString)
             +:+ "
            </div>
        ")
         else mret EmptyString);
      (* Skills *)
      skills ← get resume "skills";
      skills ←
        (if negb (truthy skills) then mret EmptyString
         else
           len ← get skills "length";
           if gt0 len then
             joined ← call_join "resume.skills.join" skills ", ";
             mret ("
            <div class=" +:+ dq +:+ "resume-section-title" +:+ dq +:+ ">Skills</div>
            <div>"
               +:+ joined
               +:+ "</div>
        ")
           else mret EmptyString);
      (* Experience *)
      experience ← get resume "experience";
      experience ← resume_section "resume.experience" experience
        ("<div class=" +:+ dq +:+ "resume-section-title" +:+ dq +:+ ">Experience</div>")
        experience_html;
      (* Projects *)
      projects ← get resume "projects";
      projects ← resume_section "resume.projects" projects
        ("<div class=" +:+ dq +:+ "resume-section-title" +:+ dq +:+ ">Projects</div>")
        project_html;
      (* Certifications *)
      certifications ← get resume "certifications";
      certifications ← resume_section "resume.certifications" certifications
        ("<div class=" +:+ dq +:+ "resume-section-title" +:+ dq +:+ ">Certifications</div>")
        certification_html;
      mret (html +:+ education +:+ skills +:+ experience +:+ projects +:+ certifications).

Definition displayResume (resume : JsValue) : M unit :=
  html ← liftR (displayResume_html resume);
  set_innerHTML "resume-content" html.

Definition linkedin_empty : string :=
  "<p class=" +:+ dq +:+ "empty-state" +:+ dq +:+ ">No LinkedIn suggestions available yet</p>".

(** The callback of [data.post_ideas.map]. *)
Definition post_html (post : JsValue) : Result string :=
  topic ← get post "topic";
  draft ← get post "draft";
  hashtags ← get post "hashtags";
  hashtags ← call_map "post.hashtags.map" hashtags (fun tag => Ok ("#" +:+ toStr tag));
  mret ("
                    <div class=" +:+ dq +:+ "post-idea-card" +:+ dq +:+ ">
                        <div class=" +:+ dq +:+ "post-idea-topic" +:+ dq +:+ ">"
      +:+ toStr topic
      +:+ "</div>
                        <div class=" +:+ dq +:+ "post-idea-draft" +:+ dq +:+ ">"
      +:+ toStr draft
      +:+ "</div>
                        <div class=" +:+ dq +:+ "post-hashtags" +:+ dq +:+ ">
                            "
      +:+ join " " hashtags
      +:+ "
                        </div>
                    </div>
                ").

Definition displayLinkedIn_html (data : JsValue) : Result string :=
  if negb (truthy data) then Ok linkedin_empty
  else
    post_ideas ← get data "post_ideas";
    profile_summary ← get data "profile_summary";
    skills_to_add ← get data "skills_to_add";
    if negb (truthy post_ideas) && negb (truthy profile_summary)
       && negb (truthy skills_to_add)
    then Ok linkedin_empty
    else
      (* Profile Summary *)
      summary ←
        (if truthy profile_summary then
           mret ("
            <div class=" +:+ dq +:+ "linkedin-section" +:+ dq +:+ ">
                <h3>Profile Summary</h3>
                <div style=" +:+ dq +:+ "background: white; padding: 1.5rem; border-radius: 0.75rem; border-left: 4px solid #0077b5;" +:+ dq +:+ ">
                    "
             +:+ toStr profile_summary
             +:+ "
                </div>
            </div>
        ")
         else mret EmptyString);
      (* Post Ideas *)
      posts ←
        (if negb (truthy post_ideas) then mret EmptyString
         else
           len ← get post_ideas "length";
           if gt0 len then
             cards ← call_map "data.post_ideas.map" post_ideas post_html;
             mret ("
            <div class=" +:+ dq +:+ "linkedin-section" +:+ dq +:+ ">
                <h3>Post Ideas</h3>
                "
               +:+ concat cards
               +:+ "
            </div>
        ")
           else mret EmptyString);
      (* Skills to Add *)
      skills ←
        (if negb (truthy skills_to_add) then mret EmptyString
         else
           len ← get skills_to_add "length";
           if gt0 len then
             tags ← call_map "data.skills_to_add.map" skills_to_add
                      (fun skill => Ok ("<span class=" +:+ dq +:+ "skill-tag" +:+ dq +:+ ">"
                         +:+ toStr skill
                         +:+ "</span>"));
             mret ("
            <div class=" +:+ dq +:+ "linkedin-section" +:+ dq +:+ ">
                <h3>Skills to Add to Profile</h3>
                <div class=" +:+ dq +:+ "skills-list" +:+ dq +:+ ">
                    "
               +:+ concat tags
               +:+ "
                </div>
            </div>
        ")
           else mret EmptyString);
      mret (summary +:+ posts +:+ skills).

Definition displayLinkedIn (data : JsValue) : M unit :=
  html ← liftR (displayLinkedIn_html data);
  set_innerHTML "linkedin-content" html.

(** The click listener of a [.filter-btn]; [filter] is [btn.dataset.filter]
    (undefined when the button has no such attribute). *)
Definition filterBtn_click (filter : JsValue) : M unit :=
  on_page (set_activeFilter filter);;
  w ← world;
  if truthy (progressData (app w)) then displayTasks (progressData (app w)) filter
  else mret tt.

End Display.

(** ** A host for running the model on integer payloads

    [Number_toString] prints an integral double in decimal, as ECMAScript
    does below 10^21; the parsers read an unsigned decimal numeral and
    answer NaN on anything else; [trim] strips spaces.  The model itself
    never depends on this instance: it is used to evaluate the handlers on
    concrete inputs. *)

Module IntegerHost.

Fixpoint digits (fuel : nat) (n : Z) (acc : string) : string :=
  match fuel with
  | O => acc
  | S fuel' =>
      let d := String (ascii_of_nat (48 + Z.to_nat (n mod 10))) acc in
      if (n <? 10)%Z then d else digits fuel' (n / 10) d
  end.

Definition decimal (z : Z) : string :=
  if (z <? 0)%Z then "-" +:+ digits 400 (- z) EmptyString
  else digits 400 z EmptyString.

Definition number_toString (x : float) : string :=
  match Prim2SF x with
  | S754_zero _ => "0"
  | S754_infinity false => "Infinity"
  | S754_infinity true => "-Infinity"
  | S754_nan => "NaN"
  | S754_finite s m e =>
      let n := if s then Z.neg m else Z.pos m in
      if (0 <=? e)%Z then decimal (n * 2 ^ e)
      else if (n mod 2 ^ (- e) =? 0)%Z then decimal (n / 2 ^ (- e))
      else "NaN"
  end.

Fixpoint numeral (s : string) (acc : Z) : option Z :=
  match s with
  | EmptyString => Some acc
  | String c rest =>
      let b := nat_of_ascii c in
      if (48 <=? b)%nat && (b <=? 57)%nat
      then numeral rest (10 * acc + Z.of_nat (b - 48))
      else None
  end.

Definition number_of_string (s : string) : float :=
  match s with
  | EmptyString => PrimFloat.nan
  | _ => match numeral s 0 with
         | Some z => of_Z z
         | None => PrimFloat.nan
         end
  end.

Fixpoint trim_start (s : string) : string :=
  match s with
  | String " " rest => trim_start rest
  | _ => s
  end.

Definition trim (s : string) : string :=
  String.rev (trim_start (String.rev (trim_start s))).

#[local] Instance host : Host := {|
  Number_toString := number_toString;
  StringToNumber := fun s => match s with
                             | EmptyString => PrimFloat.zero
                             | _ => number_of_string s
                             end;
  parseFloat := number_of_string;
  parseInt := number_of_string;
  String_trim := trim;
  Date_toLocaleDateString := fun v => match v with
                                       | JStr s => s
                                       | _ => "Invalid Date"
                                       end
|}.

End IntegerHost.

(** The world when the script starts: an empty session, no request made, and
    the page, the form and its controls as the markup gives them. *)
Definition World_init (pg : Page) (wz : Wizard) (f : Fields) : World :=
  {| app := AppState_init; page := pg; wizard := wz; fields := f; requests := [] |}.

Definition Page_init : Page :=
  {| loading := false; toasts := []; timers := []; statuses := ∅;
     containers := ∅; console := []; activeFilter := JStr "all" |}.

(** *** What the user does with the form between two clicks *)

Definition set_validity (id : string) (valid : bool) (i : Input) : Input :=
  if String.eqb (input_id i) id
  then {| input_id := input_id i; input_type := input_type i;
          checkValidity := valid; error_class := error_class i |}
  else i.

(** Typing into the control [id] of step [n] makes it valid or invalid. *)
Definition retype (n : Z) (id : string) (valid : bool) (wz : Wizard) : Wizard :=
  set_formSteps
    (map (fun s => if (data_step s =? n)%Z
                   then set_step_inputs (map (set_validity id valid) (inputs s)) s
                   else s) (formSteps wz)) wz.

Inductive StepEvent : Type :=
| Advance
| Retreat
| Retype (n : Z) (id : string) (valid : bool).

Definition handle (e : StepEvent) : M unit :=
  match e with
  | Advance => nextBtn_click
  | Retreat => prevBtn_click
  | Retype n id valid => on_wizard (retype n id valid)
  end.

Fixpoint handle_all (es : list StepEvent) : M unit :=
  match es with
  | [] => mret tt
  | e :: rest => handle e;; handle_all rest
  end.

(** The state a handler leaves behind. *)
Definition exec {A} (m : M A) (w : World) : World := snd (m w).

(** The outcome of a handler. *)
Definition outcome {A} (m : M A) (w : World) : Result A := fst (m w).

(** ** Vocabulary of the properties *)

(** A control that blocks the step: not hidden, and failing its check. *)
Definition failing (i : Input) : bool :=
  negb (String.eqb (input_type i) "hidden") && negb (checkValidity i).

(** The step counter is in range. *)
Definition step_inv (wz : Wizard) : Prop :=
  (1 <= currentStep wz <= totalSteps)%Z.

(** The page has form steps and the submit button, when there is one, is
    displayed exactly at the last step. *)
Definition submit_inv (wz : Wizard) : Prop :=
  formSteps wz <> [] /\
  forall d, submitBtn wz = Some d ->
            d = if (currentStep wz =? totalSteps)%Z then "inline-flex" else "none".

(** A call fails when the transport rejects it or the status is not 2xx. *)
Definition failed (fr : FetchResult) : bool :=
  match fr with
  | Rejected _ => true
  | Responded r => negb (ok r)
  end.

(** The register call tolerates the conflict status. *)
Definition register_failed (fr : FetchResult) : bool :=
  match fr with
  | Rejected _ => true
  | Responded r => negb (ok r) && negb (status r =? 409)%Z
  end.

(** The three steps of the submission, as the handler judges the answer of
    the server to each call. *)
Definition register_step (fr : FetchResult) : Result JsValue :=
  match fr with
  | Rejected e => Throw e
  | Responded r =>
      if negb (ok r) && negb (status r =? 409)%Z
      then Throw (Error "Failed to register user")
      else
        registerData ← json r;
        user ← get registerData "user";
        mret (or_else (get_opt user "id") (JNum 1))
  end.

Definition onboard_step (fr : FetchResult) : Result unit :=
  match fr with
  | Rejected e => Throw e
  | Responded r =>
      if negb (ok r) then Throw (Error "Failed to complete onboarding")
      else onboardData ← json r; mret tt
  end.

Definition generate_step (fr : FetchResult) : Result unit :=
  match fr with
  | Rejected e => Throw e
  | Responded r =>
      if negb (ok r) then Throw (Error "Failed to generate growth path")
      else Ok tt
  end.

Definition sent (rs : list Request) (w : World) : World :=
  set_requests (requests w ++ rs) w.

Section Saga.
Context `{Host} (server : Server).

(** The submission as a three-step saga: each call is made only when the
    one before it succeeded, and the first failure goes to the catch block. *)
Definition saga (w : World) : World :=
  let w0 := exec showLoading w in
  match gather (fields w) with
  | Throw e => exec (submit_catch e) w0
  | Ok data =>
      match timeline_of (fields w) with
      | Throw e => exec (submit_catch e) w0
      | Ok timeline =>
          let q1 := register_request data in
          match register_step (server (requests w) q1) with
          | Throw e => exec (submit_catch e) (sent [q1] w0)
          | Ok userId =>
              let q2 := onboard_request userId data in
              match onboard_step (server (requests w ++ [q1]) q2) with
              | Throw e => exec (submit_catch e) (sent [q1; q2] w0)
              | Ok _ =>
                  let w1 :=
                    set_app (set_currentUser (JObj (("id", userId) :: data)) (app w)) w0 in
                  let q3 := generate_request userId timeline in
                  match generate_step (server (requests w ++ [q1; q2]) q3) with
                  | Throw e => exec (submit_catch e) (sent [q1; q2; q3] w1)
                  | Ok _ => exec submit_done (sent [q1; q2; q3] w1)
                  end
              end
          end
      end
  end.

End Saga.

(** The failure [e] has been surfaced on the page [w'] reached from [w]: the
    overlay is hidden, the error toast is the one notification added, the
    status line carries the message of [e], the error is logged, and the only
    timers set are the two that withdraw the toast and the status line. *)
Definition surfaced (e : JsError) (w w' : World) : Prop :=
  loading (page w') = false
  /\ toasts (page w')
     = toasts (page w) ++ [toast_node "Error during onboarding. Please try again." "error"]
  /\ statuses (page w') !! "onboarding-status"
     = Some {| textContent := error_message e;
               status_className := "status-message active error" |}
  /\ console (page w') = console (page w) ++ [("Onboarding error:", e)]
  /\ timers (page w')
     = timers (page w)
       ++ [(5000%Z, RemoveToast (toast_node "Error during onboarding. Please try again." "error"));
           (5000%Z, DeactivateStatus "onboarding-status")].

(** [null] or [undefined] *)
Definition nullish (v : JsValue) : bool :=
  match v with
  | JUndefined | JNull => true
  | _ => false
  end.

(** The task's [item_type] field is the string [f]. *)
Definition has_type (f : string) (t : JsValue) : bool :=
  match get t "item_type" with
  | Ok (JStr s) => String.eqb s f
  | _ => false
  end.

(** The display functions, by name. *)
Inductive DisplayFn : Type :=
| Analysis
| Roadmap
| ProgressSummary
| Tasks (filter : JsValue)
| Resume
| LinkedIn.

Section Displays.
Context `{Host}.

Definition display (d : DisplayFn) (payload : JsValue) : M unit :=
  match d with
  | Analysis => displayAnalysis payload
  | Roadmap => displayRoadmap payload
  | ProgressSummary => displayProgressSummary payload
  | Tasks filter => displayTasks payload filter
  | Resume => displayResume payload
  | LinkedIn => displayLinkedIn payload
  end.

(** The markup a display function computes from its payload. *)
Definition markup (d : DisplayFn) (payload : JsValue) : Result string :=
  match d with
  | Analysis => displayAnalysis_html payload
  | Roadmap => displayRoadmap_html payload
  | ProgressSummary => displayProgressSummary_html payload
  | Tasks filter =>
      displayTasks_html payload
        (match filter with JUndefined => JStr "all" | _ => filter end)
  | Resume => displayResume_html payload
  | LinkedIn => displayLinkedIn_html payload
  end.

End Displays.

(** The element a display function writes. *)
Definition container_of (d : DisplayFn) : string :=
  match d with
  | Analysis => "profile-analysis"
  | Roadmap => "roadmap-content"
  | ProgressSummary => "progress-summary"
  | Tasks _ => "progress-tasks"
  | Resume => "resume-content"
  | LinkedIn => "linkedin-content"
  end.

(** ** Sample page, form and servers *)

Module Sample.

Definition step1 : FormStep :=
  {| data_step := 1; step_active := true;
     inputs := [ {| input_id := "name"; input_type := "text";
                    checkValidity := true; error_class := false |};
                 {| input_id := "profile-photo-base64"; input_type := "hidden";
                    checkValidity := false; error_class := false |};
                 {| input_id := "email"; input_type := "email";
                    checkValidity := false; error_class := false |};
                 {| input_id := "major"; input_type := "text";
                    checkValidity := false; error_class := false |} ] |}.

Definition wizard0 : Wizard :=
  {| currentStep := 1;
     formSteps :=
       [ step1;
         {| data_step := 2; step_active := false; inputs := [] |};
         {| data_step := 3; step_active := false; inputs := [] |};
         {| data_step := 4; step_active := false; inputs := [] |} ];
     stepDots := [ {| dot_step := Some 1%Z; dot_active := true |};
                   {| dot_step := Some 2%Z; dot_active := false |} ];
     prevBtn := Some "none"; nextBtn := Some "inline-flex";
     submitBtn := Some "none"; focused := None |}.

Definition fields0 : Fields :=
  {| formData := list_to_map
                   [("name", "Ada"); ("email", "a@x.com"); ("major", "CS");
                    ("university", "MIT"); ("gpa", "4");
                    ("career_aspirations", "research");
                    ("target_industries", "ai, robotics");
                    ("current_skills", "coq");
                    ("experience_level", "beginner");
                    ("preferred_learning", "reading");
                    ("time_commitment", "10")];
     photoBase64 := Some EmptyString;
     photoPreview := Some None;
     reading := [];
     relocationToggle := Some false;
     horizonSlider := Some "2" |}.

Definition world0 : World := World_init Page_init wizard0 fields0.

Definition reply (st : Z) (d : JsValue) : FetchResult :=
  Responded {| status := st; json := Ok d |}.

Definition is_register (r : Request) : bool :=
  String.eqb (url r) (API_BASE_URL +:+ "/users/register").

Definition is_generate (r : Request) : bool :=
  String.eqb (url r) (API_BASE_URL +:+ "/growth-path/generate").

(** Every call succeeds; the new user has identifier 7. *)
Definition server_ok : Server := fun _ r =>
  if is_register r then reply 201 (JObj [("user", JObj [("id", JNum 7)])])
  else reply 200 (JObj [("message", JStr "ok")]).

(** Roadmap generation answers 500. *)
Definition server_generate_fails : Server := fun _ r =>
  if is_register r then reply 201 (JObj [("user", JObj [("id", JNum 7)])])
  else if is_generate r then reply 500 (JObj [("error", JStr "LLM unavailable")])
  else reply 200 (JObj [("message", JStr "ok")]).

(** The user exists already: registration answers 409 without a user. *)
Definition server_conflict : Server := fun _ r =>
  if is_register r then reply 409 (JObj [("error", JStr "User already exists")])
  else reply 200 (JObj [("message", JStr "ok")]).

(** The user exists already, and the 409 answer says who it is. *)
Definition server_conflict_known : Server := fun _ r =>
  if is_register r
  then reply 409 (JObj [("error", JStr "User already exists");
                        ("user", JObj [("id", JNum 42)])])
  else reply 200 (JObj [("message", JStr "ok")]).

(** The user exists already, and the 409 answer has no JSON body. *)
Definition server_conflict_unreadable : Server := fun _ r =>
  if is_register r
  then Responded {| status := 409;
                    json := Throw (HostError "SyntaxError" "Unexpected end of JSON input") |}
  else reply 200 (JObj [("message", JStr "ok")]).

(** The same backend, had it just created user 1. *)
Definition server_fresh : Server := fun _ r =>
  if is_register r then reply 201 (JObj [("user", JObj [("id", JNum 1)])])
  else reply 200 (JObj [("message", JStr "ok")]).

(** The network is down. *)
Definition server_down : Server := fun _ _ =>
  Rejected (HostError "TypeError" "Failed to fetch").

(** The draft gathered from [fields0]. *)
Definition data0 : list (string * JsValue) :=
  [("name", JStr "Ada"); ("email", JStr "a@x.com"); ("major", JStr "CS");
   ("university", JStr "MIT"); ("gpa", JNum 4);
   ("career_aspirations", JStr "research");
   ("target_industries", JArr [JStr "ai"; JStr "robotics"]);
   ("current_skills", JArr [JStr "coq"]);
   ("experience_level", JStr "beginner");
   ("preferred_learning", JStr "reading");
   ("preferred_content_types", JArr []);
   ("time_commitment", JStr "10");
   ("profile_photo", JNull);
   ("relocation_goal", JNull);
   ("extracurricular_interests", JArr []);
   ("planning_horizon_years", JNum 2)].

Definition tasks0 : list JsValue :=
  [ JObj [("item_id", JStr "c1"); ("item_name", JStr "Algorithms");
          ("item_type", JStr "course"); ("status", JStr "not_started")];
    JObj [("item_id", JStr "p1"); ("item_name", JStr "Compiler");
          ("item_type", JStr "project"); ("status", JStr "in_progress")];
    JObj [("item_id", JStr "c2"); ("item_name", JStr "Logic");
          ("item_type", JStr "course"); ("status", JStr "completed")] ].

End Sample.

(** ** Loading the pages *)

Definition set_currentPage (v : string) (r : AppState) : AppState :=
  {| currentUser := currentUser r; currentPage := v; roadmap := roadmap r;
     progressData := progressData r; profileData := profileData r |}.

Definition set_roadmap (v : JsValue) (r : AppState) : AppState :=
  {| currentUser := currentUser r; currentPage := currentPage r; roadmap := v;
     progressData := progressData r; profileData := profileData r |}.

Definition set_progressData (v : JsValue) (r : AppState) : AppState :=
  {| currentUser := currentUser r; currentPage := currentPage r; roadmap := roadmap r;
     progressData := v; profileData := profileData r |}.

Definition set_relocationToggle (v : option bool) (r : Fields) : Fields :=
  {| formData := formData r; photoBase64 := photoBase64 r;
     photoPreview := photoPreview r; reading := reading r;
     relocationToggle := v; horizonSlider := horizonSlider r |}.

(** [fetch(url)] *)
Definition GET (u : string) : Request :=
  {| url := u; method := "GET"; body := JUndefined |}.

(** [fetch(url, { method: 'POST', ..., body: JSON.stringify(b) })] *)
Definition POST (u : string) (b : JsValue) : Request :=
  {| url := u; method := "POST"; body := b |}.

(** The markup [<p class="empty-state">text</p>]. *)
Definition empty_state (text : string) : string :=
  "<p class=" +:+ dq +:+ "empty-state" +:+ dq +:+ ">" +:+ text +:+ "</p>".

Section Loaders.
Context `{Host} (server : Server).

(** [AppState.currentUser.id] *)
Definition currentUser_id : M JsValue :=
  w ← world;
  liftR (get (currentUser (app w)) "id").

(** The [try] block of [loadRoadmap], first part: "Load profile for
    analysis" and "Display analysis". *)
Definition load_analysis : M unit :=
  id ← currentUser_id;
  profileResponse ← fetch server (GET (API_BASE_URL +:+ "/users/" +:+ toStr id +:+ "/profile"));
  profileData ← liftR (json profileResponse);
  profile ← liftR (get profileData "profile");
  if truthy profile then
    analysis ← liftR (get profile "analysis");
    if truthy analysis then displayAnalysis analysis else mret tt
  else mret tt.

(** Second part: "Load roadmap". *)
Definition load_growth_path : M unit :=
  id ← currentUser_id;
  roadmapResponse ← fetch server (GET (API_BASE_URL +:+ "/growth-path/" +:+ toStr id));
  if negb (ok roadmapResponse) then
    set_innerHTML "roadmap-content"
      (empty_state "No roadmap found. Please complete onboarding.");;
    hideLoading
  else
    roadmapData ← liftR (json roadmapResponse);
    enriched ← liftR (get roadmapData "enriched_roadmap");
    on_app (set_roadmap enriched);;
    w ← world;
    displayRoadmap (roadmap (app w));;
    hideLoading.

Definition loadRoadmap_try : M unit :=
  load_analysis;;
  load_growth_path.

Definition loadRoadmap : M unit :=
  w ← world;
  if negb (truthy (currentUser (app w))) then
    set_innerHTML "roadmap-content" (empty_state "Please complete onboarding first")
  else
    showLoading;;
    try_catch loadRoadmap_try
      (fun error =>
         console_error "Error loading roadmap:" error;;
         showToast "Error loading roadmap" "error";;
         hideLoading).

(** The [try] block of [loadProgress], first part: "Load summary". *)
Definition load_summary : M unit :=
  id ← currentUser_id;
  summaryResponse ← fetch server (GET (API_BASE_URL +:+ "/progress/" +:+ toStr id +:+ "/summary"));
  summary ← liftR (json summaryResponse);
  displayProgressSummary summary.

(** Second part: "Load tasks". *)
Definition load_tasks : M unit :=
  id ← currentUser_id;
  tasksResponse ← fetch server (GET (API_BASE_URL +:+ "/progress/" +:+ toStr id +:+ "/tasks"));
  tasksData ← liftR (json tasksResponse);
  tasks ← liftR (get tasksData "tasks");
  on_app (set_progressData tasks);;
  w ← world;
  displayTasks (progressData (app w)) JUndefined;;
  hideLoading.

Definition loadProgress_try : M unit :=
  load_summary;;
  load_tasks.

Definition loadProgress : M unit :=
  w ← world;
  if negb (truthy (currentUser (app w))) then
    set_innerHTML "progress-tasks" (empty_state "Please complete onboarding first")
  else
    showLoading;;
    try_catch loadProgress_try
      (fun error =>
         console_error "Error loading progress:" error;;
         showToast "Error loading progress" "error";;
         hideLoading).

End Loaders.

(** ** Navigation, tabs, task updates and the profile editor

    The elements these handlers touch are kept beside the [World]: the
    navigation links and tab buttons with their [active] class, the elements
    the links and tabs point to, the inputs of the contact editor, the
    relocation controls, the toasts scheduled for later and the files handed
    to the browser for download. *)

Record NavLink : Type := mkNavLink {
  data_page : string;
  link_active : bool
}.

Record TabBtn : Type := mkTabBtn {
  data_tab : string;
  tab_active : bool
}.

(** An element with an id: [is_page] and [is_tab_content] say whether it is
    matched by [.page] and by [.tab-content]. *)
Record Pane : Type := mkPane {
  pane_id : string;
  is_page : bool;
  is_tab_content : bool;
  pane_active : bool
}.

(** [setTimeout(() => showToast(message, type), ms)] *)
Inductive Deferred : Type :=
| LaterToast (message : JsValue) (type : string).

Record Shell : Type := mkShell {
  core : World;
  navLinks : list NavLink;
  tabBtns : list TabBtn;
  panes : list Pane;
  editor : gmap string string;
  deferred : list (Z * Deferred);
  downloads : list (string * JsValue);
  relocationInputGroup : option string;
  relocationStatus : option string;
  relocationGoal : option bool
}.

Definition set_core (v : World) (r : Shell) : Shell :=
  {| core := v; navLinks := navLinks r; tabBtns := tabBtns r; panes := panes r; editor := editor r; deferred := deferred r; downloads := downloads r; relocationInputGroup := relocationInputGroup r; relocationStatus := relocationStatus r; relocationGoal := relocationGoal r |}.

Definition set_navLinks (v : list NavLink) (r : Shell) : Shell :=
  {| core := core r; navLinks := v; tabBtns := tabBtns r; panes := panes r; editor := editor r; deferred := deferred r; downloads := downloads r; relocationInputGroup := relocationInputGroup r; relocationStatus := relocationStatus r; relocationGoal := relocationGoal r |}.

Definition set_tabBtns (v : list TabBtn) (r : Shell) : Shell :=
  {| core := core r; navLinks := navLinks r; tabBtns := v; panes := panes r; editor := editor r; deferred := deferred r; downloads := downloads r; relocationInputGroup := relocationInputGroup r; relocationStatus := relocationStatus r; relocationGoal := relocationGoal r |}.

Definition set_panes (v : list Pane) (r : Shell) : Shell :=
  {| core := core r; navLinks := navLinks r; tabBtns := tabBtns r; panes := v; editor := editor r; deferred := deferred r; downloads := downloads r; relocationInputGroup := relocationInputGroup r; relocationStatus := relocationStatus r; relocationGoal := relocationGoal r |}.

Definition set_editor (v : gmap string string) (r : Shell) : Shell :=
  {| core := core r; navLinks := navLinks r; tabBtns := tabBtns r; panes := panes r; editor := v; deferred := deferred r; downloads := downloads r; relocationInputGroup := relocationInputGroup r; relocationStatus := relocationStatus r; relocationGoal := relocationGoal r |}.

Definition set_deferred (v : list (Z * Deferred)) (r : Shell) : Shell :=
  {| core := core r; navLinks := navLinks r; tabBtns := tabBtns r; panes := panes r; editor := editor r; deferred := v; downloads := downloads r; relocationInputGroup := relocationInputGroup r; relocationStatus := relocationStatus r; relocationGoal := relocationGoal r |}.

Definition set_downloads (v : list (string * JsValue)) (r : Shell) : Shell :=
  {| core := core r; navLinks := navLinks r; tabBtns := tabBtns r; panes := panes r; editor := editor r; deferred := deferred r; downloads := v; relocationInputGroup := relocationInputGroup r; relocationStatus := relocationStatus r; relocationGoal := relocationGoal r |}.

Definition set_relocationInputGroup (v : option string) (r : Shell) : Shell :=
  {| core := core r; navLinks := navLinks r; tabBtns := tabBtns r; panes := panes r; editor := editor r; deferred := deferred r; downloads := downloads r; relocationInputGroup := v; relocationStatus := relocationStatus r; relocationGoal := relocationGoal r |}.

Definition set_relocationStatus (v : option string) (r : Shell) : Shell :=
  {| core := core r; navLinks := navLinks r; tabBtns := tabBtns r; panes := panes r; editor := editor r; deferred := deferred r; downloads := downloads r; relocationInputGroup := relocationInputGroup r; relocationStatus := v; relocationGoal := relocationGoal r |}.

Definition set_relocationGoal (v : option bool) (r : Shell) : Shell :=
  {| core := core r; navLinks := navLinks r; tabBtns := tabBtns r; panes := panes r; editor := editor r; deferred := deferred r; downloads := downloads r; relocationInputGroup := relocationInputGroup r; relocationStatus := relocationStatus r; relocationGoal := v |}.

Definition Act (A : Type) : Type := Shell -> Result A * Shell.

#[global] Instance Act_ret : MRet Act := fun _ a s => (Ok a, s).
#[global] Instance Act_bind : MBind Act := fun _ _ f m s =>
  match m s with
  | (Ok a, s') => f a s'
  | (Throw e, s') => (Throw e, s')
  end.

Definition shell : Act Shell := fun s => (Ok s, s).
Definition update (f : Shell -> Shell) : Act unit := fun s => (Ok tt, f s).
Definition raise {A} (e : JsError) : Act A := fun s => (Throw e, s).

(** A handler of the [World] run on the page. *)
Definition lift {A} (m : M A) : Act A :=
  fun s => (fst (m (core s)), set_core (snd (m (core s))) s).

(** [try { body } catch (error) { handler }] *)
Definition try_catch_act (body : Act unit) (handler : JsError -> Act unit) : Act unit :=
  fun s =>
    match body s with
    | (Ok tt, s') => (Ok tt, s')
    | (Throw e, s') => handler e s'
    end.

Definition set_pane_active (b : bool) (p : Pane) : Pane :=
  {| pane_id := pane_id p; is_page := is_page p;
     is_tab_content := is_tab_content p; pane_active := b |}.

(** [document.getElementById(id).classList.add('active')]: the first element
    with the id; [None] when there is none. *)
Fixpoint activate_first (id : string) (ps : list Pane) : option (list Pane) :=
  match ps with
  | [] => None
  | p :: rest =>
      if String.eqb (pane_id p) id then Some (set_pane_active true p :: rest)
      else (fun ps' => p :: ps') <$> activate_first id rest
  end.

(** [els.forEach(el => el.classList.remove('active'))] over the elements a
    selector matches, then [getElementById(id).classList.add('active')]. *)
Definition show_only (matched : Pane -> bool) (id : string) : Act unit :=
  update (fun s =>
    set_panes (map (fun p => if matched p then set_pane_active false p else p)
                 (panes s)) s);;
  s ← shell;
  match activate_first id (panes s) with
  | None => raise (null_read "classList")
  | Some ps => update (set_panes ps)
  end.

(** [setTimeout(() => showToast(message, type), ms)] *)
Definition setTimeout_toast (message : JsValue) (type : string) (ms : Z) : Act unit :=
  update (fun s => set_deferred (deferred s ++ [(ms, LaterToast message type)]) s).

(** [if (document.getElementById(id)) document.getElementById(id).value = v] *)
Definition set_value_if_present `{Host} (id : string) (v : JsValue) : Act unit :=
  update (fun s =>
    match editor s !! id with
    | Some _ => set_editor (<[id := toStr v]> (editor s)) s
    | None => s
    end).

(** [document.getElementById(id).value] *)
Definition editor_value (id : string) : Act JsValue :=
  s ← shell;
  match editor s !! id with
  | Some v => mret (JStr v)
  | None => raise (null_read "value")
  end.

(** The session check at the head of a handler. *)
Definition signed_in (s : Shell) : bool := truthy (currentUser (app (core s))).

Section Pages.
Context `{Host} (server : Server).

(** The [try] block of [loadProfile]. *)
Definition loadProfile_try : Act unit :=
  (* Load resume *)
  id ← lift currentUser_id;
  resumeResponse ←
    lift (fetch server (GET (API_BASE_URL +:+ "/profile/" +:+ toStr id +:+ "/resume")));
  resumeData ← lift (liftR (json resumeResponse));
  (* Populate editor fields *)
  resume ← lift (liftR (get resumeData "resume"));
  (if truthy resume then
     h ← lift (liftR (get resume "header"));
     if truthy h then
       phone ← lift (liftR (get h "phone"));
       set_value_if_present "res-phone" (or_else phone (JStr EmptyString));;
       linkedin ← lift (liftR (get h "linkedin"));
       set_value_if_present "res-linkedin" (or_else linkedin (JStr EmptyString));;
       github ← lift (liftR (get h "github"));
       set_value_if_present "res-github" (or_else github (JStr EmptyString));;
       portfolio ← lift (liftR (get h "portfolio"));
       set_value_if_present "res-portfolio" (or_else portfolio (JStr EmptyString))
     else mret tt
   else mret tt);;
  lift (displayResume resume);;
  (* Load LinkedIn *)
  id ← lift currentUser_id;
  linkedinResponse ←
    lift (fetch server (GET (API_BASE_URL +:+ "/profile/" +:+ toStr id +:+ "/linkedin")));
  linkedinData ← lift (liftR (json linkedinResponse));
  lift (displayLinkedIn linkedinData);;
  lift hideLoading.

Definition loadProfile : Act unit :=
  s ← shell;
  if negb (signed_in s) then mret tt
  else
    lift showLoading;;
    try_catch_act loadProfile_try
      (fun error =>
         lift (console_error "Error loading profile:" error;;
               showToast "Error loading profile" "error";;
               hideLoading)).

(** A load started without [await] is run in place: nothing in the caller
    follows it that the load could observe. *)
Definition loadPageData (page : string) : Act unit :=
  s ← shell;
  if negb (signed_in s) then mret tt
  else if String.eqb page "roadmap" then lift (loadRoadmap server)
  else if String.eqb page "progress" then lift (loadProgress server)
  else if String.eqb page "profile" then loadProfile
  else mret tt.

(** The click listener of the [i]-th [.nav-link]. *)
Definition navLink_click (i : nat) : Act unit :=
  s ← shell;
  match navLinks s !! i with
  | None => mret tt
  | Some link =>
      let targetPage := data_page link in
      (* Update active nav link *)
      update (set_navLinks
                (imap (fun j l => {| data_page := data_page l;
                                     link_active := Nat.eqb j i |}) (navLinks s)));;
      (* Show target page *)
      show_only is_page (targetPage +:+ "-page");;
      lift (on_app (set_currentPage targetPage));;
      (* Load page data *)
      loadPageData targetPage
  end.

(** The click listener of the [i]-th [.tab-btn]. *)
Definition tabBtn_click (i : nat) : Act unit :=
  s ← shell;
  match tabBtns s !! i with
  | None => mret tt
  | Some btn =>
      let targetTab := data_tab btn in
      update (set_tabBtns
                (imap (fun j b => {| data_tab := data_tab b;
                                     tab_active := Nat.eqb j i |}) (tabBtns s)));;
      show_only is_tab_content (targetTab +:+ "-tab")
  end.

(** [updateTaskStatus(itemId, status)], as the buttons of a task card call
    it. *)
Definition updateTaskStatus (itemId status : string) : Act unit :=
  s ← shell;
  if negb (signed_in s) then mret tt
  else
    lift showLoading;;
    try_catch_act
      (id ← lift currentUser_id;
       response ←
         lift (fetch server
                 (POST (API_BASE_URL +:+ "/progress/update")
                    (JObj [("user_id", id); ("item_id", JStr itemId);
                           ("status", JStr status)])));
       if negb (ok response) then raise (Error "Failed to update progress")
       else
         data ← lift (liftR (json response));
         lift hideLoading;;
         (if String.eqb status "completed" then
            lift (showToast "🎉 Great job! Task completed!" "success");;
            progress ← lift (liftR (get data "progress"));
            message ← lift (liftR (get progress "encouragement_message"));
            if truthy message then setTimeout_toast message "info" 1000
            else mret tt
          else lift (showToast "Task status updated" "success"));;
         (* Reload progress *)
         lift (loadProgress server))
      (fun error =>
         lift (console_error "Error updating task:" error;;
               showToast "Error updating task" "error";;
               hideLoading)).

(** What a scheduled toast does when its timer fires. *)
Definition fire (d : Deferred) : M unit :=
  match d with
  | LaterToast message type => showToast (toStr message) type
  end.

(** The submit listener of [#resume-details-form].  [loadProfile()] is not
    awaited there: its continuation runs after the [finally] block, which
    only hides the overlay again, so the state reached is the same. *)
Definition resumeForm_submit : Act unit :=
  s ← shell;
  if negb (signed_in s) then mret tt
  else
    lift showLoading;;
    try_catch_act
      (id ← lift currentUser_id;
       phone ← editor_value "res-phone";
       linkedin ← editor_value "res-linkedin";
       github ← editor_value "res-github";
       portfolio ← editor_value "res-portfolio";
       response ←
         lift (fetch server
                 (POST (API_BASE_URL +:+ "/profile/details")
                    (JObj [("user_id", id); ("phone_number", phone);
                           ("linkedin_url", linkedin); ("github_url", github);
                           ("portfolio_url", portfolio)])));
       if ok response then
         lift (showToast "Contact details saved!" "success");;
         loadProfile (* Reload to update resume *)
       else mret tt)
      (fun err =>
         lift (console_error EmptyString err;;
               showToast "Failed to save details" "error"));;
    lift hideLoading.

(** The click listener of [#refresh-profile]. *)
Definition refreshProfile_click : Act unit :=
  s ← shell;
  if negb (signed_in s) then mret tt
  else
    lift showLoading;;
    try_catch_act
      (id ← lift currentUser_id;
       response ←
         lift (fetch server
                 (POST (API_BASE_URL +:+ "/profile/refresh") (JObj [("user_id", id)])));
       if negb (ok response) then raise (Error "Failed to refresh profile")
       else
         lift hideLoading;;
         lift (showToast "Profile refreshed successfully!" "success");;
         loadProfile)
      (fun error =>
         lift (console_error "Error refreshing profile:" error;;
               showToast "Error refreshing profile" "error";;
               hideLoading)).

(** The click listener of [#download-resume]; the entry added to
    [downloads] is the file name and the value handed to [JSON.stringify]. *)
Definition downloadResume_click : Act unit :=
  s ← shell;
  if negb (signed_in s) then mret tt
  else
    try_catch_act
      (id ← lift currentUser_id;
       response ←
         lift (fetch server (GET (API_BASE_URL +:+ "/profile/" +:+ toStr id +:+ "/resume")));
       data ← lift (liftR (json response));
       resume ← lift (liftR (get data "resume"));
       update (fun s => set_downloads (downloads s ++ [("resume.json", resume)]) s);;
       lift (showToast "Resume downloaded!" "success"))
      (fun error =>
         lift (console_error "Error downloading resume:" error;;
               showToast "Error downloading resume" "error")).

(** The click listener of [#refresh-roadmap]; [confirmed] is what the user
    answers to the [confirm] dialog. *)
Definition refreshRoadmap_click (confirmed : bool) : Act unit :=
  s ← shell;
  if negb (signed_in s) then mret tt
  else if negb confirmed then mret tt
  else
    lift showLoading;;
    try_catch_act
      (id ← lift currentUser_id;
       response ←
         lift (fetch server
                 (POST (API_BASE_URL +:+ "/growth-path/generate")
                    (JObj [("user_id", id); ("timeline_months", JNum 12)])));
       if negb (ok response) then raise (Error "Failed to regenerate roadmap")
       else
         lift hideLoading;;
         lift (showToast "Roadmap regenerated successfully!" "success");;
         lift (loadRoadmap server))
      (fun error =>
         lift (console_error "Error regenerating roadmap:" error;;
               showToast "Error regenerating roadmap" "error";;
               hideLoading)).

End Pages.

(** The change listener of [#relocation-toggle] (registered only when the
    toggle, the input group and the status text are in the document);
    [checked] is the state the user has put the box in. *)
Definition relocationToggle_change (checked : bool) : Act unit :=
  s ← shell;
  match relocationToggle (fields (core s)), relocationInputGroup s, relocationStatus s with
  | Some _, Some _, Some _ =>
      lift (on_fields (set_relocationToggle (Some checked)));;
      update (fun s =>
        set_relocationGoal ((fun _ => checked) <$> relocationGoal s)
          (set_relocationStatus (Some (if checked then "Yes" else "No"))
             (set_relocationInputGroup (Some (if checked then "block" else "none")) s)))
  | _, _, _ => mret tt
  end.

(** The page when the script starts. *)
Definition Shell_init (w : World) (links : list NavLink) (tabs : list TabBtn)
    (ps : list Pane) (ed : gmap string string) : Shell :=
  {| core := w; navLinks := links; tabBtns := tabs; panes := ps; editor := ed;
     deferred := []; downloads := [];
     relocationInputGroup := Some "none"; relocationStatus := Some "No";
     relocationGoal := Some false |}.

Definition run {A} (m : Act A) (s : Shell) : Shell := snd (m s).

(** ** Vocabulary of the further properties *)

(** The page after [container.innerHTML = html]. *)
Definition written (id html : string) (w : World) : World :=
  set_page (set_containers (<[id := html]> (containers (page w))) (page w)) w.

(** A cell of the progress summary: the value shown and, under it, its
    label. *)
Definition stat_value (text label : string) : string :=
  "<div class=" +:+ dq +:+ "progress-stat-value" +:+ dq +:+ ">" +:+ text +:+ "</div>
            <div class=" +:+ dq +:+ "progress-stat-label" +:+ dq +:+ ">" +:+ label +:+ "</div>".

(** The markup [html] has the cell that shows [text] over [label]. *)
Definition has_stat (text label html : string) : Prop :=
  exists before after : string, html = before +:+ stat_value text label +:+ after.

(** Number of commas in a string. *)
Fixpoint commas (s : string) : nat :=
  match s with
  | EmptyString => 0
  | String c rest => (if Ascii.eqb c "," then 1 else 0) + commas rest
  end.

(** What a Next click leaves on a control of the step it checks. *)
Definition marked (i : Input) : Input :=
  if String.eqb (input_type i) "hidden" then i
  else set_error_class (negb (checkValidity i)) i.

(** A series of clicks on filter buttons, each handled from the state the
    one before left (a click whose redraw throws leaves its state too). *)
Definition filter_clicks `{Host} (vs : list JsValue) (w : World) : World :=
  fold_left (fun w v => exec (filterBtn_click v) w) vs w.

Module Sample2.

(** A session as a completed onboarding leaves it. *)
Definition user0 : JsValue := JObj (("id", JNum 7) :: Sample.data0).

Definition signed : World :=
  set_app (set_currentUser user0 (app Sample.world0)) Sample.world0.

Definition shell0 (w : World) : Shell :=
  Shell_init w
    [ {| data_page := "onboarding"; link_active := true |};
      {| data_page := "roadmap"; link_active := false |};
      {| data_page := "progress"; link_active := false |};
      {| data_page := "profile"; link_active := false |};
      {| data_page := "settings"; link_active := false |} ]
    [ {| data_tab := "resume"; tab_active := true |};
      {| data_tab := "linkedin"; tab_active := false |} ]
    [ {| pane_id := "onboarding-page"; is_page := true; is_tab_content := false;
         pane_active := true |};
      {| pane_id := "roadmap-page"; is_page := true; is_tab_content := false;
         pane_active := false |};
      {| pane_id := "progress-page"; is_page := true; is_tab_content := false;
         pane_active := false |};
      {| pane_id := "profile-page"; is_page := true; is_tab_content := false;
         pane_active := false |};
      {| pane_id := "resume-tab"; is_page := false; is_tab_content := true;
         pane_active := true |};
      {| pane_id := "linkedin-tab"; is_page := false; is_tab_content := true;
         pane_active := false |} ]
    (list_to_map [("res-phone", EmptyString); ("res-linkedin", EmptyString);
                  ("res-github", EmptyString); ("res-portfolio", EmptyString)]).

(** The form of [Sample.fields0] without its skills field. *)
Definition fields_without_skills : Fields :=
  {| formData := delete "current_skills" (formData Sample.fields0);
     photoBase64 := photoBase64 Sample.fields0;
     photoPreview := photoPreview Sample.fields0;
     reading := reading Sample.fields0;
     relocationToggle := relocationToggle Sample.fields0;
     horizonSlider := horizonSlider Sample.fields0 |}.

Definition reply (st : Z) (d : JsValue) : FetchResult :=
  Responded {| status := st; json := Ok d |}.

Definition ends_with (suffix s : string) : bool :=
  String.prefix (String.rev suffix) (String.rev s).

Definition roadmap0 : JsValue :=
  JObj [("phases", JArr [JObj [("phase", JNum 1); ("title", JStr "Basics");
                               ("focus", JStr "foundations")]])].

Definition summary0 : JsValue :=
  JObj [("total", JNum 3); ("completed", JNum 1); ("in_progress", JNum 1)].

(** A backend that knows the user: every route answers 200. *)
Definition backend : Server := fun _ r =>
  if ends_with "/summary" (url r) then reply 200 summary0
  else if ends_with "/tasks" (url r) then reply 200 (JObj [("tasks", JArr Sample.tasks0)])
  else if ends_with "/profile" (url r) then reply 200 (JObj [("profile", JNull)])
  else if ends_with "/resume" (url r) then
    reply 200 (JObj [("resume", JObj [("header", JObj [("name", JStr "Ada");
                                                        ("phone", JStr "555")])])])
  else if ends_with "/linkedin" (url r) then reply 200 (JObj [])
  else if ends_with "/progress/update" (url r) then
    reply 200 (JObj [("progress", JObj [("status", JStr "completed");
                                        ("encouragement_message", JStr "Well done")])])
  else if String.eqb (method r) "GET" then reply 200 (JObj [("enriched_roadmap", roadmap0)])
  else reply 200 (JObj [("message", JStr "ok")]).

(** The same backend with the growth path missing. *)
Definition backend_without_roadmap : Server := fun l r =>
  if String.eqb (method r) "GET" && negb (ends_with "/profile" (url r))
     && negb (ends_with "/summary" (url r)) && negb (ends_with "/tasks" (url r))
     && negb (ends_with "/resume" (url r)) && negb (ends_with "/linkedin" (url r))
  then reply 404 (JObj [("error", JStr "No growth path")])
  else backend l r.

(** A backend that accepts an update without sending the progress record. *)
Definition backend_terse : Server := fun l r =>
  if ends_with "/progress/update" (url r) then reply 200 (JObj [("ok", JBool true)])
  else backend l r.

(** A backend that refuses every POST. *)
Definition backend_readonly : Server := fun l r =>
  if String.eqb (method r) "POST" then reply 403 (JObj [("error", JStr "read only")])
  else backend l r.

(** A backend that does not know the user: every route answers 404. *)
Definition backend_unknown_user : Server := fun _ _ =>
  reply 404 (JObj [("error", JStr "User not found")]).

(** A backend whose profile has an analysis without its lists. *)
Definition backend_bare_analysis : Server := fun l r =>
  if ends_with "/profile" (url r)
  then reply 200 (JObj [("profile", JObj [("analysis", JObj [("summary", JStr "ok")])])])
  else backend l r.

(** A backend whose growth path is not a list of phases. *)
Definition backend_odd_roadmap : Server := fun l r =>
  if String.prefix (API_BASE_URL +:+ "/growth-path/") (url r) && String.eqb (method r) "GET"
  then reply 200 (JObj [("enriched_roadmap", JObj [("phases", JNum 3)])])
  else backend l r.

(** The answers of [server] with every status replaced by [st]. *)
Definition with_status (st : Z) (server : Server) : Server := fun l r =>
  match server l r with
  | Rejected e => Rejected e
  | Responded resp => Responded {| status := st; json := json resp |}
  end.

End Sample2.

(** Which steps carry the [active] class when the counter is [n]: the first
    one whose [data-step] is [n], and no other. *)
Fixpoint shown_steps (n : Z) (numbers : list Z) : list bool :=
  match numbers with
  | [] => []
  | k :: rest =>
      if (k =? n)%Z then true :: map (fun _ => false) rest
      else false :: shown_steps n rest
  end.

(** The visible state of the form is the one the counter calls for. *)
Definition in_step (wz : Wizard) : Prop :=
  formSteps wz <> []
  /\ map step_active (formSteps wz)
     = shown_steps (currentStep wz) (map data_step (formSteps wz))
  /\ Forall (fun dot => dot_active dot
                        = match dot_step dot with
                          | Some k => (k <=? currentStep wz)%Z
                          | None => false
                          end) (stepDots wz)
  /\ (forall d, prevBtn wz = Some d ->
                d = if (1 <? currentStep wz)%Z then "inline-flex" else "none")
  /\ (forall d, nextBtn wz = Some d ->
                d = if (currentStep wz =? totalSteps)%Z then "none" else "inline-flex").

(** What a loader leaves alone: the form, its controls, the session
    identity and the current page. *)
Definition frame (w w' : World) : Prop :=
  wizard w' = wizard w /\ fields w' = fields w
  /\ currentUser (app w') = currentUser (app w)
  /\ currentPage (app w') = currentPage (app w).

(** A handler that only reads from the backend: it keeps the [frame] and
    adds at most [k] requests to the log, all of them GETs. *)
Definition reads_only {A} (k : nat) (m : M A) : Prop :=
  forall w : World,
    frame w (exec m w)
    /\ exists rs : list Request,
         requests (exec m w) = requests w ++ rs
         /\ length rs <= k
         /\ Forall (fun r => method r = "GET") rs.

(** A handler that hides the overlay whenever it returns. *)
Definition releases {A} (m : M A) : Prop :=
  forall w : World, is_ok (outcome m w) = true -> loading (page (exec m w)) = false.

(** The analysis [loadRoadmap] displays, if the profile answer has one. *)
Definition analysis_of (profileData : JsValue) : Result (option JsValue) :=
  profile ← get profileData "profile";
  if truthy profile then
    analysis ← get profile "analysis";
    mret (if truthy analysis then Some analysis else None)
  else mret None.

(** Two answers that a handler which never looks at the status cannot tell
    apart. *)
Definition same_body (a b : FetchResult) : Prop :=
  match a, b with
  | Rejected e, Rejected e' => e = e'
  | Responded r, Responded r' => json r = json r'
  | _, _ => False
  end.

(** What a handler of the shell leaves alone: the navigation links, the tab
    buttons, the pages and tab contents, and the [frame] of the page. *)
Definition steady (s s' : Shell) : Prop :=
  navLinks s' = navLinks s /\ tabBtns s' = tabBtns s /\ panes s' = panes s
  /\ frame (core s) (core s').

(** An overlay that is hidden stays hidden. *)
Definition calm (w w' : World) : Prop :=
  loading (page w) = false -> loading (page w') = false.

(** The handlers of the shell that guard themselves with a session check
    and a [try] block. *)
Definition guarded_handlers `{Host} (server : Server) (target itemId status : string)
    (confirmed : bool) : list (Act unit) :=
  [ loadProfile server; loadPageData server target;
    updateTaskStatus server itemId status; resumeForm_submit server;
    refreshProfile_click server; downloadResume_click server;
    refreshRoadmap_click server confirmed ].

(** What the body of a guarded handler does to the shell: it is [steady]
    and keeps a hidden overlay hidden. *)
Definition gentle (s s' : Shell) : Prop :=
  steady s s' /\ calm (core s) (core s').

(** A handler that hides the overlay whenever it returns. *)
Definition settles {A} (m : Act A) : Prop :=
  forall s : Shell,
    is_ok (fst (m s)) = true -> loading (page (core (run m s))) = false.

(** An answer that makes a handler give up: the request was rejected, or
    the status is outside 200..299. *)
Definition refused (a : FetchResult) : bool :=
  match a with
  | Rejected _ => true
  | Responded r => negb (ok r)
  end.

(** The error such an answer is turned into. *)
Definition refusal (a : FetchResult) (msg : string) : JsError :=
  match a with
  | Rejected e => e
  | Responded _ => Error msg
  end.

(** What the first half of a click on a link or tab does to the elements
    a selector matches. *)
Definition hide (matched : Pane -> bool) (p : Pane) : Pane :=
  if matched p then set_pane_active false p else p.

(** Of the elements a selector matches, only those with the id [id] are
    active. *)
Definition only_shown (matched : Pane -> bool) (id : string) (ps : list Pane) : Prop :=
  forall p, p ∈ ps -> matched p = true -> pane_active p = true -> pane_id p = id.

(** The editor inputs [loadProfile] fills, each with the field of the resume
    header it shows. *)
Definition header_inputs : list (string * string) :=
  [("res-phone", "phone"); ("res-linkedin", "linkedin");
   ("res-github", "github"); ("res-portfolio", "portfolio")].

(** * Properties *)

Lemma bind_run {A B} (m : M A) (f : A -> M B) (w : World) :
  (m ≫= f) w
  = match m w with
    | (Ok a, w') => f a w'
    | (Throw e, w') => (Throw e, w')
    end.
Proof. reflexivity. Qed.

Lemma showToast_run (msg ty : string) (w : World) :
  showToast msg ty w
  = (Ok tt,
     set_page (set_timers (timers (page w) ++ [(5000%Z, RemoveToast (toast_node msg ty))])
                 (set_toasts (toasts (page w) ++ [toast_node msg ty]) (page w))) w).
Proof. reflexivity. Qed.

(** ** The multi-step form *)

Lemma scan_isValid (ins : list Input) : forall st,
  isValid (fold_left check_input ins st)
  = isValid st && forallb (fun i => negb (failing i)) ins.
Proof.
  induction ins as [|i ins IH]; intros st; simpl.
  - by rewrite andb_true_r.
  - rewrite IH. unfold check_input, failing.
    destruct (String.eqb (input_type i) "hidden"); simpl; [done|].
    destruct (checkValidity i); simpl; [done|].
    by rewrite andb_false_r.
Qed.

Lemma scan_firstInvalid (ins : list Input) : forall st,
  firstInvalid (fold_left check_input ins st)
  = match firstInvalid st with
    | Some i => Some i
    | None => input_id <$> List.find failing ins
    end.
Proof.
  induction ins as [|i ins IH]; intros st; simpl.
  - by destruct (firstInvalid st).
  - rewrite IH. unfold check_input, failing.
    destruct (String.eqb (input_type i) "hidden"); simpl; [done|].
    destruct (checkValidity i); simpl; [done|].
    by destruct (firstInvalid st).
Qed.

Lemma find_failing_forallb (ins : list Input) :
  forallb (fun i => negb (failing i)) ins
  = match List.find failing ins with Some _ => false | None => true end.
Proof.
  induction ins as [|i ins IH]; simpl; [done|].
  destruct (failing i); simpl; [done | exact IH].
Qed.

(** The world the Next handler leaves, spelled out. *)
Lemma nextBtn_click_run (w : World) (d : string) (el : FormStep) :
  nextBtn (wizard w) = Some d ->
  querySelector_step (currentStep (wizard w)) (formSteps (wizard w)) = Some el ->
  let wz := wizard w in
  let st := scan_inputs (focused wz) (inputs el) in
  let wz1 := set_focused (scan_focus st)
               (set_formSteps
                  (on_first_step (currentStep wz) (set_step_inputs (scanned st))
                     (formSteps wz)) wz) in
  nextBtn_click w
  = if isValid st then
      (Ok tt,
       set_wizard (if (currentStep wz <? totalSteps)%Z
                   then updateStepVisibility (set_currentStep (currentStep wz + 1) wz1)
                   else wz1) w)
    else
      showToast "Please fill in all required fields." "error"
        (set_wizard (match firstInvalid st with
                     | Some i => set_focused (Some i) wz1
                     | None => wz1
                     end) w).
Proof.
  intros Hn Hq. unfold nextBtn_click.
  rewrite bind_run. simpl. rewrite Hn, Hq.
  rewrite bind_run. simpl.
  destruct (isValid _).
  - destruct (currentStep (wizard w) <? totalSteps)%Z; [reflexivity|].
    by destruct w.
  - rewrite bind_run.
    destruct (firstInvalid _); simpl; [reflexivity|].
    by destruct w.
Qed.

Lemma updateStepVisibility_currentStep (wz : Wizard) :
  currentStep (updateStepVisibility wz) = currentStep wz.
Proof. unfold updateStepVisibility. by destruct (formSteps wz). Qed.

Lemma on_first_step_nil (n : Z) (f : FormStep -> FormStep) (steps : list FormStep) :
  on_first_step n f steps = [] -> steps = [].
Proof. destruct steps; simpl; [done|]. by destruct (_ =? _)%Z. Qed.

Lemma updateStepVisibility_formSteps (wz : Wizard) :
  formSteps (updateStepVisibility wz) = [] -> formSteps wz = [].
Proof.
  unfold updateStepVisibility. destruct (formSteps wz) eqn:E; [by rewrite E|].
  simpl. destruct (_ =? _)%Z; done.
Qed.

Lemma updateStepVisibility_submitBtn (wz : Wizard) (d : string) :
  formSteps wz <> [] ->
  submitBtn (updateStepVisibility wz) = Some d ->
  d = if (currentStep wz =? totalSteps)%Z then "inline-flex" else "none".
Proof.
  unfold updateStepVisibility. destruct (formSteps wz); [done|].
  intros _. simpl. destruct (submitBtn wz); simpl; congruence.
Qed.

Lemma updateStepVisibility_submit_inv (wz : Wizard) :
  formSteps wz <> [] -> submit_inv (updateStepVisibility wz).
Proof.
  intros Hs. split.
  - intros E. by apply updateStepVisibility_formSteps in E.
  - intros d Hd. rewrite updateStepVisibility_currentStep.
    by apply updateStepVisibility_submitBtn.
Qed.

(** What the Next handler does to the form state, case by case. *)
Lemma nextBtn_click_cases (w : World) :
  exists w', nextBtn_click w = (Ok tt, w') /\
    (wizard w' = wizard w \/
     exists wz1,
       currentStep wz1 = currentStep (wizard w) /\
       submitBtn wz1 = submitBtn (wizard w) /\
       (formSteps wz1 = [] -> formSteps (wizard w) = []) /\
       (wizard w' = wz1 \/
        ((currentStep (wizard w) <? totalSteps)%Z = true /\
         wizard w'
         = updateStepVisibility (set_currentStep (currentStep (wizard w) + 1) wz1)))).
Proof.
  destruct (nextBtn (wizard w)) as [d|] eqn:Hn; cycle 1.
  { exists w. unfold nextBtn_click. rewrite bind_run. simpl. rewrite Hn. auto. }
  destruct (querySelector_step (currentStep (wizard w)) (formSteps (wizard w)))
    as [el|] eqn:Hq; cycle 1.
  { exists w. unfold nextBtn_click. rewrite bind_run. simpl. rewrite Hn, Hq. auto. }
  rewrite (nextBtn_click_run w d el Hn Hq). cbv zeta.
  set (st := scan_inputs _ _).
  set (wz1 := set_focused (scan_focus st) _).
  destruct (isValid st) eqn:Hv.
  - eexists. split; [reflexivity|]. right. exists wz1.
    repeat split; try done.
    + simpl. apply on_first_step_nil.
    + destruct (currentStep (wizard w) <? totalSteps)%Z eqn:Hlt; simpl; auto.
  - rewrite showToast_run. eexists. split; [reflexivity|]. right.
    exists (match firstInvalid st with
            | Some i => set_focused (Some i) wz1
            | None => wz1
            end).
    repeat split; try (by destruct (firstInvalid st)).
    + destruct (firstInvalid st); simpl; apply on_first_step_nil.
    + left. by destruct w.
Qed.

Lemma prevBtn_click_run (w : World) :
  prevBtn_click w
  = (Ok tt,
     if bool_decide (is_Some (prevBtn (wizard w))) && (1 <? currentStep (wizard w))%Z
     then set_wizard (updateStepVisibility
                        (set_currentStep (currentStep (wizard w) - 1) (wizard w))) w
     else w).
Proof.
  unfold prevBtn_click. rewrite bind_run. simpl.
  destruct (prevBtn (wizard w)); simpl; [|done].
  by destruct (1 <? currentStep (wizard w))%Z.
Qed.

Lemma handle_ok (e : StepEvent) (w : World) : exists w', handle e w = (Ok tt, w').
Proof.
  destruct e; simpl.
  - destruct (nextBtn_click_cases w) as (w' & -> & _). eauto.
  - rewrite prevBtn_click_run. eauto.
  - eexists. reflexivity.
Qed.

Lemma handle_step_inv (e : StepEvent) (w : World) :
  step_inv (wizard w) -> step_inv (wizard (exec (handle e) w)).
Proof.
  unfold step_inv, exec, totalSteps. intros Hi. destruct e; simpl.
  - destruct (nextBtn_click_cases w) as (w' & -> & Hw). simpl.
    destruct Hw as [-> | (wz1 & Hc & _ & _ & [-> | (Hlt & ->)])];
      [done | by rewrite Hc |].
    rewrite updateStepVisibility_currentStep. simpl.
    apply Z.ltb_lt in Hlt. unfold totalSteps in Hlt. lia.
  - rewrite prevBtn_click_run. simpl.
    destruct (bool_decide _); simpl; [|done].
    destruct (1 <? currentStep (wizard w))%Z eqn:Hlt; [|done].
    simpl. rewrite updateStepVisibility_currentStep. simpl.
    apply Z.ltb_lt in Hlt. lia.
  - done.
Qed.

Lemma retype_formSteps (n : Z) (id : string) (valid : bool) (wz : Wizard) :
  formSteps (retype n id valid wz) = [] -> formSteps wz = [].
Proof. unfold retype. simpl. by destruct (formSteps wz). Qed.

Lemma handle_submit_inv (e : StepEvent) (w : World) :
  submit_inv (wizard w) -> submit_inv (wizard (exec (handle e) w)).
Proof.
  unfold exec. intros [Hs Hd]. destruct e; simpl.
  - destruct (nextBtn_click_cases w) as (w' & -> & Hw). simpl.
    destruct Hw as [-> | (wz1 & Hc & Hb & Hn & [-> | (_ & ->)])]; [done | |].
    + split; [auto|]. rewrite Hc, Hb. exact Hd.
    + apply updateStepVisibility_submit_inv. simpl. auto.
  - rewrite prevBtn_click_run. simpl.
    destruct (bool_decide _ && _); [|done].
    simpl. by apply updateStepVisibility_submit_inv.
  - split; [intros E; by apply retype_formSteps in E | exact Hd].
Qed.

Lemma handle_all_cons (e : StepEvent) (es : list StepEvent) (w : World) :
  exec (handle_all (e :: es)) w = exec (handle_all es) (exec (handle e) w).
Proof.
  unfold exec. simpl. rewrite bind_run.
  by destruct (handle_ok e w) as (w' & ->).
Qed.

Lemma handle_all_inv (P : Wizard -> Prop) :
  (forall e w, P (wizard w) -> P (wizard (exec (handle e) w))) ->
  forall es w, P (wizard w) -> P (wizard (exec (handle_all es) w)).
Proof.
  intros Hstep es. induction es as [|e es IH]; intros w Hw; [done|].
  rewrite handle_all_cons. by apply IH, Hstep.
Qed.

(** C3. An attempt to advance (a click on Next while the current step is in
    the document) looks at the non-hidden controls of the current step only.
    If one of them fails its native constraint check, the step counter stays
    where it is, the first such control has the focus and one error toast,
    removed after 5 s, is added.  If none fails, nothing is notified and the
    counter advances by one when it is below [totalSteps]. *)
Theorem next_validates_current_step (w : World) (d : string) (el : FormStep) :
  nextBtn (wizard w) = Some d ->
  querySelector_step (currentStep (wizard w)) (formSteps (wizard w)) = Some el ->
  let w' := exec nextBtn_click w in
  let toast := toast_node "Please fill in all required fields." "error" in
  match List.find failing (inputs el) with
  | Some i =>
      currentStep (wizard w') = currentStep (wizard w)
      /\ focused (wizard w') = Some (input_id i)
      /\ toasts (page w') = toasts (page w) ++ [toast]
      /\ timers (page w') = timers (page w) ++ [(5000%Z, RemoveToast toast)]
  | None =>
      currentStep (wizard w')
      = (if (currentStep (wizard w) <? totalSteps)%Z
         then currentStep (wizard w) + 1 else currentStep (wizard w))%Z
      /\ toasts (page w') = toasts (page w)
  end.
Proof.
  intros Hn Hq. unfold exec.
  rewrite (nextBtn_click_run w d el Hn Hq). cbv zeta.
  unfold scan_inputs.
  rewrite scan_isValid, scan_firstInvalid, find_failing_forallb. simpl.
  destruct (List.find failing (inputs el)) as [i|]; simpl.
  - done.
  - split; [|done].
    destruct (currentStep (wizard w) <? totalSteps)%Z; simpl; [|done].
    by rewrite updateStepVisibility_currentStep.
Qed.

Lemma next_validates_current_step_witness :
  let w' := exec nextBtn_click Sample.world0 in
  currentStep (wizard w') = 1%Z
  /\ focused (wizard w') = Some "email"
  /\ toasts (page w') = [toast_node "Please fill in all required fields." "error"]
  /\ timers (page w')
     = [(5000%Z, RemoveToast (toast_node "Please fill in all required fields." "error"))].
Proof.
  exact (next_validates_current_step Sample.world0 "inline-flex" Sample.step1
           eq_refl eq_refl).
Defined.

(** C8. The step counter starts at 1 and stays within [1, totalSteps],
    with [totalSteps] = 4, whatever sequence of Next clicks, Previous clicks
    and edits follows; a Previous click never takes it below 1 and lowers it
    by one otherwise, without any validation; a Next click never takes it
    above the last step; and on a page that has form steps the submit button
    is displayed exactly when the counter is at the last step. *)
Theorem step_counter_invariant (w0 : World) (es : list StepEvent) :
  formSteps (wizard w0) <> [] ->
  let w1 := exec initOnboarding w0 in
  let w := exec (handle_all es) w1 in
  totalSteps = 4%Z
  /\ currentStep (wizard w1) = 1%Z
  /\ (1 <= currentStep (wizard w) <= totalSteps)%Z
  /\ (1 <= currentStep (wizard (exec prevBtn_click w)))%Z
  /\ (currentStep (wizard (exec nextBtn_click w)) <= totalSteps)%Z
  /\ (is_Some (prevBtn (wizard w)) ->
      currentStep (wizard (exec prevBtn_click w))
      = Z.max 1 (currentStep (wizard w) - 1))
  /\ (forall d, submitBtn (wizard w) = Some d ->
                d = "inline-flex" <-> currentStep (wizard w) = totalSteps).
Proof.
  intros Hsteps w1 w.
  assert (H1 : currentStep (wizard w1) = 1%Z).
  { unfold w1, exec, initOnboarding, on_wizard, modify. simpl.
    by rewrite updateStepVisibility_currentStep. }
  assert (Hi : step_inv (wizard w)).
  { apply (handle_all_inv step_inv); [apply handle_step_inv|].
    unfold step_inv. rewrite H1. unfold totalSteps. lia. }
  assert (Hs : submit_inv (wizard w)).
  { apply (handle_all_inv submit_inv); [apply handle_submit_inv|].
    unfold w1, exec, initOnboarding, on_wizard, modify. simpl.
    by apply updateStepVisibility_submit_inv. }
  split; [done|]. split; [exact H1|]. split; [exact Hi|].
  split; [apply (handle_step_inv Retreat w Hi)|].
  split; [apply (handle_step_inv Advance w Hi)|].
  split.
  - intros Hp. unfold exec. rewrite prevBtn_click_run. simpl.
    rewrite (bool_decide_eq_true_2 _ Hp). simpl.
    destruct Hi as [Hlo Hhi].
    destruct (1 <? currentStep (wizard w))%Z eqn:Hlt; simpl.
    + rewrite updateStepVisibility_currentStep. simpl.
      apply Z.ltb_lt in Hlt. lia.
    + apply Z.ltb_ge in Hlt. lia.
  - intros d Hd. destruct Hs as [_ Hs]. rewrite (Hs d Hd).
    destruct (currentStep (wizard w) =? totalSteps)%Z eqn:E.
    + apply Z.eqb_eq in E. done.
    + apply Z.eqb_neq in E. split; [discriminate | done].
Qed.

Lemma step_counter_invariant_witness :
  formSteps (wizard Sample.world0) <> []
  /\ (1 <= currentStep
             (wizard (exec (handle_all [Retype 1 "email" true; Retype 1 "major" true;
                                        Advance; Advance; Retreat])
                        (exec initOnboarding Sample.world0)))
        <= totalSteps)%Z.
Proof.
  split; [discriminate|].
  apply (step_counter_invariant Sample.world0
           [Retype 1 "email" true; Retype 1 "major" true; Advance; Advance; Retreat]).
  discriminate.
Defined.

(** ** The photo upload *)

(** C9. When a file is chosen in the photo input (the preview and the
    hidden base64 field being in the document, as the listener requires), a
    type that does not start with "image/" or a size above 2 MiB
    (2 * 1024 * 1024 = 2097152 bytes) is refused on the spot: one error toast
    is added, no reader is started, the stored base64 value is untouched and
    no request is made.  An image of at most 2097152 bytes is handed to the
    reader, without any notification or request. *)
Theorem photo_checked_locally (w : World) (file : File) (pv : option string) (b64 : string) :
  photoPreview (fields w) = Some pv ->
  photoBase64 (fields w) = Some b64 ->
  let w' := exec (photoInput_change (Some file)) w in
  (2 * 1024 * 1024 = 2097152)%N
  /\ requests w' = requests w
  /\ photoBase64 (fields w') = Some b64
  /\ if String.prefix "image/" (file_type file) && (file_size file <=? 2097152)%N
     then reading (fields w') = reading (fields w) ++ [file]
          /\ toasts (page w') = toasts (page w)
     else reading (fields w') = reading (fields w)
          /\ toasts (page w')
             = toasts (page w)
               ++ [toast_node (if String.prefix "image/" (file_type file)
                               then "Image is too large (max 2MB)"
                               else "Please upload a valid image file") "error"].
Proof.
  intros Hp Hb. split; [reflexivity|]. unfold exec, photoInput_change.
  rewrite bind_run. simpl. rewrite Hp, Hb.
  destruct (String.prefix "image/" (file_type file)); simpl.
  - change (2 * 1024 * 1024)%N with 2097152%N.
    rewrite N.ltb_antisym.
    destruct (file_size file <=? 2097152)%N; simpl; by rewrite ?Hb.
  - by rewrite Hb.
Qed.

Lemma photo_checked_locally_witness :
  let w' := exec (photoInput_change (Some {| file_type := "image/png";
                                             file_size := 2097152 |})) Sample.world0 in
  requests w' = [] /\ photoBase64 (fields w') = Some EmptyString
  /\ reading (fields w') = [ {| file_type := "image/png"; file_size := 2097152 |} ]
  /\ toasts (page w') = [].
Proof.
  exact (proj2 (photo_checked_locally Sample.world0
                  {| file_type := "image/png"; file_size := 2097152 |} None EmptyString
                  eq_refl eq_refl)).
Defined.

(** ** The onboarding submission *)

Section SubmitFacts.
Context `{Host}.

(** The submit handler never throws, and it is the three-step saga. *)
Lemma form_submit_saga (server : Server) (w : World) :
  form_submit server w = (Ok tt, saga server w).
Proof.
  unfold form_submit, saga. rewrite bind_run. simpl.
  unfold try_catch, submit_try. rewrite bind_run. simpl.
  rewrite bind_run. unfold liftR at 1. simpl.
  destruct (gather _) as [data|e]; [|reflexivity].
  rewrite bind_run. unfold liftR at 1.
  destruct (timeline_of _) as [timeline|e]; [|reflexivity].
  rewrite bind_run. unfold fetch at 1. simpl.
  destruct (server (requests w) (register_request data)) as [e|r1]; [reflexivity|].
  simpl. destruct (negb (ok r1) && negb (status r1 =? 409)%Z); [reflexivity|].
  rewrite bind_run. unfold liftR at 1.
  destruct (json r1) as [d|e]; [|reflexivity]. simpl.
  rewrite bind_run. unfold liftR at 1.
  destruct (get d "user") as [user|e]; [|reflexivity]. simpl.
  rewrite bind_run.
  assert (Hu : forall w',
             (if truthy (get_opt user "id") then mret (get_opt user "id")
              else getUserIdByEmail (assoc "email" data)) w'
             = (Ok (or_else (get_opt user "id") (JNum 1)), w')).
  { intros w'. unfold or_else. by destruct (truthy _). }
  rewrite Hu. clear Hu.
  set (userId := or_else _ _).
  rewrite bind_run. unfold fetch at 1. simpl.
  destruct (server (requests w ++ [register_request data]) (onboard_request userId data))
    as [e|r2]; [by rewrite <- !app_assoc|].
  simpl. destruct (negb (ok r2)); [by rewrite <- !app_assoc|].
  rewrite bind_run. unfold liftR at 1.
  destruct (json r2) as [d2|e]; [|by rewrite <- !app_assoc]. simpl.
  rewrite bind_run. simpl.
  rewrite bind_run. unfold fetch at 1. simpl.
  rewrite <- !app_assoc. simpl.
  destruct (server _ (generate_request userId timeline)) as [e|r3]; [reflexivity|].
  simpl. destruct (negb (ok r3)); reflexivity.
Qed.

(** What the catch block leaves. *)
Lemma submit_catch_surfaced (e : JsError) (w wx : World) :
  toasts (page wx) = toasts (page w) ->
  console (page wx) = console (page w) ->
  timers (page wx) = timers (page w) ->
  surfaced e w (exec (submit_catch e) wx)
  /\ app (exec (submit_catch e) wx) = app wx
  /\ requests (exec (submit_catch e) wx) = requests wx.
Proof.
  intros Ht Hc Hm. unfold surfaced, exec, submit_catch. simpl.
  rewrite Ht, Hc, Hm, lookup_insert_eq, <- app_assoc. done.
Qed.

Lemma failed_generate_step (fr : FetchResult) :
  failed fr = true -> exists e, generate_step fr = Throw e.
Proof.
  destruct fr as [e|r]; simpl; [eauto|]. intros ->. eauto.
Qed.

Lemma failed_onboard_step (fr : FetchResult) :
  failed fr = true -> exists e, onboard_step fr = Throw e.
Proof.
  destruct fr as [e|r]; simpl; [eauto|]. intros ->. eauto.
Qed.

Lemma failed_register_step (fr : FetchResult) :
  register_failed fr = true -> exists e, register_step fr = Throw e.
Proof.
  destruct fr as [e|r]; simpl; [eauto|]. intros ->. eauto.
Qed.

Section OneSubmission.
Variables (server : Server) (w : World).
Variables (data : list (string * JsValue)) (timeline : JsValue).
Hypothesis Hgather : gather (fields w) = Ok data.
Hypothesis Htimeline : timeline_of (fields w) = Ok timeline.

(** The submission stops at the register call. *)
Lemma stops_at_register (e : JsError) :
  register_step (server (requests w) (register_request data)) = Throw e ->
  requests (exec (form_submit server) w) = requests w ++ [register_request data]
  /\ currentUser (app (exec (form_submit server) w)) = currentUser (app w)
  /\ surfaced e w (exec (form_submit server) w).
Proof.
  intros Hr. unfold exec. rewrite form_submit_saga. simpl.
  unfold saga. rewrite Hgather, Htimeline. cbv zeta. rewrite Hr.
  edestruct (submit_catch_surfaced e w
               (sent [register_request data] (exec showLoading w)))
    as (Hs & Ha & Hq); try reflexivity.
  by rewrite Ha, Hq.
Qed.

(** The submission stops at the onboarding call. *)
Lemma stops_at_onboard (userId : JsValue) (e : JsError) :
  register_step (server (requests w) (register_request data)) = Ok userId ->
  onboard_step (server (requests w ++ [register_request data])
                  (onboard_request userId data)) = Throw e ->
  requests (exec (form_submit server) w)
  = requests w ++ [register_request data; onboard_request userId data]
  /\ currentUser (app (exec (form_submit server) w)) = currentUser (app w)
  /\ surfaced e w (exec (form_submit server) w).
Proof.
  intros Hr Ho. unfold exec. rewrite form_submit_saga. simpl.
  unfold saga. rewrite Hgather, Htimeline. cbv zeta. rewrite Hr, Ho.
  edestruct (submit_catch_surfaced e w
               (sent [register_request data; onboard_request userId data]
                  (exec showLoading w)))
    as (Hs & Ha & Hq); try reflexivity.
  by rewrite Ha, Hq.
Qed.

(** The submission stops at the roadmap call, the cached user being set. *)
Lemma stops_at_generate (userId : JsValue) (e : JsError) :
  register_step (server (requests w) (register_request data)) = Ok userId ->
  onboard_step (server (requests w ++ [register_request data])
                  (onboard_request userId data)) = Ok tt ->
  generate_step (server (requests w ++ [register_request data;
                                        onboard_request userId data])
                   (generate_request userId timeline)) = Throw e ->
  requests (exec (form_submit server) w)
  = requests w ++ [register_request data; onboard_request userId data;
                   generate_request userId timeline]
  /\ currentUser (app (exec (form_submit server) w)) = JObj (("id", userId) :: data)
  /\ surfaced e w (exec (form_submit server) w).
Proof.
  intros Hr Ho Hg. unfold exec. rewrite form_submit_saga. simpl.
  unfold saga. rewrite Hgather, Htimeline. cbv zeta. rewrite Hr, Ho, Hg.
  match goal with
  | |- context [exec (submit_catch e) ?wx] =>
      edestruct (submit_catch_surfaced e w wx) as (Hs & Ha & Hq); try reflexivity
  end.
  by rewrite Ha, Hq.
Qed.

End OneSubmission.

(** C1, as the code has it.  A call fails when the transport rejects it or
    the answer is not 2xx (409 being tolerated for register-user), and also
    when its JSON body cannot be read.  Whichever of the three calls fails,
    no later call is made and the message of the failure is surfaced.  When
    the call that fails is register-user or complete-onboarding, the cached
    user is exactly what it was before the submission; when it is
    generate-roadmap, the cached user is already the identity of the
    completed onboarding. *)
Theorem submit_failure_aborts (server : Server) (w : World)
    (data : list (string * JsValue)) (timeline : JsValue) :
  gather (fields w) = Ok data ->
  timeline_of (fields w) = Ok timeline ->
  let w' := exec (form_submit server) w in
  let q1 := register_request data in
  ((forall fr, register_failed fr = true -> exists e, register_step fr = Throw e)
   /\ (forall fr, failed fr = true -> exists e, onboard_step fr = Throw e)
   /\ (forall fr, failed fr = true -> exists e, generate_step fr = Throw e))
  /\ (forall e : JsError,
        register_step (server (requests w) q1) = Throw e ->
        requests w' = requests w ++ [q1]
        /\ currentUser (app w') = currentUser (app w)
        /\ surfaced e w w')
  /\ forall userId : JsValue,
       register_step (server (requests w) q1) = Ok userId ->
       let q2 := onboard_request userId data in
       (forall e : JsError,
          onboard_step (server (requests w ++ [q1]) q2) = Throw e ->
          requests w' = requests w ++ [q1; q2]
          /\ currentUser (app w') = currentUser (app w)
          /\ surfaced e w w')
       /\ (onboard_step (server (requests w ++ [q1]) q2) = Ok tt ->
           let q3 := generate_request userId timeline in
           forall e : JsError,
             generate_step (server (requests w ++ [q1; q2]) q3) = Throw e ->
             requests w' = requests w ++ [q1; q2; q3]
             /\ currentUser (app w') = JObj (("id", userId) :: data)
             /\ surfaced e w w').
Proof.
  intros Hg Ht w' q1. split.
  { split; [apply failed_register_step|].
    split; [apply failed_onboard_step | apply failed_generate_step]. }
  split.
  - intros e Hr. exact (stops_at_register server w data timeline Hg Ht e Hr).
  - intros userId Hr. split.
    + intros e Ho.
      exact (stops_at_onboard server w data timeline Hg Ht userId e Hr Ho).
    + intros Ho q3 e He.
      exact (stops_at_generate server w data timeline Hg Ht userId e Hr Ho He).
Qed.

(** C2. When register-user and complete-onboarding have succeeded (a 2xx
    answer, or 409 for register-user, with a JSON body that can be read) and
    the generate-roadmap call fails (a rejection or an answer that is not
    2xx), the failure is handled with the cached user already set: it is not
    null, and its identifier is the one registration produced, that is the
    [user.id] of the register answer or, without one, the identifier of the
    fallback lookup. *)
Theorem roadmap_failure_after_identity_set (server : Server) (w : World)
    (data : list (string * JsValue)) (timeline : JsValue)
    (r1 r2 : Response) (d1 user d2 : JsValue) :
  gather (fields w) = Ok data ->
  timeline_of (fields w) = Ok timeline ->
  let q1 := register_request data in
  server (requests w) q1 = Responded r1 ->
  ok r1 = true \/ status r1 = 409%Z ->
  json r1 = Ok d1 ->
  get d1 "user" = Ok user ->
  let userId := or_else (get_opt user "id") (JNum 1) in
  let q2 := onboard_request userId data in
  server (requests w ++ [q1]) q2 = Responded r2 ->
  ok r2 = true ->
  json r2 = Ok d2 ->
  let q3 := generate_request userId timeline in
  failed (server (requests w ++ [q1; q2]) q3) = true ->
  let w' := exec (form_submit server) w in
  currentUser (app w') <> JNull
  /\ get (currentUser (app w')) "id" = Ok userId
  /\ exists e, surfaced e w w'.
Proof.
  intros Hg Ht q1 Ha1 Hok1 Hj1 Hu userId q2 Ha2 Hok2 Hj2 q3 Hf w'.
  apply failed_generate_step in Hf as [e He].
  destruct (stops_at_generate server w data timeline Hg Ht userId e) as (_ & Hc & Hs).
  - fold q1. rewrite Ha1. simpl.
    replace (negb (ok r1) && negb (status r1 =? 409)%Z) with false.
    + by rewrite Hj1; simpl; rewrite Hu.
    + destruct Hok1 as [-> | ->]; [done | by rewrite andb_false_r].
  - fold q1 q2. rewrite Ha2. simpl. by rewrite Hok2, Hj2.
  - exact He.
  - fold w' in Hc, Hs. rewrite Hc. split; [done|]. split; [done | eauto].
Qed.

(** How the handler judges a 409 answer: a body that cannot be read, or
    that is null, is a failure of the register step; any other body resolves
    to its [user.id] when that is truthy and to 1 otherwise. *)
Lemma register_step_conflict (r1 : Response) :
  status r1 = 409%Z ->
  register_step (Responded r1)
  = match json r1 with
    | Throw e => Throw e
    | Ok d1 =>
        if nullish d1 then user ← get d1 "user"; mret user
        else Ok (or_else (get_opt (get_opt d1 "user") "id") (JNum 1))
    end.
Proof.
  intros Hst. simpl. rewrite Hst, andb_false_r.
  destruct (json r1) as [d1|e]; [|done]. simpl.
  by destruct d1.
Qed.

Lemma nullish_get_throws (v : JsValue) (k : string) :
  nullish v = true -> exists e, get v k = Throw e.
Proof. destruct v; try done; eauto. Qed.

(** Once the register step has resolved to [userId], the next call is
    complete-onboarding for [userId], and a completed onboarding caches the
    draft under that identifier. *)
Lemma proceeds_to_onboard (server : Server) (w : World)
    (data : list (string * JsValue)) (timeline userId : JsValue) :
  gather (fields w) = Ok data ->
  timeline_of (fields w) = Ok timeline ->
  let q1 := register_request data in
  let q2 := onboard_request userId data in
  register_step (server (requests w) q1) = Ok userId ->
  let w' := exec (form_submit server) w in
  (exists rest, requests w' = requests w ++ q1 :: q2 :: rest)
  /\ (onboard_step (server (requests w ++ [q1]) q2) = Ok tt ->
      currentUser (app w') = JObj (("id", userId) :: data)).
Proof.
  intros Hg Ht q1 q2 Hreg. cbv zeta. unfold exec. rewrite form_submit_saga. simpl.
  unfold saga. rewrite Hg, Ht. cbv zeta. fold q1. rewrite Hreg. fold q2.
  destruct (onboard_step _) as [[]|e]; [destruct (generate_step _) as [[]|e]|];
    simpl; rewrite <- ?app_assoc; simpl; split; eauto; done.
Qed.

(** A submission whose register step resolves to the same identifier on two
    backends that answer the later calls alike runs alike on both. *)
Lemma same_path (server fresh : Server) (w : World)
    (data : list (string * JsValue)) (timeline userId : JsValue) :
  gather (fields w) = Ok data ->
  timeline_of (fields w) = Ok timeline ->
  let q1 := register_request data in
  let q2 := onboard_request userId data in
  let q3 := generate_request userId timeline in
  register_step (server (requests w) q1) = Ok userId ->
  register_step (fresh (requests w) q1) = Ok userId ->
  fresh (requests w ++ [q1]) q2 = server (requests w ++ [q1]) q2 ->
  fresh (requests w ++ [q1; q2]) q3 = server (requests w ++ [q1; q2]) q3 ->
  form_submit server w = form_submit fresh w.
Proof.
  intros Hg Ht q1 q2 q3 Hs Hf Hf2 Hf3. rewrite !form_submit_saga. f_equal.
  unfold saga. rewrite Hg, Ht. cbv zeta. fold q1. rewrite Hs, Hf.
  fold q2 q3. by rewrite Hf2, Hf3.
Qed.

(** C6, as the code has it.  A register-user call answered 409 Conflict does
    not abort the submission when the answer has a JSON body that can be read
    and is not null: the next call made is complete-onboarding, a POST to
    /users/onboard whose body is the draft with [user_id] in front, the
    identifier being the [user.id] of the 409 body when it carries a truthy
    one and otherwise what [getUserIdByEmail] gives for the email of the
    draft; from there on the submission runs exactly as it does when the
    backend has just created that user.  A 409 whose body cannot be read, or
    is null, does abort: no further call is made, the cached user is what it
    was and the failure is surfaced. *)
Theorem conflict_falls_back_to_lookup (server fresh : Server) (w : World)
    (data : list (string * JsValue)) (timeline : JsValue) (r1 : Response) :
  gather (fields w) = Ok data ->
  timeline_of (fields w) = Ok timeline ->
  let q1 := register_request data in
  server (requests w) q1 = Responded r1 ->
  status r1 = 409%Z ->
  let w' := exec (form_submit server) w in
  let aborted :=
    requests w' = requests w ++ [q1]
    /\ currentUser (app w') = currentUser (app w)
    /\ exists e, surfaced e w w' in
  match json r1 with
  | Throw e => aborted /\ surfaced e w w'
  | Ok d1 =>
      if nullish d1 then aborted
      else
        let given := get_opt (get_opt d1 "user") "id" in
        let userId := or_else given (JNum 1) in
        (truthy given = true -> userId = given)
        /\ (truthy given = false ->
            forall w0, getUserIdByEmail (assoc "email" data) w0 = (Ok userId, w0))
        /\ (exists q2 rest,
              requests w' = requests w ++ q1 :: q2 :: rest
              /\ url q2 = "http://localhost:5000/api/v1/users/onboard"
              /\ method q2 = "POST"
              /\ body q2 = JObj (("user_id", userId) :: data)
              /\ (fresh (requests w) q1
                  = Responded {| status := 201;
                                 json := Ok (JObj [("user", JObj [("id", userId)])]) |} ->
                  fresh (requests w ++ [q1]) q2 = server (requests w ++ [q1]) q2 ->
                  (forall q3,
                     url q3 = "http://localhost:5000/api/v1/growth-path/generate" ->
                     fresh (requests w ++ [q1; q2]) q3
                     = server (requests w ++ [q1; q2]) q3) ->
                  form_submit server w = form_submit fresh w))
  end.
Proof.
  intros Hg Ht q1 Ha1 Hst. cbv zeta. subst q1.
  pose proof (register_step_conflict r1 Hst) as Hreg. rewrite <- Ha1 in Hreg.
  destruct (json r1) as [d1|e].
  2:{ destruct (stops_at_register server w data timeline Hg Ht e Hreg)
        as (Hq & Hu & Hs).
      split; [|exact Hs]. split; [exact Hq|]. split; [exact Hu | eauto]. }
  destruct (nullish d1) eqn:Hn.
  { destruct (nullish_get_throws d1 "user" Hn) as [e He]. rewrite He in Hreg.
    simpl in Hreg.
    destruct (stops_at_register server w data timeline Hg Ht e Hreg)
      as (Hq & Hu & Hs).
    split; [exact Hq|]. split; [exact Hu | eauto]. }
  set (given := get_opt (get_opt d1 "user") "id") in *.
  split; [intros Hgiven; unfold or_else; by rewrite Hgiven|].
  split; [intros Hgiven w0; unfold or_else; by rewrite Hgiven|].
  destruct (proceeds_to_onboard server w data timeline _ Hg Ht Hreg) as [[rest Hq] _].
  exists (onboard_request (or_else given (JNum 1)) data), rest.
  split; [exact Hq|]. split; [reflexivity|]. split; [reflexivity|].
  split; [reflexivity|].
  intros Hf1 Hf2 Hf3.
  apply (same_path server fresh w data timeline (or_else given (JNum 1)) Hg Ht Hreg).
  - rewrite Hf1. simpl. unfold or_else at 1.
    destruct (truthy (or_else given (JNum 1))) eqn:Hto; [done|].
    unfold or_else in *. destruct (truthy given) eqn:Hgiven; [congruence | done].
  - exact Hf2.
  - by apply Hf3.
Qed.

(** C10, as the code has it.  [getUserIdByEmail] is constant: whatever the
    email, and in any state, it resolves to the identifier 1 and changes
    nothing.  So every 409 path that reaches the lookup, which is every 409
    whose body can be read, is not null and carries no truthy [user.id],
    onboards as user 1 whatever the email of the draft, and a completed
    onboarding caches the draft under the identifier 1; a 409 whose body
    carries a truthy [user.id] resolves to that identifier instead. *)
Theorem getUserIdByEmail_constant (server : Server) (w : World)
    (data : list (string * JsValue)) (timeline : JsValue) (r1 : Response)
    (d1 : JsValue) :
  (forall (email : JsValue) (w0 : World), getUserIdByEmail email w0 = (Ok (JNum 1), w0))
  /\ (gather (fields w) = Ok data ->
      timeline_of (fields w) = Ok timeline ->
      let q1 := register_request data in
      server (requests w) q1 = Responded r1 ->
      status r1 = 409%Z ->
      json r1 = Ok d1 ->
      nullish d1 = false ->
      let given := get_opt (get_opt d1 "user") "id" in
      let resolved := if truthy given then given else JNum 1 in
      let w' := exec (form_submit server) w in
      exists q2 rest,
        requests w' = requests w ++ q1 :: q2 :: rest
        /\ url q2 = "http://localhost:5000/api/v1/users/onboard"
        /\ get (body q2) "user_id" = Ok resolved
        /\ (onboard_step (server (requests w ++ [q1]) q2) = Ok tt ->
            currentUser (app w') = JObj (("id", resolved) :: data))).
Proof.
  split; [reflexivity|].
  intros Hg Ht q1 Ha1 Hst Hj Hn. cbv zeta.
  pose proof (register_step_conflict r1 Hst) as Hreg. rewrite <- Ha1 in Hreg.
  rewrite Hj, Hn in Hreg. unfold or_else in Hreg.
  destruct (proceeds_to_onboard server w data timeline _ Hg Ht Hreg) as [[rest Hq] Hu].
  eexists _, rest. split; [exact Hq|]. split; [reflexivity|]. split; [reflexivity|].
  exact Hu.
Qed.

End SubmitFacts.

Lemma submit_failure_aborts_witness :
  let w' := exec (form_submit (H := IntegerHost.host) Sample.server_down) Sample.world0 in
  requests w' = [register_request Sample.data0]
  /\ currentUser (app w') = JNull
  /\ surfaced (HostError "TypeError" "Failed to fetch") Sample.world0 w'.
Proof.
  pose proof (submit_failure_aborts (H := IntegerHost.host) Sample.server_down
                Sample.world0 Sample.data0 (JNum 24)
                ltac:(vm_compute; reflexivity) ltac:(vm_compute; reflexivity))
    as (_ & Hreg & _).
  exact (Hreg (HostError "TypeError" "Failed to fetch") eq_refl).
Defined.

(** C1 as the spec words it fails: the roadmap call is answered 500, and the
    cached user, null before the submission, is set after it. *)
Lemma roadmap_failure_leaves_user_set :
  let server := Sample.server_generate_fails in
  let q1 := register_request Sample.data0 in
  let q2 := onboard_request (JNum 7) Sample.data0 in
  let q3 := generate_request (JNum 7) (JNum 24) in
  let w' := exec (form_submit (H := IntegerHost.host) server) Sample.world0 in
  requests w' = [q1; q2; q3]
  /\ failed (server [q1; q2] q3) = true
  /\ currentUser (app Sample.world0) = JNull
  /\ currentUser (app w') = JObj (("id", JNum 7) :: Sample.data0).
Proof. vm_compute. repeat split; reflexivity. Qed.

Lemma roadmap_failure_after_identity_set_witness :
  let w' := exec (form_submit (H := IntegerHost.host) Sample.server_generate_fails)
              Sample.world0 in
  currentUser (app w') <> JNull
  /\ get (currentUser (app w')) "id" = Ok (JNum 7).
Proof.
  pose proof (roadmap_failure_after_identity_set (H := IntegerHost.host)
                Sample.server_generate_fails Sample.world0 Sample.data0 (JNum 24)
                {| status := 201; json := Ok (JObj [("user", JObj [("id", JNum 7)])]) |}
                {| status := 200; json := Ok (JObj [("message", JStr "ok")]) |}
                (JObj [("user", JObj [("id", JNum 7)])])
                (JObj [("id", JNum 7)])
                (JObj [("message", JStr "ok")])
                ltac:(vm_compute; reflexivity) ltac:(vm_compute; reflexivity)
                ltac:(vm_compute; reflexivity) (or_introl eq_refl)
                eq_refl eq_refl
                ltac:(vm_compute; reflexivity) eq_refl eq_refl
                ltac:(vm_compute; reflexivity)) as (Hn & Hid & _).
  split; [exact Hn | exact Hid].
Defined.

Lemma conflict_falls_back_to_lookup_witness :
  form_submit (H := IntegerHost.host) Sample.server_conflict Sample.world0
  = form_submit (H := IntegerHost.host) Sample.server_fresh Sample.world0.
Proof.
  pose proof (conflict_falls_back_to_lookup (H := IntegerHost.host)
                Sample.server_conflict Sample.server_fresh
                Sample.world0 Sample.data0 (JNum 24)
                {| status := 409;
                   json := Ok (JObj [("error", JStr "User already exists")]) |}
                ltac:(vm_compute; reflexivity) ltac:(vm_compute; reflexivity)
                ltac:(vm_compute; reflexivity) eq_refl)
    as Hthm.
  cbv zeta in Hthm. simpl json in Hthm. cbv beta iota in Hthm.
  change (nullish (JObj [("error", JStr "User already exists")])) with false in Hthm.
  cbv iota in Hthm.
  destruct Hthm as (_ & _ & q2 & rest & Hq & Hurl & Hm & Hb & Hsame).
  assert (Hq2 : q2 = onboard_request (JNum 1) Sample.data0).
  { destruct q2 as [u m b]. simpl in Hurl, Hm, Hb. subst u m b. reflexivity. }
  subst q2. apply Hsame; [vm_compute; reflexivity | vm_compute; reflexivity|].
  intros q3 Hq3. unfold Sample.server_fresh, Sample.server_conflict, Sample.is_register.
  rewrite Hq3. reflexivity.
Defined.

(** C6 as the spec words it fails: a 409 answer without a JSON body aborts
    the submission at the register call. *)
Lemma conflict_with_unreadable_body_aborts :
  let server := Sample.server_conflict_unreadable in
  let q1 := register_request Sample.data0 in
  let w' := exec (form_submit (H := IntegerHost.host) server) Sample.world0 in
  server [] q1
  = Responded {| status := 409;
                 json := Throw (HostError "SyntaxError" "Unexpected end of JSON input") |}
  /\ requests w' = [q1]
  /\ currentUser (app w') = JNull
  /\ toasts (page w')
     = [toast_node "Error during onboarding. Please try again." "error"].
Proof. vm_compute. repeat split; reflexivity. Qed.

Lemma getUserIdByEmail_constant_witness :
  let w' := exec (form_submit (H := IntegerHost.host) Sample.server_conflict)
              Sample.world0 in
  currentUser (app w') = JObj (("id", JNum 1) :: Sample.data0).
Proof.
  destruct (proj2 (getUserIdByEmail_constant (H := IntegerHost.host)
                     Sample.server_conflict Sample.world0 Sample.data0 (JNum 24)
                     {| status := 409;
                        json := Ok (JObj [("error", JStr "User already exists")]) |}
                     (JObj [("error", JStr "User already exists")]))
              ltac:(vm_compute; reflexivity) ltac:(vm_compute; reflexivity)
              ltac:(vm_compute; reflexivity) eq_refl eq_refl eq_refl)
    as (q2 & rest & Hq & Hurl & Hid & Hu).
  apply Hu.
  assert (Hq2 : q2 = onboard_request (JNum 1) Sample.data0).
  { apply (f_equal (fun l => nth 1 l q2)) in Hq. vm_compute in Hq. exact (eq_sym Hq). }
  rewrite Hq2. vm_compute. reflexivity.
Defined.

(** C10 as the spec words it fails: a 409 answer that names the user makes
    the submission onboard as that user, 42, and not as the user 1 of the
    lookup. *)
Lemma conflict_with_user_id_keeps_it :
  let server := Sample.server_conflict_known in
  let q1 := register_request Sample.data0 in
  let w' := exec (form_submit (H := IntegerHost.host) server) Sample.world0 in
  server [] q1
  = Responded {| status := 409;
                 json := Ok (JObj [("error", JStr "User already exists");
                                   ("user", JObj [("id", JNum 42)])]) |}
  /\ requests w'
     = [q1; onboard_request (JNum 42) Sample.data0;
        generate_request (JNum 42) (JNum 24)]
  /\ currentUser (app w') = JObj (("id", JNum 42) :: Sample.data0).
Proof. vm_compute. repeat split; reflexivity. Qed.

(** ** Display functions *)

Section DisplayFacts.
Context `{Host}.

Lemma get_not_nullish (v : JsValue) (k : string) :
  nullish v = false -> get v k = Ok (get_opt v k).
Proof. by destruct v. Qed.

Lemma truthy_not_nullish (v : JsValue) : truthy v = true -> nullish v = false.
Proof. by destruct v. Qed.

(** A callback that answers on every element keeps what it accepts, in
    order. *)
Lemma call_filter_total (callee : string) (ts : list JsValue)
    (p : JsValue -> Result bool) (keep : JsValue -> bool) :
  Forall (fun t => p t = Ok (keep t)) ts ->
  call_filter callee (JArr ts) p = Ok (JArr (List.filter keep ts)).
Proof.
  intros Hp. unfold call_filter.
  assert (Hm : mapR (fun x => b ← p x; mret (x, b)) ts
               = Ok (map (fun x => (x, keep x)) ts)).
  { induction Hp as [|t ts Ht _ IH]; simpl; [done|]. by rewrite Ht, IH. }
  rewrite Hm. simpl. do 2 f_equal.
  clear. induction ts as [|t ts IH]; simpl; [done|].
  destruct (keep t); simpl; by rewrite IH.
Qed.

Lemma has_type_spec (f : string) (t : JsValue) :
  has_type f t = true <-> get t "item_type" = Ok (JStr f).
Proof.
  unfold has_type. destruct (get t "item_type") as [v|e]; [|done].
  destruct v; try done. rewrite String.eqb_eq. split; congruence.
Qed.

Lemma filteredTasks_by_type (ts : list JsValue) (f : string) :
  Forall (fun t => nullish t = false) ts ->
  String.eqb f "all" = false ->
  filteredTasks (JArr ts) (JStr f) = Ok (JArr (List.filter (has_type f) ts)).
Proof.
  intros Hts Hf. unfold filteredTasks. simpl. rewrite Hf. simpl.
  apply (call_filter_total "tasks.filter").
  eapply Forall_impl; [exact Hts|]. intros t Ht. simpl in Ht.
  unfold has_type. rewrite (get_not_nullish t _ Ht). simpl.
  by destruct (get_opt t "item_type").
Qed.

Lemma display_run (d : DisplayFn) (payload : JsValue) (w : World) :
  display d payload w
  = match markup d payload with
    | Ok html =>
        (Ok tt,
         set_page (set_containers (<[container_of d := html]> (containers (page w)))
                     (page w)) w)
    | Throw e => (Throw e, w)
    end.
Proof.
  destruct d; simpl;
    [unfold displayAnalysis | unfold displayRoadmap | unfold displayProgressSummary
    | unfold displayTasks | unfold displayResume | unfold displayLinkedIn];
    rewrite bind_run; unfold liftR;
    match goal with |- context [match ?r with Ok _ => _ | Throw _ => _ end] =>
      destruct r end; reflexivity.
Qed.

Lemma filterBtn_click_run (filter : JsValue) (w : World) :
  filterBtn_click filter w
  = let w1 := set_page (set_activeFilter filter (page w)) w in
    if truthy (progressData (app w))
    then displayTasks (progressData (app w)) filter w1
    else (Ok tt, w1).
Proof.
  unfold filterBtn_click. rewrite bind_run. simpl. rewrite bind_run. simpl.
  by destruct (truthy _).
Qed.

(** C4. Filtering a cached list of tasks (none of them null) by an item
    type keeps exactly the tasks whose [item_type] is that string, in their
    original order, and the value "all" keeps the list as it is; a click on a
    filter button only redraws the cached list through [displayTasks], and
    no click on a filter button, whatever its value, makes a request. *)
Theorem filter_keeps_tasks_of_type (ts : list JsValue) (f : string) :
  Forall (fun t => nullish t = false) ts ->
  filteredTasks (JArr ts) (JStr f)
  = Ok (JArr (if String.eqb f "all" then ts else List.filter (has_type f) ts))
  /\ filteredTasks (JArr ts) (JStr "all") = Ok (JArr ts)
  /\ (forall t, has_type f t = true <-> get t "item_type" = Ok (JStr f))
  /\ (forall (v : JsValue) (w : World),
        requests (exec (filterBtn_click v) w) = requests w)
  /\ (forall w : World,
        progressData (app w) = JArr ts ->
        filterBtn_click (JStr f) w
        = displayTasks
            (JArr (if String.eqb f "all" then ts else List.filter (has_type f) ts))
            (JStr "all")
            (set_page (set_activeFilter (JStr f) (page w)) w)).
Proof.
  intros Hts.
  assert (Hf : filteredTasks (JArr ts) (JStr f)
               = Ok (JArr (if String.eqb f "all" then ts
                           else List.filter (has_type f) ts))).
  { destruct (String.eqb f "all") eqn:E.
    - apply String.eqb_eq in E. by subst f.
    - by apply filteredTasks_by_type. }
  split; [exact Hf|]. split; [done|]. split; [apply has_type_spec|]. split.
  - intros v w. unfold exec. rewrite filterBtn_click_run. cbv zeta.
    destruct (truthy _); [|done].
    change (displayTasks (progressData (app w)) v)
      with (display (Tasks v) (progressData (app w))).
    rewrite display_run. by destruct (markup _ _).
  - intros w Hw. rewrite filterBtn_click_run, Hw. simpl.
    unfold displayTasks. rewrite !bind_run. unfold liftR, displayTasks_html.
    rewrite Hf. done.
Qed.

Lemma string_append_assoc (a b c : string) : (a +:+ b) +:+ c = a +:+ (b +:+ c).
Proof.
  induction a as [|x a IH]; [reflexivity|].
  exact (f_equal (String x) IH).
Qed.

(** Comparisons of a double with zero. *)
Lemma eqb_zero_not_pos (x : float) :
  PrimFloat.eqb x 0 = true -> PrimFloat.ltb 0 x = false.
Proof.
  rewrite FloatAxioms.eqb_spec, FloatAxioms.ltb_spec.
  change (Prim2SF 0) with (S754_zero false).
  destruct (Prim2SF x) as [s|s| |s m e]; cbn; try done; by destruct s.
Qed.

Lemma nonneg_nonzero_pos (x : float) :
  PrimFloat.leb 0 x = true -> PrimFloat.eqb x 0 = false -> PrimFloat.ltb 0 x = true.
Proof.
  rewrite FloatAxioms.eqb_spec, FloatAxioms.ltb_spec, FloatAxioms.leb_spec.
  change (Prim2SF 0) with (S754_zero false).
  destruct (Prim2SF x) as [s|s| |s m e]; cbn; try done; by destruct s.
Qed.

(** Finding a segment inside a right-nested concatenation. *)
Lemma shift_prefix (s x y r : string) : x = y +:+ r -> s +:+ x = (s +:+ y) +:+ r.
Proof. intros ->. symmetry. apply string_append_assoc. Qed.

Lemma segment_here (x t r : string) : t = r -> x +:+ t = EmptyString +:+ x +:+ r.
Proof. by intros ->. Qed.

(** [Math.round] in terms of the number a double stands for: the finite
    double decoded as [S754_finite s m e] is [n * 2^e] with [n] the integer
    [m] signed by [s].  With a negative exponent it is rounded to the
    integer [r] that has [r - 1/2 <= n * 2^e < r + 1/2], the nearest one, the
    upper of two that are equally near. *)
Lemma Math_round_nearest (x : float) (s : bool) (m : positive) (e r : Z) :
  Prim2SF x = S754_finite s m e ->
  (e < 0)%Z ->
  let n := if s then Z.neg m else Z.pos m in
  ((2 * r - 1) * 2 ^ (- e) <= 2 * n < (2 * r + 1) * 2 ^ (- e))%Z ->
  Math_round x
  = if (r =? 0)%Z then (if s then PrimFloat.neg_zero else PrimFloat.zero) else of_Z r.
Proof.
  intros Hx He n Hr. unfold Math_round. rewrite Hx.
  destruct (0 <=? e)%Z eqn:Hle; [lia|]. cbv zeta. fold n.
  assert (Hd : (0 < 2 ^ (- e))%Z) by (apply Z.pow_pos_nonneg; lia).
  set (d := (2 ^ (- e))%Z) in *.
  replace ((2 * n + d) / (2 * d))%Z with r; [done|].
  apply (Z.div_unique_pos (2 * n + d) (2 * d) r (2 * n + d - 2 * d * r)); lia.
Qed.

(** A double that is an integer already, an infinity, a zero or NaN is what
    [Math.round] returns. *)
Lemma Math_round_integer (x : float) :
  match Prim2SF x with
  | S754_finite _ _ e => (0 <= e)%Z
  | _ => True
  end ->
  Math_round x = x.
Proof.
  unfold Math_round. destruct (Prim2SF x) as [s|s| |s m e]; try done.
  intros He. by destruct (0 <=? e)%Z eqn:Hle; [|lia].
Qed.

(** C5, as the code has it.  The completion percentage of a summary (a
    payload that is not null) is 0 whenever its total is not a number
    greater than 0: a total of 0, then, but also a negative, missing or
    non-numeric one; no division takes place.  When the total is greater
    than 0 it is [Math.round(completed / total * 100)], computed on doubles
    as the script does, where [Math.round] gives the nearest integer and the
    upper one of two equally near, and leaves an integer as it is.  So
    {total: 4, completed: 1} gives 25, one task of 3 gives 33, two of 3
    give 67 and one of 8 gives 13; the markup shows the percentage followed
    by a percent sign. *)
Theorem percentage_of_summary :
  (forall summary total : JsValue,
     get summary "total" = Ok total ->
     PrimFloat.eqb (toNum total) 0 = true \/ PrimFloat.ltb 0 (toNum total) = false ->
     percentage summary = Ok 0%float)
  /\ (forall summary total completed : JsValue,
        get summary "total" = Ok total ->
        get summary "completed" = Ok completed ->
        PrimFloat.ltb 0 (toNum total) = true ->
        percentage summary
        = Ok (Math_round (toNum completed / toNum total * 100)))
  /\ (forall (x : float) (s : bool) (m : positive) (e r : Z),
        Prim2SF x = S754_finite s m e ->
        (e < 0)%Z ->
        ((2 * r - 1) * 2 ^ (- e) <= 2 * (if s then Z.neg m else Z.pos m)
         < (2 * r + 1) * 2 ^ (- e))%Z ->
        Math_round x
        = if (r =? 0)%Z then (if s then PrimFloat.neg_zero else PrimFloat.zero)
          else of_Z r)
  /\ (forall x : float,
        match Prim2SF x with
        | S754_finite _ _ e => (0 <= e)%Z
        | _ => True
        end ->
        Math_round x = x)
  /\ percentage (JObj [("total", JNum 4); ("completed", JNum 1)]) = Ok 25%float
  /\ percentage (JObj [("total", JNum 3); ("completed", JNum 1)]) = Ok 33%float
  /\ percentage (JObj [("total", JNum 3); ("completed", JNum 2)]) = Ok 67%float
  /\ percentage (JObj [("total", JNum 8); ("completed", JNum 1)]) = Ok 13%float
  /\ (forall (summary : JsValue) (p : float),
        percentage summary = Ok p ->
        exists before after : string,
          displayProgressSummary_html summary
          = Ok (before +:+ Number_toString p +:+ "%</div>" +:+ after)).
Proof.
  split; [|split; [|split; [|split; [|split; [|split; [|split; [|split]]]]]]].
  - intros summary total Ht Hz. unfold percentage. rewrite Ht. simpl.
    unfold gt0, PrimFloat.zero.
    destruct Hz as [Hz | Hz]; [by rewrite (eqb_zero_not_pos _ Hz) | by rewrite Hz].
  - intros summary total completed Ht Hc Hpos. unfold percentage.
    rewrite Ht. simpl. unfold gt0, PrimFloat.zero. rewrite Hpos.
    by rewrite Hc.
  - intros x s m e r Hx He Hr. by apply (Math_round_nearest x s m e r).
  - apply Math_round_integer.
  - reflexivity.
  - reflexivity.
  - reflexivity.
  - reflexivity.
  - intros summary p Hp. unfold displayProgressSummary_html.
    assert (Hn : nullish summary = false) by (by destruct summary).
    rewrite Hp. simpl. rewrite !(get_not_nullish _ _ Hn). simpl.
    eexists _, _. apply (f_equal Ok).
    repeat lazymatch goal with
           | |- Number_toString _ +:+ _ = _ => fail
           | |- _ +:+ _ = _ => apply shift_prefix
           end.
    apply segment_here. reflexivity.
Qed.

(** C7, as the code has it.  Each display function computes its markup from
    the payload alone and, when that succeeds, writes it into its own
    container; whether it returns or throws, the session state is what it
    was.  [displayRoadmap], [displayResume], [displayLinkedIn] and
    [displayTasks] write their fixed placeholder when the roadmap or its
    phases, the resume or its header, all three LinkedIn fields, or every
    task to show is absent, and [renderPhaseItems] renders nothing for an
    absent item list. *)
Theorem display_renders_payload (d : DisplayFn) (payload : JsValue) (w : World) :
  display d payload w
  = match markup d payload with
    | Ok html =>
        (Ok tt,
         set_page (set_containers (<[container_of d := html]> (containers (page w)))
                     (page w)) w)
    | Throw e => (Throw e, w)
    end
  /\ app (exec (display d payload) w) = app w
  /\ (truthy payload = false \/ truthy (get_opt payload "phases") = false ->
      markup Roadmap payload = Ok roadmap_empty)
  /\ (truthy payload = false \/ truthy (get_opt payload "header") = false ->
      markup Resume payload = Ok resume_empty)
  /\ (truthy payload = false
      \/ (truthy (get_opt payload "post_ideas") = false
          /\ truthy (get_opt payload "profile_summary") = false
          /\ truthy (get_opt payload "skills_to_add") = false) ->
      markup LinkedIn payload = Ok linkedin_empty)
  /\ (forall filter : JsValue,
        filteredTasks payload (match filter with JUndefined => JStr "all" | _ => filter end)
        = Ok (JArr []) ->
        markup (Tasks filter) payload = Ok tasks_empty)
  /\ (forall title type : string,
        truthy payload = false -> renderPhaseItems title payload type = Ok EmptyString).
Proof.
  split; [apply display_run|].
  split; [unfold exec; rewrite display_run; by destruct (markup d payload)|].
  split; [|split; [|split; [|split]]].
  - intros Hp. simpl. unfold displayRoadmap_html.
    destruct (truthy payload) eqn:Et; simpl; [|done].
    destruct Hp as [Hp | Hp]; [done|].
    rewrite (get_not_nullish payload "phases" (truthy_not_nullish _ Et)).
    simpl. by rewrite Hp.
  - intros Hp. simpl. unfold displayResume_html.
    destruct (truthy payload) eqn:Et; simpl; [|done].
    destruct Hp as [Hp | Hp]; [done|].
    rewrite (get_not_nullish payload "header" (truthy_not_nullish _ Et)).
    unfold mbind at 1, Result_bind at 1. by rewrite Hp.
  - intros Hp. simpl. unfold displayLinkedIn_html.
    destruct (truthy payload) eqn:Et; simpl; [|done].
    destruct Hp as [Hp | (Hp1 & Hp2 & Hp3)]; [done|].
    rewrite !(get_not_nullish _ _ (truthy_not_nullish _ Et)).
    unfold mbind, Result_bind. by rewrite Hp1, Hp2, Hp3.
  - intros filter Hf. simpl. unfold displayTasks_html. by rewrite Hf.
  - intros title type Hp. unfold renderPhaseItems. by rewrite Hp.
Qed.

End DisplayFacts.

Lemma filter_keeps_tasks_of_type_witness :
  filteredTasks (JArr Sample.tasks0) (JStr "course")
  = Ok (JArr [ JObj [("item_id", JStr "c1"); ("item_name", JStr "Algorithms");
                     ("item_type", JStr "course"); ("status", JStr "not_started")];
               JObj [("item_id", JStr "c2"); ("item_name", JStr "Logic");
                     ("item_type", JStr "course"); ("status", JStr "completed")] ]).
Proof.
  refine (proj1 (filter_keeps_tasks_of_type (H := IntegerHost.host)
                   Sample.tasks0 "course" _)).
  repeat constructor.
Defined.

Lemma percentage_of_summary_witness :
  percentage (H := IntegerHost.host) (JObj [("total", JNum 0); ("completed", JNum 3)])
  = Ok 0%float
  /\ percentage (H := IntegerHost.host) (JObj [("completed", JNum 3)]) = Ok 0%float
  /\ percentage (H := IntegerHost.host) (JObj [("total", JNum 200); ("completed", JNum 29)])
     = Ok (Math_round (29 / 200 * 100))
  /\ Math_round 12.5 = 13%float.
Proof.
  destruct (percentage_of_summary (H := IntegerHost.host))
    as (Hzero & Hpos & Hnear & _).
  split; [|split; [|split]].
  - exact (Hzero (JObj [("total", JNum 0); ("completed", JNum 3)]) (JNum 0)
             eq_refl (or_introl eq_refl)).
  - exact (Hzero (JObj [("completed", JNum 3)]) JUndefined eq_refl (or_intror eq_refl)).
  - exact (Hpos (JObj [("total", JNum 200); ("completed", JNum 29)])
             (JNum 200) (JNum 29) eq_refl eq_refl eq_refl).
  - exact (Hnear 12.5%float false 7036874417766400%positive (-49)%Z 13%Z
             eq_refl ltac:(lia)
             ltac:(split; [apply Z.leb_le | apply Z.ltb_lt]; vm_compute; reflexivity)).
Defined.

(** C5 as the spec words it fails: a total of -4 is not 0, yet the
    percentage rendered is 0 and not the rounded quotient, which is -25. *)
Lemma negative_total_renders_zero :
  let summary := JObj [("total", JNum (-4)); ("completed", JNum 1)] in
  PrimFloat.eqb (toNum (H := IntegerHost.host) (JNum (-4))) 0 = false
  /\ percentage (H := IntegerHost.host) summary = Ok 0%float
  /\ Math_round (1 / (-4) * 100) = (-25)%float
  /\ percentage (H := IntegerHost.host) summary <> Ok (Math_round (1 / (-4) * 100)).
Proof.
  cbv zeta. split; [reflexivity|]. split; [reflexivity|]. split; [reflexivity|].
  intros Heq.
  apply (f_equal (fun r => match r with
                           | Ok x => PrimFloat.ltb x 0
                           | Throw _ => false
                           end)) in Heq.
  vm_compute in Heq. discriminate.
Qed.

Lemma display_renders_payload_witness :
  markup (H := IntegerHost.host) Roadmap (JObj [("title", JStr "plan")]) = Ok roadmap_empty
  /\ markup (H := IntegerHost.host) Resume JNull = Ok resume_empty.
Proof.
  split.
  - destruct (display_renders_payload (H := IntegerHost.host) Roadmap
                (JObj [("title", JStr "plan")]) Sample.world0) as (_ & _ & Hr & _).
    apply Hr. right. reflexivity.
  - destruct (display_renders_payload (H := IntegerHost.host) Resume
                JNull Sample.world0) as (_ & _ & _ & Hr & _).
    apply Hr. left. reflexivity.
Defined.

(** C7 as the spec words it fails: an analysis without its lists makes
    [displayAnalysis] throw instead of drawing a placeholder, and nothing is
    written. *)
Lemma displayAnalysis_throws_without_lists :
  displayAnalysis (H := IntegerHost.host) (JObj []) Sample.world0
  = (Throw (TypeError "Cannot read properties of undefined (reading 'map')"),
     Sample.world0).
Proof. reflexivity. Qed.

(** * Further properties *)

(** ** The submit handler as a whole *)

Section SubmitMore.
Context `{Host}.

Lemma submit_catch_frame (e : JsError) (w : World) :
  loading (page (exec (submit_catch e) w)) = false
  /\ requests (exec (submit_catch e) w) = requests w
  /\ app (exec (submit_catch e) w) = app w
  /\ wizard (exec (submit_catch e) w) = wizard w
  /\ fields (exec (submit_catch e) w) = fields w.
Proof. done. Qed.

(** X1. The submit handler never lets an exception escape; whatever the
    form holds and the backend answers, it leaves the loading overlay hidden,
    the form and its controls as they were, and at most three requests more
    in the log, all of them POSTs. *)
Theorem form_submit_contained (server : Server) (w : World) :
  let w' := exec (form_submit server) w in
  outcome (form_submit server) w = Ok tt
  /\ loading (page w') = false
  /\ wizard w' = wizard w
  /\ fields w' = fields w
  /\ exists rs : list Request,
       requests w' = requests w ++ rs
       /\ length rs <= 3
       /\ Forall (fun r => method r = "POST") rs.
Proof.
  unfold outcome, exec. rewrite form_submit_saga. simpl.
  split; [done|]. unfold saga.
  destruct (gather (fields w)) as [data|e];
    [destruct (timeline_of (fields w)) as [timeline|e];
     [cbv zeta; destruct (register_step _) as [userId|e];
      [destruct (onboard_step _) as [[]|e];
       [destruct (generate_step _) as [[]|e]|]|]|]|];
    (split; [done|]; split; [done|]; split; [done|]);
    [exists [register_request data; onboard_request userId data;
             generate_request userId timeline]
    |exists [register_request data; onboard_request userId data;
             generate_request userId timeline]
    |exists [register_request data; onboard_request userId data]
    |exists [register_request data]
    |exists []
    |exists []];
    (split; [by rewrite ?app_nil_r|]; split; [simpl; lia | by repeat constructor]).
Qed.

(** X2. A form without its [target_industries] field, or with that field
    and without [current_skills], aborts the submission before any call:
    no request is made, the session is untouched and the TypeError of the
    failed [split] is what the page reports. *)
Theorem submit_without_list_field (server : Server) (w : World) :
  formData (fields w) !! "target_industries" = None
  \/ (is_Some (formData (fields w) !! "target_industries")
      /\ formData (fields w) !! "current_skills" = None) ->
  let w' := exec (form_submit server) w in
  let e := TypeError "Cannot read properties of null (reading 'split')" in
  gather (fields w) = Throw e
  /\ requests w' = requests w
  /\ app w' = app w
  /\ surfaced e w w'.
Proof.
  intros Hmiss w' e.
  assert (Hg : gather (fields w) = Throw e).
  { unfold gather, formData_get.
    destruct Hmiss as [-> | [[v ->] ->]]; [reflexivity|]. reflexivity. }
  split; [exact Hg|].
  unfold w', exec. rewrite form_submit_saga. simpl. unfold saga. rewrite Hg.
  edestruct (submit_catch_surfaced e w (exec showLoading w)) as (Hs & Ha & Hq);
    try reflexivity.
  by rewrite Ha, Hq.
Qed.

(** X3. When the three calls succeed, the session is the draft with the
    identifier of the registration in front, the log has gained the three
    requests in order, the overlay is hidden, the one toast and the status
    line announce the success, and the only timer besides their removal is
    the click on the roadmap link after 2 s. *)
Theorem submit_success (server : Server) (w : World)
    (data : list (string * JsValue)) (timeline userId : JsValue) :
  gather (fields w) = Ok data ->
  timeline_of (fields w) = Ok timeline ->
  let q1 := register_request data in
  let q2 := onboard_request userId data in
  let q3 := generate_request userId timeline in
  register_step (server (requests w) q1) = Ok userId ->
  onboard_step (server (requests w ++ [q1]) q2) = Ok tt ->
  generate_step (server (requests w ++ [q1; q2]) q3) = Ok tt ->
  let w' := exec (form_submit server) w in
  let toast := toast_node "Growth path generated successfully! 🎉" "success" in
  currentUser (app w') = JObj (("id", userId) :: data)
  /\ get (currentUser (app w')) "id" = Ok userId
  /\ requests w' = requests w ++ [q1; q2; q3]
  /\ loading (page w') = false
  /\ toasts (page w') = toasts (page w) ++ [toast]
  /\ (exists text, statuses (page w') !! "onboarding-status"
                   = Some {| textContent := text;
                             status_className := "status-message active success" |})
  /\ timers (page w')
     = timers (page w)
       ++ [(5000%Z, RemoveToast toast);
           (5000%Z, DeactivateStatus "onboarding-status");
           (2000%Z, ClickNav "roadmap")].
Proof.
  intros Hg Ht q1 q2 q3 Hr Ho Hgen w' toast.
  unfold w', exec. rewrite form_submit_saga. simpl. unfold saga.
  rewrite Hg, Ht. cbv zeta. fold q1. rewrite Hr. fold q2. rewrite Ho.
  fold q3. rewrite Hgen.
  unfold exec, submit_done. simpl.
  rewrite lookup_insert_eq, <- !app_assoc. simpl.
  repeat split; try done. eauto.
Qed.

End SubmitMore.

Lemma submit_without_list_field_witness :
  let w := set_fields Sample2.fields_without_skills Sample.world0 in
  let w' := exec (form_submit (H := IntegerHost.host) Sample.server_ok) w in
  requests w' = [] /\ app w' = app w.
Proof.
  pose proof (submit_without_list_field (H := IntegerHost.host) Sample.server_ok
                (set_fields Sample2.fields_without_skills Sample.world0)
                (or_intror (conj (ex_intro _ "ai, robotics" eq_refl) eq_refl)))
    as (_ & Hq & Ha & _).
  split; [exact Hq | exact Ha].
Defined.

Lemma submit_success_witness :
  let w' := exec (form_submit (H := IntegerHost.host) Sample.server_ok) Sample.world0 in
  get (currentUser (app w')) "id" = Ok (JNum 7)
  /\ requests w' = [register_request Sample.data0;
                    onboard_request (JNum 7) Sample.data0;
                    generate_request (JNum 7) (JNum 24)].
Proof.
  pose proof (submit_success (H := IntegerHost.host) Sample.server_ok Sample.world0
                Sample.data0 (JNum 24) (JNum 7)
                ltac:(vm_compute; reflexivity) ltac:(vm_compute; reflexivity)
                ltac:(vm_compute; reflexivity) ltac:(vm_compute; reflexivity)
                ltac:(vm_compute; reflexivity)) as (_ & Hid & Hq & _).
  split; [exact Hid | exact Hq].
Defined.

(** ** The draft *)

Section DraftFacts.
Context `{Host}.

Lemma split_length (s : string) : length (split "," s) = S (commas s).
Proof.
  induction s as [|c s IH]; simpl; [done|].
  destruct (Ascii.eqb c ","); simpl; [by rewrite IH|].
  destruct (split "," s) as [|x xs]; simpl in *; [done | exact IH].
Qed.

Lemma split_trim_inv (v r : JsValue) :
  split_trim v = Ok r ->
  exists s, v = JStr s /\ r = JArr (map (fun x => JStr (String_trim x)) (split "," s)).
Proof. destruct v; simpl; try done. intros [= <-]. eauto. Qed.

Lemma formData_get_str (f : Fields) (k s : string) :
  formData_get f k = JStr s -> formData f !! k = Some s.
Proof. unfold formData_get. destruct (formData f !! k); congruence. Qed.

(** The draft that [gather] builds, read back from its result. *)
Lemma gather_inv (f : Fields) (data : list (string * JsValue)) :
  gather f = Ok data ->
  exists (ti cs photo horizon : string) (checked : bool) (pct ei : JsValue),
    formData f !! "target_industries" = Some ti
    /\ formData f !! "current_skills" = Some cs
    /\ photoBase64 f = Some photo
    /\ relocationToggle f = Some checked
    /\ horizonSlider f = Some horizon
    /\ split_trim_opt (formData_get f "preferred_content_types") = Ok pct
    /\ split_trim_opt (formData_get f "extracurricular_interests") = Ok ei
    /\ data
       = [("name", formData_get f "name"); ("email", formData_get f "email");
          ("major", formData_get f "major");
          ("university", formData_get f "university");
          ("gpa", or_else (JNum (parseFloat (toStr (formData_get f "gpa")))) JNull);
          ("career_aspirations", formData_get f "career_aspirations");
          ("target_industries",
           JArr (map (fun x => JStr (String_trim x)) (split "," ti)));
          ("current_skills",
           JArr (map (fun x => JStr (String_trim x)) (split "," cs)));
          ("experience_level", formData_get f "experience_level");
          ("preferred_learning", formData_get f "preferred_learning");
          ("preferred_content_types", pct);
          ("time_commitment", formData_get f "time_commitment");
          ("profile_photo", or_else (JStr photo) JNull);
          ("relocation_goal",
           if checked then formData_get f "relocation_goal" else JNull);
          ("extracurricular_interests", ei);
          ("planning_horizon_years", JNum (parseInt horizon))].
Proof.
  unfold gather. intros Hg.
  destruct (split_trim (formData_get f "target_industries")) as [a1|] eqn:E1;
    [|done].
  destruct (split_trim (formData_get f "current_skills")) as [a2|] eqn:E2; [|done].
  simpl in Hg.
  destruct (split_trim_opt (formData_get f "preferred_content_types")) as [pct|] eqn:E3;
    [|done].
  simpl in Hg.
  destruct (photoBase64 f) as [photo|]; [|done]. simpl in Hg.
  destruct (relocationToggle f) as [checked|]; [|done].
  assert (Hrel : exists rel,
             rel = (if checked then formData_get f "relocation_goal" else JNull)
             /\ (if checked then Ok (formData_get f "relocation_goal") else Ok JNull)
                = Ok rel).
  { destruct checked; eauto. }
  destruct Hrel as (rel & Hrel & Erel).
  replace (match Some checked with
           | Some true => Ok (formData_get f "relocation_goal")
           | Some false => Ok JNull
           | None => Throw (null_read "checked")
           end) with (Ok rel : Result JsValue) in Hg
    by (by destruct checked).
  simpl in Hg.
  destruct (split_trim_opt (formData_get f "extracurricular_interests")) as [ei|] eqn:E4;
    [|done].
  simpl in Hg.
  destruct (horizonSlider f) as [horizon|]; [|done]. simpl in Hg.
  apply split_trim_inv in E1 as (ti & Hti & ->).
  apply split_trim_inv in E2 as (cs & Hcs & ->).
  apply formData_get_str in Hti. apply formData_get_str in Hcs.
  injection Hg as <-. subst rel.
  exists ti, cs, photo, horizon, checked, pct, ei. done.
Qed.

(** X4. In a draft that was gathered, each of the two required lists has
    one entry per comma-separated piece of its field, hence at least one
    (an empty field gives one empty piece), while an optional list field
    that is absent or empty gives the empty list; the relocation goal is the
    text of its field only when the toggle is checked and null otherwise;
    and an empty photo value is sent as null. *)
Theorem gather_field_rules (f : Fields) (data : list (string * JsValue)) :
  gather f = Ok data ->
  (exists ti cs : string,
     formData f !! "target_industries" = Some ti
     /\ formData f !! "current_skills" = Some cs
     /\ assoc "target_industries" data
        = JArr (map (fun x => JStr (String_trim x)) (split "," ti))
     /\ assoc "current_skills" data
        = JArr (map (fun x => JStr (String_trim x)) (split "," cs))
     /\ length (split "," ti) = S (commas ti)
     /\ length (split "," cs) = S (commas cs))
  /\ (forall k : string,
        k = "preferred_content_types" \/ k = "extracurricular_interests" ->
        formData f !! k = None \/ formData f !! k = Some EmptyString ->
        assoc k data = JArr [])
  /\ assoc "relocation_goal" data
     = match relocationToggle f with
       | Some true => formData_get f "relocation_goal"
       | _ => JNull
       end
  /\ assoc "profile_photo" data
     = match photoBase64 f with
       | Some (String c rest) => JStr (String c rest)
       | _ => JNull
       end.
Proof.
  intros Hg.
  apply gather_inv in Hg
    as (ti & cs & photo & horizon & checked & pct & ei
        & Hti & Hcs & Hp & Hr & Hh & Hpct & Hei & ->).
  split; [|split; [|split]].
  - exists ti, cs. repeat split; try done; apply split_length.
  - intros k [-> | ->] Hk; simpl.
    + unfold formData_get in Hpct.
      destruct Hk as [Hk | Hk]; rewrite Hk in Hpct; by injection Hpct as <-.
    + unfold formData_get in Hei.
      destruct Hk as [Hk | Hk]; rewrite Hk in Hei; by injection Hei as <-.
  - rewrite Hr. simpl. by destruct checked.
  - rewrite Hp. simpl. by destruct photo.
Qed.

(** X5. A file that passes the local checks is handed to the reader, and
    once the reader has loaded it the data URL is the value of the hidden
    field, the preview shows it, and a draft gathered from then on carries it
    as the profile photo (null when the URL is empty); a reader error only
    adds an error toast. *)
Theorem photo_reaches_the_draft (w : World) (file : File) (result : string)
    (pv : option string) (b64 : string) :
  photoPreview (fields w) = Some pv ->
  photoBase64 (fields w) = Some b64 ->
  String.prefix "image/" (file_type file) = true ->
  (file_size file <=? 2097152)%N = true ->
  let w1 := exec (photoInput_change (Some file)) w in
  let w2 := exec (reader_onload result) w1 in
  reading (fields w1) = reading (fields w) ++ [file]
  /\ photoBase64 (fields w2) = Some result
  /\ photoPreview (fields w2) = Some (Some result)
  /\ formData (fields w2) = formData (fields w)
  /\ (forall data, gather (fields w2) = Ok data ->
                   assoc "profile_photo" data
                   = if String.eqb result EmptyString then JNull else JStr result)
  /\ fields (exec reader_onerror w1) = fields w1
  /\ toasts (page (exec reader_onerror w1))
     = toasts (page w) ++ [toast_node "Error reading file" "error"].
Proof.
  intros Hp Hb Hty Hsz w1 w2.
  assert (H1 : w1 = set_fields (set_reading (reading (fields w) ++ [file]) (fields w)) w).
  { unfold w1, exec, photoInput_change. rewrite bind_run. simpl.
    rewrite Hp, Hb, Hty. simpl.
    change (2 * 1024 * 1024)%N with 2097152%N.
    rewrite N.ltb_antisym, Hsz. reflexivity. }
  unfold w2. rewrite H1. simpl.
  repeat split.
  intros data Hg. apply gather_inv in Hg
    as (ti & cs & photo & horizon & checked & pct & ei
        & _ & _ & Hph & _ & _ & _ & _ & ->).
  simpl in Hph. injection Hph as <-. simpl. unfold or_else. simpl.
  by destruct result.
Qed.

End DraftFacts.

Lemma gather_field_rules_witness :
  assoc "relocation_goal" Sample.data0 = JNull
  /\ assoc "profile_photo" Sample.data0 = JNull.
Proof.
  pose proof (gather_field_rules (H := IntegerHost.host) Sample.fields0 Sample.data0
                ltac:(vm_compute; reflexivity)) as (_ & _ & Hr & Hp).
  split; [exact Hr | exact Hp].
Defined.

Lemma photo_reaches_the_draft_witness :
  let file := {| file_type := "image/png"; file_size := 1024 |} in
  let w1 := exec (photoInput_change (Some file)) Sample.world0 in
  let w2 := exec (reader_onload "data:image/png;base64,AAAA") w1 in
  reading (fields w1) = [file]
  /\ photoBase64 (fields w2) = Some "data:image/png;base64,AAAA".
Proof.
  pose proof (photo_reaches_the_draft (H := IntegerHost.host) Sample.world0
                {| file_type := "image/png"; file_size := 1024 |}
                "data:image/png;base64,AAAA" None EmptyString
                eq_refl eq_refl eq_refl eq_refl) as (Hr & Hb & _).
  split; [exact Hr | exact Hb].
Defined.

(** ** The form as the user sees it *)

Lemma scan_scanned (ins : list Input) : forall st,
  scanned (fold_left check_input ins st) = scanned st ++ map marked ins.
Proof.
  induction ins as [|i ins IH]; intros st; simpl; [by rewrite app_nil_r|].
  rewrite IH. unfold check_input, marked.
  destruct (String.eqb (input_type i) "hidden"); simpl;
    [by rewrite <- app_assoc|].
  destruct (checkValidity i); simpl; by rewrite <- app_assoc.
Qed.

(** The form after a Next click that found its button and its step. *)
Lemma nextBtn_click_wizard (w : World) (d : string) (el : FormStep) :
  nextBtn (wizard w) = Some d ->
  querySelector_step (currentStep (wizard w)) (formSteps (wizard w)) = Some el ->
  exists focus : option string,
    let wz := wizard w in
    let wz1 := set_focused focus
                 (set_formSteps
                    (on_first_step (currentStep wz)
                       (set_step_inputs (map marked (inputs el))) (formSteps wz)) wz) in
    wizard (exec nextBtn_click w)
    = if forallb (fun i => negb (failing i)) (inputs el)
         && (currentStep wz <? totalSteps)%Z
      then updateStepVisibility (set_currentStep (currentStep wz + 1) wz1)
      else wz1.
Proof.
  intros Hn Hq. unfold exec. rewrite (nextBtn_click_run w d el Hn Hq). cbv zeta.
  unfold scan_inputs. rewrite scan_isValid, scan_scanned. simpl.
  destruct (forallb _ (inputs el)); simpl.
  - eexists. destruct (currentStep (wizard w) <? totalSteps)%Z; reflexivity.
  - destruct (firstInvalid _); eexists; reflexivity.
Qed.

Lemma nextBtn_click_idle (w : World) :
  nextBtn (wizard w) = None
  \/ querySelector_step (currentStep (wizard w)) (formSteps (wizard w)) = None ->
  nextBtn_click w = (Ok tt, w).
Proof.
  intros Hi. unfold nextBtn_click. rewrite bind_run. simpl.
  destruct (nextBtn (wizard w)); [|done].
  destruct Hi as [Hi | ->]; done.
Qed.

Lemma on_first_step_inputs_skeleton (n : Z) (ins : list Input) (steps : list FormStep) :
  map step_active (on_first_step n (set_step_inputs ins) steps) = map step_active steps
  /\ map data_step (on_first_step n (set_step_inputs ins) steps) = map data_step steps.
Proof.
  induction steps as [|s steps [IH1 IH2]]; simpl; [done|].
  destruct (data_step s =? n)%Z; simpl; [done|]. by rewrite IH1, IH2.
Qed.

Lemma shown_after_activation (n : Z) (steps : list FormStep) :
  map step_active (on_first_step n (set_step_active true)
                     (map (set_step_active false) steps))
  = shown_steps n (map data_step steps)
  /\ map data_step (on_first_step n (set_step_active true)
                      (map (set_step_active false) steps))
     = map data_step steps.
Proof.
  induction steps as [|s steps [IH1 IH2]]; simpl; [done|].
  destruct (data_step s =? n)%Z; simpl.
  - split; f_equal; rewrite !map_map; simpl; done.
  - by rewrite IH1, IH2.
Qed.

Lemma updateStepVisibility_in_step (wz : Wizard) :
  formSteps wz <> [] -> in_step (updateStepVisibility wz).
Proof.
  intros Hs. unfold in_step.
  split; [intros E; by apply updateStepVisibility_formSteps in E|].
  rewrite updateStepVisibility_currentStep.
  unfold updateStepVisibility. destruct (formSteps wz) as [|s0 steps] eqn:E; [done|].
  generalize (s0 :: steps). intros l. simpl.
  destruct (shown_after_activation (currentStep wz) l) as [H1 H2].
  split; [by rewrite H1, H2|].
  split.
  { apply Forall_forall. intros dot Hd. apply list_elem_of_fmap in Hd as (d0 & -> & _).
    done. }
  split; intros d Hd.
  - destruct (prevBtn wz); simpl in Hd; congruence.
  - destruct (nextBtn wz); simpl in Hd; congruence.
Qed.

Lemma in_step_scanned (wz : Wizard) (focus : option string) (ins : list Input) :
  in_step wz ->
  in_step (set_focused focus
             (set_formSteps
                (on_first_step (currentStep wz) (set_step_inputs ins) (formSteps wz))
                wz)).
Proof.
  intros (Hs & Ha & Hd & Hp & Hn). unfold in_step. simpl.
  destruct (on_first_step_inputs_skeleton (currentStep wz) ins (formSteps wz))
    as [H1 H2].
  split; [intros E; by apply on_first_step_nil in E|].
  by rewrite H1, H2.
Qed.

Lemma handle_in_step (e : StepEvent) (w : World) :
  in_step (wizard w) -> in_step (wizard (exec (handle e) w)).
Proof.
  intros Hi. destruct e; simpl.
  - destruct (nextBtn (wizard w)) as [d|] eqn:Hn;
      [|unfold exec; by rewrite nextBtn_click_idle by auto].
    destruct (querySelector_step (currentStep (wizard w)) (formSteps (wizard w)))
      as [el|] eqn:Hq;
      [|unfold exec; by rewrite nextBtn_click_idle by auto].
    destruct (nextBtn_click_wizard w d el Hn Hq) as [focus ->].
    destruct (_ && _).
    + apply updateStepVisibility_in_step. simpl.
      intros E. apply on_first_step_nil in E. by destruct Hi.
    + by apply in_step_scanned.
  - unfold exec. rewrite prevBtn_click_run. simpl.
    destruct (_ && _); [|done]. simpl.
    apply updateStepVisibility_in_step. simpl. by destruct Hi.
  - unfold exec. simpl. destruct Hi as (Hs & Ha & Hd & Hp & Hn).
    unfold in_step, retype. simpl.
    split; [by destruct (formSteps (wizard w))|].
    assert (Hsk : forall steps : list FormStep,
               map step_active
                 (map (fun s => if (data_step s =? n)%Z
                                then set_step_inputs (map (set_validity id valid) (inputs s)) s
                                else s) steps) = map step_active steps
               /\ map data_step
                    (map (fun s => if (data_step s =? n)%Z
                                   then set_step_inputs (map (set_validity id valid) (inputs s)) s
                                   else s) steps) = map data_step steps).
    { induction steps as [|s steps [IH1 IH2]]; simpl; [done|].
      rewrite IH1, IH2. by destruct (data_step s =? n)%Z. }
    destruct (Hsk (formSteps (wizard w))) as [-> ->]. done.
Qed.

(** X6. On a page that has form steps, after [initOnboarding] and any
    sequence of Next clicks, Previous clicks and edits, what is displayed is
    what the counter calls for: the one step shown is the first whose
    [data-step] is the counter, the dots up to the counter are lit and the
    others are not, Previous is hidden exactly at step 1 and Next exactly at
    the last step. *)
Theorem form_display_follows_counter (w0 : World) (es : list StepEvent) :
  formSteps (wizard w0) <> [] ->
  let wz := wizard (exec (handle_all es) (exec initOnboarding w0)) in
  map step_active (formSteps wz)
  = shown_steps (currentStep wz) (map data_step (formSteps wz))
  /\ Forall (fun dot => dot_active dot
                        = match dot_step dot with
                          | Some k => (k <=? currentStep wz)%Z
                          | None => false
                          end) (stepDots wz)
  /\ (forall d, prevBtn wz = Some d -> d = "none" <-> currentStep wz = 1%Z)
  /\ (forall d, nextBtn wz = Some d -> d = "none" <-> currentStep wz = totalSteps).
Proof.
  intros Hs wz.
  assert (Hi : in_step wz).
  { apply (handle_all_inv in_step); [apply handle_in_step|].
    unfold exec, initOnboarding, on_wizard, modify. simpl.
    by apply updateStepVisibility_in_step. }
  assert (Hr : step_inv wz).
  { apply (handle_all_inv step_inv); [apply handle_step_inv|].
    unfold exec, initOnboarding, on_wizard, modify, step_inv. simpl.
    rewrite updateStepVisibility_currentStep. simpl. unfold totalSteps. lia. }
  destruct Hi as (_ & Ha & Hd & Hp & Hn). destruct Hr as [Hlo Hhi].
  split; [exact Ha|]. split; [exact Hd|]. split.
  - intros d Hd'. rewrite (Hp d Hd').
    destruct (1 <? currentStep wz)%Z eqn:E.
    + apply Z.ltb_lt in E. split; [discriminate | lia].
    + apply Z.ltb_ge in E. split; [lia | done].
  - intros d Hd'. rewrite (Hn d Hd').
    destruct (currentStep wz =? totalSteps)%Z eqn:E.
    + apply Z.eqb_eq in E. done.
    + apply Z.eqb_neq in E. split; [discriminate | done].
Qed.

Lemma form_display_follows_counter_witness :
  let wz := wizard (exec (handle_all [Retype 1 "email" true; Retype 1 "major" true;
                                      Advance; Advance; Retreat])
                      (exec initOnboarding Sample.world0)) in
  formSteps (wizard Sample.world0) <> []
  /\ map step_active (formSteps wz)
     = shown_steps (currentStep wz) (map data_step (formSteps wz)).
Proof.
  split; [discriminate|].
  apply (form_display_follows_counter Sample.world0
           [Retype 1 "email" true; Retype 1 "major" true; Advance; Advance; Retreat]).
  discriminate.
Defined.

Lemma updateStepVisibility_inputs (wz : Wizard) :
  map inputs (formSteps (updateStepVisibility wz)) = map inputs (formSteps wz).
Proof.
  unfold updateStepVisibility. destruct (formSteps wz) as [|s0 steps] eqn:E;
    [by rewrite E|].
  generalize (s0 :: steps). clear. intros l. simpl.
  induction l as [|s l IH]; [done|].
  simpl. destruct (data_step s =? currentStep wz)%Z; simpl.
  - f_equal. rewrite map_map. done.
  - by rewrite IH.
Qed.

(** X7. A Next click rewrites the error marks of the step it checks and of
    no other: whether it advances or not, every control of that step that
    is not hidden ends up marked exactly when it fails its check (a mark left
    by an earlier click is cleared once the control is valid), hidden
    controls keep the mark they had, and nothing else of a control changes. *)
Theorem next_marks_invalid_controls (w : World) (d : string) (el : FormStep) :
  nextBtn (wizard w) = Some d ->
  querySelector_step (currentStep (wizard w)) (formSteps (wizard w)) = Some el ->
  let w' := exec nextBtn_click w in
  map inputs (formSteps (wizard w'))
  = map inputs (on_first_step (currentStep (wizard w))
                  (set_step_inputs (map marked (inputs el))) (formSteps (wizard w)))
  /\ forall i : Input,
       input_id (marked i) = input_id i
       /\ input_type (marked i) = input_type i
       /\ checkValidity (marked i) = checkValidity i
       /\ error_class (marked i)
          = if String.eqb (input_type i) "hidden" then error_class i
            else negb (checkValidity i).
Proof.
  intros Hn Hq w'. split.
  - unfold w'. destruct (nextBtn_click_wizard w d el Hn Hq) as [focus ->].
    destruct (_ && _); [|done].
    by rewrite updateStepVisibility_inputs.
  - intros i. unfold marked. by destruct (String.eqb (input_type i) "hidden").
Qed.

Lemma next_marks_invalid_controls_witness :
  map (map error_class)
    (map inputs (formSteps (wizard (exec nextBtn_click Sample.world0))))
  = [[false; false; true; true]; []; []; []].
Proof.
  rewrite (proj1 (next_marks_invalid_controls Sample.world0 "inline-flex" Sample.step1
                    eq_refl eq_refl)).
  reflexivity.
Defined.

(** ** Displays: empty lists, null payloads, filter clicks *)

Section DisplayMore.
Context `{Host}.

(** X8. An empty array is not an absent field: a roadmap whose [phases] is
    the empty array is drawn as an empty container, not as the placeholder,
    and so are LinkedIn suggestions whose only fields are empty arrays; an
    empty item list of a phase is drawn as nothing. *)
Theorem empty_lists_draw_nothing :
  (forall fs, assoc "phases" fs = JArr [] ->
              displayRoadmap_html (JObj fs) = Ok EmptyString)
  /\ (forall fs,
        assoc "post_ideas" fs = JArr [] ->
        truthy (assoc "profile_summary" fs) = false ->
        assoc "skills_to_add" fs = JArr [] \/ truthy (assoc "skills_to_add" fs) = false ->
        displayLinkedIn_html (JObj fs) = Ok EmptyString)
  /\ (forall title type, renderPhaseItems title (JArr []) type = Ok EmptyString).
Proof.
  split; [|split].
  - intros fs Hp. unfold displayRoadmap_html. simpl. by rewrite Hp.
  - intros fs Hp Hs Hk. unfold displayLinkedIn_html. simpl.
    rewrite Hp, Hs. simpl.
    destruct Hk as [-> | ->]; simpl; done.
  - intros title type. unfold renderPhaseItems. simpl. done.
Qed.

Lemma stat_value_split (text label after : string) :
  stat_value text label +:+ after
  = "<div class=" +:+ dq +:+ "progress-stat-value" +:+ dq +:+ ">" +:+ text +:+ "</div>
            <div class=" +:+ dq +:+ "progress-stat-label" +:+ dq +:+ ">" +:+ label
    +:+ "</div>" +:+ after.
Proof. unfold stat_value. by rewrite !string_append_assoc. Qed.

(** The first cell of the summary shows the total as text. *)
Lemma summary_shows_total (summary : JsValue) (html : string) :
  nullish summary = false ->
  displayProgressSummary_html summary = Ok html ->
  has_stat (toStr (get_opt summary "total")) "Total Tasks" html.
Proof.
  intros Hn. unfold displayProgressSummary_html.
  destruct (percentage summary) as [p|e]; [|done]. simpl.
  rewrite !(get_not_nullish _ _ Hn). simpl. intros [= <-].
  exists ("
        <div class=" +:+ dq +:+ "progress-stat" +:+ dq +:+ ">
            "). eexists.
  rewrite stat_value_split. reflexivity.
Qed.

(** X9. The summary view fails on a null or undefined payload and on no
    other: any other value is drawn, with the total as text in the cell
    labelled "Total Tasks"; a payload without a total shows the text
    "undefined" in that cell, and a payload whose total is missing or is not
    a positive number shows 0 percent. *)
Theorem summary_drawn_unless_null (summary : JsValue) :
  (nullish summary = true -> is_ok (displayProgressSummary_html summary) = false)
  /\ (nullish summary = false ->
      is_ok (displayProgressSummary_html summary) = true
      /\ (forall html, displayProgressSummary_html summary = Ok html ->
                       has_stat (toStr (get_opt summary "total")) "Total Tasks" html)
      /\ (gt0 (get_opt summary "total") = false -> percentage summary = Ok 0%float)
      /\ (get_opt summary "total" = JUndefined ->
          percentage summary = Ok 0%float
          /\ exists html, displayProgressSummary_html summary = Ok html
                          /\ has_stat "undefined" "Total Tasks" html)).
Proof.
  split.
  - by destruct summary.
  - intros Hn.
    assert (Hp : gt0 (get_opt summary "total") = false -> percentage summary = Ok 0%float).
    { intros Hg. unfold percentage. rewrite (get_not_nullish _ _ Hn). simpl.
      by rewrite Hg. }
    assert (Hok : is_ok (displayProgressSummary_html summary) = true).
    { unfold displayProgressSummary_html, percentage.
      rewrite !(get_not_nullish _ _ Hn). simpl.
      destruct (gt0 _); simpl; done. }
    split; [exact Hok|]. split; [intros html; by apply summary_shows_total|].
    split; [exact Hp|].
    intros Hu. split; [apply Hp; by rewrite Hu|].
    destruct (displayProgressSummary_html summary) as [html|e] eqn:Hd; [|done].
    exists html. split; [done|].
    pose proof (summary_shows_total summary html Hn Hd) as Hs.
    by rewrite Hu in Hs.
Qed.

Lemma filterBtn_click_effect (v : JsValue) (w : World) :
  let w' := exec (filterBtn_click v) w in
  app w' = app w /\ requests w' = requests w
  /\ wizard w' = wizard w /\ fields w' = fields w
  /\ activeFilter (page w') = v
  /\ (truthy (progressData (app w)) = true ->
      forall html, markup (Tasks v) (progressData (app w)) = Ok html ->
                   containers (page w') !! "progress-tasks" = Some html).
Proof.
  unfold exec. rewrite filterBtn_click_run. cbv zeta.
  destruct (truthy (progressData (app w))); [|done].
  change (displayTasks (progressData (app w)) v)
    with (display (Tasks v) (progressData (app w))).
  rewrite display_run. destruct (markup _ _) as [html|e]; simpl.
  - repeat split; try done. intros _ html' [= <-]. apply lookup_insert_eq.
  - repeat split; done.
Qed.

Lemma filter_clicks_app (vs : list JsValue) (v : JsValue) (w : World) :
  filter_clicks (vs ++ [v]) w = exec (filterBtn_click v) (filter_clicks vs w).
Proof. unfold filter_clicks. by rewrite fold_left_app. Qed.

(** X10. Clicks on filter buttons never touch the session, the cached
    task list, the form or the request log, however many there are and even
    when a redraw throws; and when the cached list can be drawn for the filter
    clicked last, what the task container shows is that drawing, whatever
    was clicked before. *)
Theorem filter_clicks_only_redraw (vs : list JsValue) (w : World) :
  app (filter_clicks vs w) = app w
  /\ requests (filter_clicks vs w) = requests w
  /\ wizard (filter_clicks vs w) = wizard w
  /\ fields (filter_clicks vs w) = fields w
  /\ forall (v : JsValue) (html : string),
       truthy (progressData (app w)) = true ->
       markup (Tasks v) (progressData (app w)) = Ok html ->
       containers (page (filter_clicks (vs ++ [v]) w)) !! "progress-tasks" = Some html
       /\ activeFilter (page (filter_clicks (vs ++ [v]) w)) = v.
Proof.
  assert (Hf : forall vs, app (filter_clicks vs w) = app w
                          /\ requests (filter_clicks vs w) = requests w
                          /\ wizard (filter_clicks vs w) = wizard w
                          /\ fields (filter_clicks vs w) = fields w).
  { clear vs. intros vs. induction vs as [|v vs IH] using rev_ind; [done|].
    rewrite filter_clicks_app.
    destruct (filterBtn_click_effect v (filter_clicks vs w)) as (-> & -> & -> & -> & _).
    exact IH. }
  destruct (Hf vs) as (Ha & Hq & Hw & Hfi).
  repeat split; try done.
  - rewrite filter_clicks_app.
    destruct (filterBtn_click_effect v (filter_clicks vs w)) as (_ & _ & _ & _ & _ & Hc).
    rewrite Ha in Hc. by apply Hc.
  - rewrite filter_clicks_app.
    by destruct (filterBtn_click_effect v (filter_clicks vs w)) as (_ & _ & _ & _ & -> & _).
Qed.

End DisplayMore.

Lemma empty_lists_draw_nothing_witness :
  displayRoadmap_html (H := IntegerHost.host) (JObj [("phases", JArr [])]) = Ok EmptyString.
Proof.
  exact (proj1 (empty_lists_draw_nothing (H := IntegerHost.host))
           [("phases", JArr [])] eq_refl).
Defined.

Lemma summary_drawn_unless_null_witness :
  is_ok (displayProgressSummary_html (H := IntegerHost.host) (JObj [])) = true
  /\ percentage (H := IntegerHost.host) (JObj []) = Ok 0%float.
Proof.
  destruct (summary_drawn_unless_null (H := IntegerHost.host) (JObj []))
    as [_ Hd].
  destruct (Hd eq_refl) as (Hok & _ & _ & Hu).
  split; [exact Hok | exact (proj1 (Hu eq_refl))].
Defined.

Lemma filter_clicks_only_redraw_witness :
  let w := set_app (set_progressData (JArr Sample.tasks0) (app Sample.world0))
             Sample.world0 in
  containers (page (filter_clicks (H := IntegerHost.host)
                      ([JStr "project"; JStr "all"] ++ [JStr "test"]) w))
    !! "progress-tasks"
  = Some tasks_empty.
Proof.
  intros w.
  destruct (filter_clicks_only_redraw (H := IntegerHost.host)
              [JStr "project"; JStr "all"] w) as (_ & _ & _ & _ & Hc).
  exact (proj1 (Hc (JStr "test") tasks_empty eq_refl ltac:(vm_compute; reflexivity))).
Defined.

(** ** Loading the roadmap and progress pages *)

Section LoaderFacts.
Context `{Host}.

Lemma exec_bind {A B} (m : M A) (f : A -> M B) (w : World) :
  exec (m ≫= f) w
  = match outcome m w with
    | Ok a => exec (f a) (exec m w)
    | Throw _ => exec m w
    end.
Proof. unfold exec, outcome. rewrite bind_run. by destruct (m w) as [[a|e] w']. Qed.

Lemma outcome_bind {A B} (m : M A) (f : A -> M B) (w : World) :
  outcome (m ≫= f) w
  = match outcome m w with
    | Ok a => outcome (f a) (exec m w)
    | Throw e => Throw e
    end.
Proof. unfold exec, outcome. rewrite bind_run. by destruct (m w) as [[a|e] w']. Qed.

Lemma exec_try_catch (body : M unit) (handler : JsError -> M unit) (w : World) :
  exec (try_catch body handler) w
  = match outcome body w with
    | Ok _ => exec body w
    | Throw e => exec (handler e) (exec body w)
    end.
Proof. unfold exec, outcome, try_catch. by destruct (body w) as [[[]|e] w']. Qed.

Lemma outcome_try_catch (body : M unit) (handler : JsError -> M unit) (w : World) :
  outcome (try_catch body handler) w
  = match outcome body w with
    | Ok _ => Ok tt
    | Throw e => outcome (handler e) (exec body w)
    end.
Proof. unfold exec, outcome, try_catch. by destruct (body w) as [[[]|e] w']. Qed.

(** A relation between the states before and after that every step of a
    handler keeps is kept by the handler. *)
Lemma bind_keeps (R : World -> World -> Prop) {A B} (m : M A) (f : A -> M B) :
  (forall w1 w2 w3, R w1 w2 -> R w2 w3 -> R w1 w3) ->
  (forall w, R w (exec m w)) ->
  (forall a w, R w (exec (f a) w)) ->
  forall w, R w (exec (m ≫= f) w).
Proof.
  intros Ht Hm Hf w. rewrite exec_bind. destruct (outcome m w); [|apply Hm].
  eapply Ht; [apply Hm | apply Hf].
Qed.

Lemma try_catch_keeps (R : World -> World -> Prop) (body : M unit)
    (handler : JsError -> M unit) :
  (forall w1 w2 w3, R w1 w2 -> R w2 w3 -> R w1 w3) ->
  (forall w, R w (exec body w)) ->
  (forall e w, R w (exec (handler e) w)) ->
  forall w, R w (exec (try_catch body handler) w).
Proof.
  intros Ht Hm Hf w. rewrite exec_try_catch. destruct (outcome body w); [apply Hm|].
  eapply Ht; [apply Hm | apply Hf].
Qed.

Lemma frame_refl (w : World) : frame w w.
Proof. by repeat split. Qed.

Lemma frame_trans (w1 w2 w3 : World) : frame w1 w2 -> frame w2 w3 -> frame w1 w3.
Proof.
  intros (Ha & Hb & Hc & Hd) (Ha' & Hb' & Hc' & Hd').
  repeat split; [by rewrite Ha' | by rewrite Hb' | by rewrite Hc' | by rewrite Hd'].
Qed.

Lemma reads_only_quiet {A} (m : M A) :
  (forall w, frame w (exec m w) /\ requests (exec m w) = requests w) ->
  reads_only 0 m.
Proof.
  intros Hq w. destruct (Hq w) as [Hf Hr]. split; [exact Hf|].
  exists []. rewrite app_nil_r. split; [exact Hr|]. split; [simpl; lia | constructor].
Qed.

Lemma reads_only_le {A} (k k' : nat) (m : M A) :
  k <= k' -> reads_only k m -> reads_only k' m.
Proof.
  intros Hk Hm w. destruct (Hm w) as (Hf & rs & Hr & Hl & Hg).
  split; [exact Hf|]. exists rs. repeat split; [exact Hr | lia | exact Hg].
Qed.

Lemma reads_only_bind {A B} (k1 k2 : nat) (m : M A) (f : A -> M B) :
  reads_only k1 m -> (forall a, reads_only k2 (f a)) ->
  reads_only (k1 + k2) (m ≫= f).
Proof.
  intros Hm Hf w. rewrite exec_bind.
  destruct (Hm w) as (Hfr & rs & Hr & Hl & Hg).
  destruct (outcome m w) as [a|e].
  - destruct (Hf a (exec m w)) as (Hfr' & rs' & Hr' & Hl' & Hg').
    split; [by eapply frame_trans|].
    exists (rs ++ rs'). rewrite Hr', Hr, app_assoc, length_app.
    repeat split; [lia | by apply Forall_app].
  - split; [exact Hfr|]. exists rs. repeat split; [exact Hr | lia | exact Hg].
Qed.

Lemma reads_only_try_catch (k1 k2 : nat) (body : M unit) (handler : JsError -> M unit) :
  reads_only k1 body -> (forall e, reads_only k2 (handler e)) ->
  reads_only (k1 + k2) (try_catch body handler).
Proof.
  intros Hm Hf w. rewrite exec_try_catch.
  destruct (Hm w) as (Hfr & rs & Hr & Hl & Hg).
  destruct (outcome body w) as [a|e].
  - split; [exact Hfr|]. exists rs. repeat split; [exact Hr | lia | exact Hg].
  - destruct (Hf e (exec body w)) as (Hfr' & rs' & Hr' & Hl' & Hg').
    split; [by eapply frame_trans|].
    exists (rs ++ rs'). rewrite Hr', Hr, app_assoc, length_app.
    repeat split; [lia | by apply Forall_app].
Qed.

Lemma reads_only_step {A B} (k : nat) (m : M A) (f : A -> M B) :
  reads_only 0 m -> (forall a, reads_only k (f a)) -> reads_only k (m ≫= f).
Proof. apply (reads_only_bind 0 k). Qed.

Lemma reads_only_fetch (server : Server) (u : string) : reads_only 1 (fetch server (GET u)).
Proof.
  intros w. unfold exec, fetch. simpl.
  destruct (server (requests w) (GET u)); simpl;
    (split; [by repeat split|]); exists [GET u];
    (repeat split; [simpl; lia | by repeat constructor]).
Qed.

Lemma reads_only_get {B} (server : Server) (k : nat) (u : string) (f : Response -> M B) :
  (forall r, reads_only k (f r)) -> reads_only (S k) (fetch server (GET u) ≫= f).
Proof. intros Hf. apply (reads_only_bind 1 k); [apply reads_only_fetch | exact Hf]. Qed.

Lemma reads_only_liftR {A} (r : Result A) : reads_only 0 (liftR r).
Proof. apply reads_only_quiet. intros w. by repeat split. Qed.

Lemma reads_only_mret {A} (a : A) : reads_only 0 (mret a : M A).
Proof. apply reads_only_quiet. intros w. by repeat split. Qed.

Lemma reads_only_world : reads_only 0 world.
Proof. apply reads_only_quiet. intros w. by repeat split. Qed.

Lemma reads_only_on_page (f : Page -> Page) : reads_only 0 (on_page f).
Proof. apply reads_only_quiet. intros w. by repeat split. Qed.

Lemma reads_only_currentUser_id : reads_only 0 currentUser_id.
Proof.
  apply reads_only_quiet. intros w. unfold exec, currentUser_id.
  rewrite bind_run. simpl. by repeat split.
Qed.

Lemma reads_only_showToast (msg ty : string) : reads_only 0 (showToast msg ty).
Proof. apply reads_only_quiet. intros w. by repeat split. Qed.

Lemma reads_only_display (d : DisplayFn) (v : JsValue) : reads_only 0 (display d v).
Proof.
  apply reads_only_quiet. intros w. unfold exec. rewrite display_run.
  by destruct (markup d v).
Qed.

Lemma reads_only_cache (f : AppState -> AppState) :
  (forall a, currentUser (f a) = currentUser a /\ currentPage (f a) = currentPage a) ->
  reads_only 0 (on_app f).
Proof. intros Hf. apply reads_only_quiet. intros w. repeat split; apply Hf. Qed.

Lemma reads_only_catch (label msg : string) (e : JsError) :
  reads_only 0 (console_error label e;; showToast msg "error";; hideLoading).
Proof. apply reads_only_quiet. intros w. by repeat split. Qed.

Lemma load_analysis_reads_only (server : Server) : reads_only 1 (load_analysis server).
Proof.
  unfold load_analysis.
  apply reads_only_step; [apply reads_only_currentUser_id | intros id].
  apply reads_only_get. intros r.
  apply reads_only_step; [apply reads_only_liftR | intros d].
  apply reads_only_step; [apply reads_only_liftR | intros profile].
  destruct (truthy profile); [|apply reads_only_mret].
  apply reads_only_step; [apply reads_only_liftR | intros analysis].
  destruct (truthy analysis); [|apply reads_only_mret].
  apply (reads_only_display Analysis).
Qed.

Lemma load_growth_path_reads_only (server : Server) :
  reads_only 1 (load_growth_path server).
Proof.
  unfold load_growth_path.
  apply reads_only_step; [apply reads_only_currentUser_id | intros id].
  apply reads_only_get. intros r.
  destruct (negb (ok r)).
  - apply reads_only_step; [apply reads_only_on_page | intros _].
    apply reads_only_on_page.
  - apply reads_only_step; [apply reads_only_liftR | intros d].
    apply reads_only_step; [apply reads_only_liftR | intros enriched].
    apply reads_only_step; [by apply reads_only_cache | intros _].
    apply reads_only_step; [apply reads_only_world | intros w].
    apply reads_only_step; [apply (reads_only_display Roadmap) | intros _].
    apply reads_only_on_page.
Qed.

Lemma load_summary_reads_only (server : Server) : reads_only 1 (load_summary server).
Proof.
  unfold load_summary.
  apply reads_only_step; [apply reads_only_currentUser_id | intros id].
  apply reads_only_get. intros r.
  apply reads_only_step; [apply reads_only_liftR | intros d].
  apply (reads_only_display ProgressSummary).
Qed.

Lemma load_tasks_reads_only (server : Server) : reads_only 1 (load_tasks server).
Proof.
  unfold load_tasks.
  apply reads_only_step; [apply reads_only_currentUser_id | intros id].
  apply reads_only_get. intros r.
  apply reads_only_step; [apply reads_only_liftR | intros d].
  apply reads_only_step; [apply reads_only_liftR | intros tasks].
  apply reads_only_step; [by apply reads_only_cache | intros _].
  apply reads_only_step; [apply reads_only_world | intros w].
  apply reads_only_step; [apply (reads_only_display (Tasks JUndefined)) | intros _].
  apply reads_only_on_page.
Qed.

Lemma guarded_load_reads_only (id text label msg : string) (k1 k2 : nat)
    (part1 part2 : M unit) :
  reads_only k1 part1 -> reads_only k2 part2 ->
  reads_only (k1 + k2)
    (w ← world;
     if negb (truthy (currentUser (app w))) then set_innerHTML id text
     else
       showLoading;;
       try_catch (part1;; part2)
         (fun error => console_error label error;; showToast msg "error";; hideLoading)).
Proof.
  intros H1 H2.
  apply reads_only_step; [apply reads_only_world | intros w].
  destruct (negb _).
  - apply (reads_only_le 0); [lia | apply reads_only_on_page].
  - apply reads_only_step; [apply reads_only_on_page | intros _].
    replace (k1 + k2) with (k1 + k2 + 0) by lia.
    apply reads_only_try_catch; [|intros e; apply reads_only_catch].
    apply reads_only_bind; [exact H1 | intros _; exact H2].
Qed.

Lemma loadRoadmap_reads_only (server : Server) : reads_only 2 (loadRoadmap server).
Proof.
  apply (guarded_load_reads_only _ _ _ _ 1 1);
    [apply load_analysis_reads_only | apply load_growth_path_reads_only].
Qed.

Lemma loadProgress_reads_only (server : Server) : reads_only 2 (loadProgress server).
Proof.
  apply (guarded_load_reads_only _ _ _ _ 1 1);
    [apply load_summary_reads_only | apply load_tasks_reads_only].
Qed.

Lemma releases_bind {A B} (m : M A) (f : A -> M B) :
  (forall a, releases (f a)) -> releases (m ≫= f).
Proof.
  intros Hf w. rewrite outcome_bind, exec_bind.
  destruct (outcome m w); [apply Hf | done].
Qed.

Lemma releases_hideLoading : releases hideLoading.
Proof. by intros w _. Qed.

Lemma load_growth_path_releases (server : Server) : releases (load_growth_path server).
Proof.
  unfold load_growth_path.
  apply releases_bind; intros id. apply releases_bind; intros r.
  destruct (negb (ok r)); repeat (apply releases_bind; intros ?);
    apply releases_hideLoading.
Qed.

Lemma load_tasks_releases (server : Server) : releases (load_tasks server).
Proof.
  unfold load_tasks.
  repeat (apply releases_bind; intros ?). apply releases_hideLoading.
Qed.

(** A guarded load never throws; signed in it ends with the overlay hidden,
    signed out it asks nothing and shows no notification. *)
Lemma guarded_load_settles (id text label msg : string) (part1 part2 : M unit) (w : World) :
  releases part2 ->
  let load :=
    (w ← world;
     if negb (truthy (currentUser (app w))) then set_innerHTML id text
     else
       showLoading;;
       try_catch (part1;; part2)
         (fun error => console_error label error;; showToast msg "error";; hideLoading))
  in
  outcome load w = Ok tt
  /\ if truthy (currentUser (app w)) then loading (page (exec load w)) = false
     else exec load w = written id text w.
Proof.
  intros H2 load. unfold load.
  rewrite outcome_bind, exec_bind.
  change (outcome world w) with (Ok w : Result World). cbv iota.
  change (exec world w) with w.
  destruct (truthy (currentUser (app w))); simpl negb; cbv iota; [|done].
  rewrite outcome_bind, exec_bind.
  change (outcome showLoading w) with (Ok tt : Result unit). cbv iota.
  set (w1 := exec showLoading w).
  rewrite outcome_try_catch, exec_try_catch.
  pose proof (releases_bind part1 (fun _ => part2) (fun _ => H2) w1) as Hrel.
  destruct (outcome (part1;; part2) w1) as [[]|e]; [split; [done | by apply Hrel]|].
  by split.
Qed.

(** X11. Loading the roadmap page or the progress page never throws and
    never touches the form, the session identity or the current page; it
    sends at most two
    requests, both GETs; with a session it ends with the overlay hidden, and
    without one it sends nothing and shows no notification. *)
Theorem loads_are_contained (server : Server) (w : World) :
  Forall (fun load : M unit =>
            outcome load w = Ok tt
            /\ frame w (exec load w)
            /\ (exists rs, requests (exec load w) = requests w ++ rs
                           /\ length rs <= 2
                           /\ Forall (fun r => method r = "GET") rs)
            /\ if truthy (currentUser (app w))
               then loading (page (exec load w)) = false
               else requests (exec load w) = requests w
                    /\ toasts (page (exec load w)) = toasts (page w)
                    /\ loading (page (exec load w)) = loading (page w))
    [loadRoadmap server; loadProgress server].
Proof.
  constructor; [|constructor; [|constructor]].
  - pose proof (guarded_load_settles "roadmap-content"
                  (empty_state "Please complete onboarding first")
                  "Error loading roadmap:" "Error loading roadmap"
                  (load_analysis server) _ w (load_growth_path_releases server))
      as [Ho Hs].
    destruct (loadRoadmap_reads_only server w) as [Hf Hr].
    split; [exact Ho|]. split; [exact Hf|]. split; [exact Hr|].
    destruct (truthy (currentUser (app w))); [exact Hs|].
    unfold loadRoadmap, loadRoadmap_try. by rewrite Hs.
  - pose proof (guarded_load_settles "progress-tasks"
                  (empty_state "Please complete onboarding first")
                  "Error loading progress:" "Error loading progress"
                  (load_summary server) _ w (load_tasks_releases server))
      as [Ho Hs].
    destruct (loadProgress_reads_only server w) as [Hf Hr].
    split; [exact Ho|]. split; [exact Hf|]. split; [exact Hr|].
    destruct (truthy (currentUser (app w))); [exact Hs|].
    unfold loadProgress, loadProgress_try. by rewrite Hs.
Qed.


Lemma currentUser_id_run (w : World) :
  currentUser_id w = (get (currentUser (app w)) "id", w).
Proof. reflexivity. Qed.

Lemma signed_id (w : World) :
  truthy (currentUser (app w)) = true ->
  currentUser_id w = (Ok (get_opt (currentUser (app w)) "id"), w).
Proof.
  intros Hs. rewrite currentUser_id_run.
  by rewrite (get_not_nullish _ _ (truthy_not_nullish _ Hs)).
Qed.

(** What the catch block of a loader leaves. *)
Lemma catch_effect (label msg : string) (e : JsError) (w : World) :
  let w' := exec (console_error label e;; showToast msg "error";; hideLoading) w in
  outcome (console_error label e;; showToast msg "error";; hideLoading) w = Ok tt
  /\ app w' = app w /\ requests w' = requests w
  /\ containers (page w') = containers (page w)
  /\ toasts (page w') = toasts (page w) ++ [toast_node msg "error"]
  /\ console (page w') = console (page w) ++ [(label, e)]
  /\ loading (page w') = false.
Proof. by repeat split. Qed.

(** The first part of [loadRoadmap]: one request; the page changes only
    when the analysis is drawn, which is the last thing that can fail. *)
Lemma load_analysis_effect (server : Server) (w : World) :
  let w' := exec (load_analysis server) w in
  app w' = app w
  /\ toasts (page w') = toasts (page w)
  /\ console (page w') = console (page w)
  /\ loading (page w') = loading (page w)
  /\ (forall id, id <> "profile-analysis" ->
                 containers (page w') !! id = containers (page w) !! id)
  /\ (is_ok (outcome (load_analysis server) w) = false -> page w' = page w)
  /\ (truthy (currentUser (app w)) = true ->
      requests w'
      = requests w
        ++ [GET (API_BASE_URL +:+ "/users/"
                 +:+ toStr (get_opt (currentUser (app w)) "id") +:+ "/profile")]).
Proof.
  unfold exec, outcome.
  destruct (load_analysis server w) as [res w'] eqn:Hrun. simpl fst. simpl snd.
  revert Hrun. unfold load_analysis. rewrite bind_run, currentUser_id_run.
  assert (Hid : truthy (currentUser (app w)) = true ->
                get (currentUser (app w)) "id"
                = Ok (get_opt (currentUser (app w)) "id")).
  { intros Hs. by rewrite (get_not_nullish _ _ (truthy_not_nullish _ Hs)). }
  destruct (get _ "id") as [id|e].
  2:{ intros [= <- <-]. repeat split; try done. intros Hs. by specialize (Hid Hs). }
  assert (Hid' : truthy (currentUser (app w)) = true ->
                 id = get_opt (currentUser (app w)) "id").
  { intros Hs. specialize (Hid Hs). by injection Hid. }
  rewrite bind_run. unfold fetch.
  destruct (server _ _) as [e|r].
  { intros [= <- <-]. repeat split; try done. intros Hs. simpl. by rewrite (Hid' Hs). }
  rewrite bind_run. unfold liftR at 1.
  destruct (json r) as [d|e].
  2:{ intros [= <- <-]. repeat split; try done. intros Hs. simpl. by rewrite (Hid' Hs). }
  rewrite bind_run. unfold liftR at 1.
  destruct (get d "profile") as [p|e].
  2:{ intros [= <- <-]. repeat split; try done. intros Hs. simpl. by rewrite (Hid' Hs). }
  destruct (truthy p).
  2:{ intros [= <- <-]. repeat split; try done. intros Hs. simpl. by rewrite (Hid' Hs). }
  rewrite bind_run. unfold liftR at 1.
  destruct (get p "analysis") as [a|e].
  2:{ intros [= <- <-]. repeat split; try done. intros Hs. simpl. by rewrite (Hid' Hs). }
  destruct (truthy a).
  2:{ intros [= <- <-]. repeat split; try done. intros Hs. simpl. by rewrite (Hid' Hs). }
  change (displayAnalysis a) with (display Analysis a). rewrite display_run.
  destruct (markup Analysis a).
  2:{ intros [= <- <-]. repeat split; try done. intros Hs. simpl. by rewrite (Hid' Hs). }
  intros [= <- <-]. repeat split; try done.
  - intros id' Hne. simpl. by apply lookup_insert_ne.
  - intros Hs. simpl. by rewrite (Hid' Hs).
Qed.

(** The first part of [loadProgress]. *)
Lemma load_summary_effect (server : Server) (w : World) :
  let w' := exec (load_summary server) w in
  app w' = app w
  /\ toasts (page w') = toasts (page w)
  /\ console (page w') = console (page w)
  /\ loading (page w') = loading (page w)
  /\ (forall id, id <> "progress-summary" ->
                 containers (page w') !! id = containers (page w) !! id)
  /\ (is_ok (outcome (load_summary server) w) = false -> page w' = page w)
  /\ (truthy (currentUser (app w)) = true ->
      requests w'
      = requests w
        ++ [GET (API_BASE_URL +:+ "/progress/"
                 +:+ toStr (get_opt (currentUser (app w)) "id") +:+ "/summary")]).
Proof.
  unfold exec, outcome.
  destruct (load_summary server w) as [res w'] eqn:Hrun. simpl fst. simpl snd.
  revert Hrun. unfold load_summary. rewrite bind_run, currentUser_id_run.
  assert (Hid : truthy (currentUser (app w)) = true ->
                get (currentUser (app w)) "id"
                = Ok (get_opt (currentUser (app w)) "id")).
  { intros Hs. by rewrite (get_not_nullish _ _ (truthy_not_nullish _ Hs)). }
  destruct (get _ "id") as [id|e].
  2:{ intros [= <- <-]. repeat split; try done. intros Hs. by specialize (Hid Hs). }
  assert (Hid' : truthy (currentUser (app w)) = true ->
                 id = get_opt (currentUser (app w)) "id").
  { intros Hs. specialize (Hid Hs). by injection Hid. }
  rewrite bind_run. unfold fetch.
  destruct (server _ _) as [e|r].
  { intros [= <- <-]. repeat split; try done. intros Hs. simpl. by rewrite (Hid' Hs). }
  rewrite bind_run. unfold liftR at 1.
  destruct (json r) as [d|e].
  2:{ intros [= <- <-]. repeat split; try done. intros Hs. simpl. by rewrite (Hid' Hs). }
  change (displayProgressSummary d) with (display ProgressSummary d).
  rewrite display_run.
  destruct (markup ProgressSummary d).
  2:{ intros [= <- <-]. repeat split; try done. intros Hs. simpl. by rewrite (Hid' Hs). }
  intros [= <- <-]. repeat split; try done.
  - intros id' Hne. simpl. by apply lookup_insert_ne.
  - intros Hs. simpl. by rewrite (Hid' Hs).
Qed.

(** A signed-in load, when its first part throws. *)
Lemma guarded_load_first_part_throws (id text label msg : string)
    (part1 part2 : M unit) (w : World) (e : JsError) :
  truthy (currentUser (app w)) = true ->
  outcome part1 (exec showLoading w) = Throw e ->
  exec (w ← world;
        if negb (truthy (currentUser (app w))) then set_innerHTML id text
        else
          showLoading;;
          try_catch (part1;; part2)
            (fun error => console_error label error;; showToast msg "error";; hideLoading)) w
  = exec (console_error label e;; showToast msg "error";; hideLoading)
      (exec part1 (exec showLoading w)).
Proof.
  intros Hs He. rewrite exec_bind.
  change (outcome world w) with (Ok w : Result World). cbv iota.
  change (exec world w) with w. rewrite Hs. simpl negb. cbv iota.
  rewrite exec_bind.
  change (outcome showLoading w) with (Ok tt : Result unit). cbv iota.
  rewrite exec_try_catch, outcome_bind, He. by rewrite (exec_bind part1), He.
Qed.

(** A signed-in load, when its first part returns. *)
Lemma guarded_load_first_part_returns (id text label msg : string)
    (part1 part2 : M unit) (w : World) :
  truthy (currentUser (app w)) = true ->
  outcome part1 (exec showLoading w) = Ok tt ->
  exec (w ← world;
        if negb (truthy (currentUser (app w))) then set_innerHTML id text
        else
          showLoading;;
          try_catch (part1;; part2)
            (fun error => console_error label error;; showToast msg "error";; hideLoading)) w
  = exec (try_catch part2
            (fun error => console_error label error;; showToast msg "error";; hideLoading))
      (exec part1 (exec showLoading w)).
Proof.
  intros Hs He. rewrite exec_bind.
  change (outcome world w) with (Ok w : Result World). cbv iota.
  change (exec world w) with w. rewrite Hs. simpl negb. cbv iota.
  rewrite exec_bind.
  change (outcome showLoading w) with (Ok tt : Result unit). cbv iota.
  rewrite !exec_try_catch, outcome_bind, He. by rewrite (exec_bind part1), He.
Qed.

(** X12. The roadmap is not asked for when the analysis step fails: if
    the profile request is rejected, its answer cannot be read, or the
    analysis in it cannot be drawn, then the profile request is the only one
    sent, the cached roadmap and every container stay as they were, and the
    failure is logged and shown as "Error loading roadmap". *)
Theorem roadmap_waits_for_analysis (server : Server) (w : World) (e : JsError) :
  truthy (currentUser (app w)) = true ->
  outcome (load_analysis server) (exec showLoading w) = Throw e ->
  let w' := exec (loadRoadmap server) w in
  requests w'
  = requests w
    ++ [GET (API_BASE_URL +:+ "/users/"
             +:+ toStr (get_opt (currentUser (app w)) "id") +:+ "/profile")]
  /\ roadmap (app w') = roadmap (app w)
  /\ containers (page w') = containers (page w)
  /\ toasts (page w') = toasts (page w) ++ [toast_node "Error loading roadmap" "error"]
  /\ console (page w') = console (page w) ++ [("Error loading roadmap:", e)]
  /\ loading (page w') = false.
Proof.
  intros Hs He. cbv zeta. unfold loadRoadmap, loadRoadmap_try.
  rewrite (guarded_load_first_part_throws _ _ _ _ _ _ _ e Hs He).
  destruct (load_analysis_effect server (exec showLoading w))
    as (Ha & Ht & Hc & _ & _ & Hp & Hr).
  specialize (Hr Hs). rewrite He in Hp. specialize (Hp eq_refl).
  destruct (catch_effect "Error loading roadmap:" "Error loading roadmap" e
              (exec (load_analysis server) (exec showLoading w)))
    as (_ & Ha' & Hr' & Hc' & Ht' & Hl' & Ho').
  cbv zeta in *.
  rewrite Hr', Hr, Ha', Ha, Hc', Ht', Hl', Ho', Hp. by repeat split.
Qed.


(** The second part of [loadRoadmap], when the growth path is refused. *)
Lemma load_growth_path_refused (server : Server) (w : World) (resp : Response) :
  truthy (currentUser (app w)) = true ->
  server (requests w)
    (GET (API_BASE_URL +:+ "/growth-path/" +:+ toStr (get_opt (currentUser (app w)) "id")))
  = Responded resp ->
  ok resp = false ->
  let w' := exec (load_growth_path server) w in
  outcome (load_growth_path server) w = Ok tt
  /\ app w' = app w
  /\ containers (page w')
     = <["roadmap-content" := empty_state "No roadmap found. Please complete onboarding."]>
         (containers (page w))
  /\ toasts (page w') = toasts (page w)
  /\ console (page w') = console (page w)
  /\ loading (page w') = false.
Proof.
  intros Hs Hsrv Hok. unfold exec, outcome.
  destruct (load_growth_path server w) as [res w'] eqn:Hrun. simpl fst. simpl snd.
  revert Hrun. unfold load_growth_path. rewrite bind_run, (signed_id _ Hs).
  rewrite bind_run. unfold fetch. rewrite Hsrv, Hok. simpl negb. cbv iota.
  intros [= <- <-]. by repeat split.
Qed.

(** The second part of [loadRoadmap], when the growth path is answered. *)
Lemma load_growth_path_answered (server : Server) (w : World) (resp : Response)
    (d : JsValue) :
  truthy (currentUser (app w)) = true ->
  server (requests w)
    (GET (API_BASE_URL +:+ "/growth-path/" +:+ toStr (get_opt (currentUser (app w)) "id")))
  = Responded resp ->
  ok resp = true ->
  json resp = Ok d ->
  nullish d = false ->
  load_growth_path server w
  = let w1 := set_app (set_roadmap (get_opt d "enriched_roadmap") (app w))
                (set_requests
                   (requests w
                    ++ [GET (API_BASE_URL +:+ "/growth-path/"
                             +:+ toStr (get_opt (currentUser (app w)) "id"))]) w) in
    match markup Roadmap (get_opt d "enriched_roadmap") with
    | Ok html =>
        (Ok tt, set_page (set_loading false (page (written "roadmap-content" html w1)))
                  (written "roadmap-content" html w1))
    | Throw e => (Throw e, w1)
    end.
Proof.
  intros Hs Hsrv Hok Hj Hd. unfold load_growth_path.
  rewrite bind_run, (signed_id _ Hs).
  rewrite bind_run. unfold fetch. rewrite Hsrv. cbv beta iota zeta.
  rewrite Hok. change (negb true) with false. cbv beta iota.
  rewrite bind_run. unfold liftR at 1. rewrite Hj. cbv beta iota.
  rewrite bind_run. unfold liftR at 1. rewrite (get_not_nullish _ _ Hd). cbv beta iota.
  rewrite bind_run. unfold on_app at 1, modify at 1. cbv beta iota.
  rewrite bind_run. unfold world at 1. cbv beta iota.
  rewrite bind_run.
  change (displayRoadmap ?v) with (display Roadmap v). rewrite display_run.
  simpl roadmap.
  by destruct (markup Roadmap (get_opt d "enriched_roadmap")).
Qed.

(** X13. A growth path the backend does not have is no error: when the
    analysis step went through and the roadmap request is answered with a
    status outside 200..299, the roadmap container shows the "No roadmap
    found" placeholder, the cached roadmap stays as it was, nothing is
    logged or notified, and the overlay is hidden; the body of the answer
    is never read. *)
Theorem missing_roadmap_is_no_error (server : Server) (w : World) (resp : Response) :
  truthy (currentUser (app w)) = true ->
  outcome (load_analysis server) (exec showLoading w) = Ok tt ->
  server
    (requests w
     ++ [GET (API_BASE_URL +:+ "/users/"
              +:+ toStr (get_opt (currentUser (app w)) "id") +:+ "/profile")])
    (GET (API_BASE_URL +:+ "/growth-path/" +:+ toStr (get_opt (currentUser (app w)) "id")))
  = Responded resp ->
  ok resp = false ->
  let w' := exec (loadRoadmap server) w in
  containers (page w') !! "roadmap-content"
  = Some (empty_state "No roadmap found. Please complete onboarding.")
  /\ roadmap (app w') = roadmap (app w)
  /\ toasts (page w') = toasts (page w)
  /\ console (page w') = console (page w)
  /\ loading (page w') = false.
Proof.
  intros Hs Ho Hsrv Hok. cbv zeta. unfold loadRoadmap, loadRoadmap_try.
  rewrite (guarded_load_first_part_returns _ _ _ _ _ _ _ Hs Ho).
  destruct (load_analysis_effect server (exec showLoading w))
    as (Ha & Ht & Hc & _ & _ & _ & Hr).
  specialize (Hr Hs). cbv zeta in *.
  set (w1 := exec (load_analysis server) (exec showLoading w)) in *.
  change (requests (exec showLoading w)) with (requests w) in Hr.
  change (app (exec showLoading w)) with (app w) in Ha, Hr.
  change (toasts (page (exec showLoading w))) with (toasts (page w)) in Ht.
  change (console (page (exec showLoading w))) with (console (page w)) in Hc.
  assert (Hs1 : truthy (currentUser (app w1)) = true) by by rewrite Ha.
  rewrite <- Hr, <- Ha in Hsrv.
  destruct (load_growth_path_refused server w1 resp Hs1 Hsrv Hok)
    as (Ho2 & Ha2 & Hk2 & Ht2 & Hc2 & Hl2).
  cbv zeta in *. rewrite exec_try_catch, Ho2.
  rewrite Ha2, Hk2, Ht2, Hc2, Hl2, Ha, Ht, Hc.
  repeat split. apply lookup_insert_eq.
Qed.

(** The second part of [loadRoadmap], when the growth path is answered with
    the body [null]: reading [enriched_roadmap] throws. *)
Lemma load_growth_path_null (server : Server) (w : World) (resp : Response)
    (d : JsValue) :
  truthy (currentUser (app w)) = true ->
  server (requests w)
    (GET (API_BASE_URL +:+ "/growth-path/" +:+ toStr (get_opt (currentUser (app w)) "id")))
  = Responded resp ->
  ok resp = true ->
  json resp = Ok d ->
  nullish d = true ->
  exists e,
    get d "enriched_roadmap" = Throw e
    /\ load_growth_path server w
       = (Throw e,
          set_requests
            (requests w
             ++ [GET (API_BASE_URL +:+ "/growth-path/"
                      +:+ toStr (get_opt (currentUser (app w)) "id"))]) w).
Proof.
  intros Hs Hsrv Hok Hj Hd. destruct (nullish_get_throws d "enriched_roadmap" Hd) as [e He].
  exists e. split; [exact He|]. unfold load_growth_path.
  rewrite bind_run, (signed_id _ Hs).
  rewrite bind_run. unfold fetch. rewrite Hsrv. cbv beta iota zeta.
  rewrite Hok. change (negb true) with false. cbv beta iota.
  rewrite bind_run. unfold liftR at 1. rewrite Hj. cbv beta iota.
  rewrite bind_run. unfold liftR at 1. by rewrite He.
Qed.

(** X14. The roadmap is cached before it is drawn: when the analysis step
    went through and the roadmap request is answered with a 2xx status and a
    body that can be read and is not null, the cache holds the
    [enriched_roadmap] of that body (undefined when the body has none),
    whether or not it can be drawn; if it can, the container shows it and
    nothing is notified, and if drawing throws, the container keeps what it
    had, the error is logged and notified, and the cache keeps the value that
    could not be drawn.  A body that is null makes the read of
    [enriched_roadmap] throw: the cache and the container keep what they had
    and that error is logged and notified.  The overlay is hidden in every
    case. *)
Theorem roadmap_cached_before_drawn (server : Server) (w : World) (resp : Response)
    (d : JsValue) :
  truthy (currentUser (app w)) = true ->
  outcome (load_analysis server) (exec showLoading w) = Ok tt ->
  server
    (requests w
     ++ [GET (API_BASE_URL +:+ "/users/"
              +:+ toStr (get_opt (currentUser (app w)) "id") +:+ "/profile")])
    (GET (API_BASE_URL +:+ "/growth-path/" +:+ toStr (get_opt (currentUser (app w)) "id")))
  = Responded resp ->
  ok resp = true ->
  json resp = Ok d ->
  let w' := exec (loadRoadmap server) w in
  let failed_with (e : JsError) :=
    containers (page w') !! "roadmap-content" = containers (page w) !! "roadmap-content"
    /\ toasts (page w') = toasts (page w) ++ [toast_node "Error loading roadmap" "error"]
    /\ console (page w') = console (page w) ++ [("Error loading roadmap:", e)] in
  loading (page w') = false
  /\ if nullish d
     then roadmap (app w') = roadmap (app w)
          /\ exists e, get d "enriched_roadmap" = Throw e /\ failed_with e
     else roadmap (app w') = get_opt d "enriched_roadmap"
          /\ match markup Roadmap (get_opt d "enriched_roadmap") with
             | Ok html =>
                 containers (page w') !! "roadmap-content" = Some html
                 /\ toasts (page w') = toasts (page w)
                 /\ console (page w') = console (page w)
             | Throw e => failed_with e
             end.
Proof.
  intros Hs Ho Hsrv Hok Hj. cbv zeta. unfold loadRoadmap, loadRoadmap_try.
  rewrite (guarded_load_first_part_returns _ _ _ _ _ _ _ Hs Ho).
  destruct (load_analysis_effect server (exec showLoading w))
    as (Ha & Ht & Hc & _ & Hk & _ & Hr).
  specialize (Hr Hs). cbv zeta in *.
  set (w1 := exec (load_analysis server) (exec showLoading w)) in *.
  change (requests (exec showLoading w)) with (requests w) in Hr.
  change (app (exec showLoading w)) with (app w) in Ha, Hr.
  change (toasts (page (exec showLoading w))) with (toasts (page w)) in Ht.
  change (console (page (exec showLoading w))) with (console (page w)) in Hc.
  change (containers (page (exec showLoading w))) with (containers (page w)) in Hk.
  assert (Hs1 : truthy (currentUser (app w1)) = true) by by rewrite Ha.
  rewrite <- Hr, <- Ha in Hsrv.
  destruct (nullish d) eqn:Hd.
  - destruct (load_growth_path_null server w1 resp d Hs1 Hsrv Hok Hj Hd)
      as (e & He & Hrun).
    unfold exec, try_catch. rewrite Hrun. simpl.
    rewrite Ht, Hc, Ha. split; [done|]. split; [done|].
    exists e. split; [exact He|]. repeat split. by apply Hk.
  - pose proof (load_growth_path_answered server w1 resp d Hs1 Hsrv Hok Hj Hd) as Hrun.
    cbv zeta in Hrun. unfold exec, try_catch. rewrite Hrun.
    destruct (markup Roadmap (get_opt d "enriched_roadmap")) as [html|e]; simpl.
    + rewrite Ht, Hc. repeat split. apply lookup_insert_eq.
    + rewrite Ht, Hc. repeat split. by apply Hk.
Qed.


Lemma fetch_same_body {B} (server server' : Server) (r : Request)
    (f : Result JsValue -> M B) (w : World) :
  same_body (server (requests w) r) (server' (requests w) r) ->
  (resp ← fetch server r; f (json resp)) w = (resp ← fetch server' r; f (json resp)) w.
Proof.
  intros Hsame. rewrite !bind_run. unfold fetch.
  destruct (server (requests w) r) as [e|resp], (server' (requests w) r) as [e'|resp'];
    simpl in Hsame; try done; by rewrite Hsame.
Qed.

Lemma load_summary_same_body (server server' : Server) (w : World) :
  (forall l r, same_body (server l r) (server' l r)) ->
  load_summary server w = load_summary server' w.
Proof.
  intros Hsame. unfold load_summary. rewrite !bind_run.
  destruct (currentUser_id w) as [[id|e] w1]; [|done].
  apply (fetch_same_body server server' _
           (fun j => summary ← liftR j; displayProgressSummary summary)).
  apply Hsame.
Qed.

Lemma load_tasks_same_body (server server' : Server) (w : World) :
  (forall l r, same_body (server l r) (server' l r)) ->
  load_tasks server w = load_tasks server' w.
Proof.
  intros Hsame. unfold load_tasks. rewrite !bind_run.
  destruct (currentUser_id w) as [[id|e] w1]; [|done].
  apply (fetch_same_body server server' _
           (fun j => tasksData ← liftR j;
                     tasks ← liftR (get tasksData "tasks");
                     on_app (set_progressData tasks);;
                     w ← world;
                     displayTasks (progressData (app w)) JUndefined;;
                     hideLoading)).
  apply Hsame.
Qed.

(** X15. Loading the progress page never looks at the status of an
    answer: two backends whose answers carry the same bodies (and reject the
    same requests) leave the page in the same state, so a 404 or 500 with a
    readable body is drawn like a 200. *)
Theorem progress_ignores_status (server server' : Server) (w : World) :
  (forall l r, same_body (server l r) (server' l r)) ->
  loadProgress server w = loadProgress server' w.
Proof.
  intros Hsame. unfold loadProgress. rewrite !bind_run. simpl.
  destruct (negb (truthy (currentUser (app w)))); [done|].
  rewrite !bind_run. simpl. unfold try_catch, loadProgress_try.
  rewrite !bind_run. rewrite (load_summary_same_body server server' _ Hsame).
  destruct (load_summary server' _) as [[[]|e] w1]; [|done].
  by rewrite (load_tasks_same_body server server' _ Hsame).
Qed.

(** The second part of [loadProgress], when the tasks request is answered
    with a readable body. *)
Lemma load_tasks_answered (server : Server) (w : World) (resp : Response) (d : JsValue) :
  truthy (currentUser (app w)) = true ->
  server (requests w)
    (GET (API_BASE_URL +:+ "/progress/"
          +:+ toStr (get_opt (currentUser (app w)) "id") +:+ "/tasks"))
  = Responded resp ->
  json resp = Ok d ->
  nullish d = false ->
  load_tasks server w
  = let w1 := set_app (set_progressData (get_opt d "tasks") (app w))
                (set_requests
                   (requests w
                    ++ [GET (API_BASE_URL +:+ "/progress/"
                             +:+ toStr (get_opt (currentUser (app w)) "id")
                             +:+ "/tasks")]) w) in
    match markup (Tasks JUndefined) (get_opt d "tasks") with
    | Ok html =>
        (Ok tt, set_page (set_loading false (page (written "progress-tasks" html w1)))
                  (written "progress-tasks" html w1))
    | Throw e => (Throw e, w1)
    end.
Proof.
  intros Hs Hsrv Hj Hd. unfold load_tasks.
  rewrite bind_run, (signed_id _ Hs).
  rewrite bind_run. unfold fetch. rewrite Hsrv. cbv beta iota zeta.
  rewrite bind_run. unfold liftR at 1. rewrite Hj. cbv beta iota.
  rewrite bind_run. unfold liftR at 1. rewrite (get_not_nullish _ _ Hd). cbv beta iota.
  rewrite bind_run. unfold on_app at 1, modify at 1. cbv beta iota.
  rewrite bind_run. unfold world at 1. cbv beta iota.
  rewrite bind_run.
  change (displayTasks ?v JUndefined) with (display (Tasks JUndefined) v).
  rewrite display_run. simpl progressData.
  by destruct (markup (Tasks JUndefined) (get_opt d "tasks")).
Qed.

(** The second part of [loadProgress], when the tasks request is answered
    with the body [null]: reading [tasks] throws. *)
Lemma load_tasks_null (server : Server) (w : World) (resp : Response) (d : JsValue) :
  truthy (currentUser (app w)) = true ->
  server (requests w)
    (GET (API_BASE_URL +:+ "/progress/"
          +:+ toStr (get_opt (currentUser (app w)) "id") +:+ "/tasks"))
  = Responded resp ->
  json resp = Ok d ->
  nullish d = true ->
  exists e,
    get d "tasks" = Throw e
    /\ load_tasks server w
       = (Throw e,
          set_requests
            (requests w
             ++ [GET (API_BASE_URL +:+ "/progress/"
                      +:+ toStr (get_opt (currentUser (app w)) "id") +:+ "/tasks")]) w).
Proof.
  intros Hs Hsrv Hj Hd. destruct (nullish_get_throws d "tasks" Hd) as [e He].
  exists e. split; [exact He|]. unfold load_tasks.
  rewrite bind_run, (signed_id _ Hs).
  rewrite bind_run. unfold fetch. rewrite Hsrv. cbv beta iota zeta.
  rewrite bind_run. unfold liftR at 1. rewrite Hj. cbv beta iota.
  rewrite bind_run. unfold liftR at 1. by rewrite He.
Qed.

(** X16. The task list is cached before it is drawn, whatever the status
    of the answer: when the summary step went through and the tasks request
    is answered with a readable body that is not null, the cache holds the
    [tasks] of that body; if they can be drawn the container shows them
    under the filter "all", and if not (as when the body has no [tasks]) the
    container keeps what it had, the error is logged and notified, and a
    cache left without a truthy value makes later filter clicks draw
    nothing.  A body that is null makes the read of [tasks] throw: the cache
    and the container keep what they had and that error is logged and
    notified.  The overlay is hidden in every case. *)
Theorem tasks_cached_before_drawn (server : Server) (w : World) (resp : Response)
    (d : JsValue) :
  truthy (currentUser (app w)) = true ->
  outcome (load_summary server) (exec showLoading w) = Ok tt ->
  server
    (requests w
     ++ [GET (API_BASE_URL +:+ "/progress/"
              +:+ toStr (get_opt (currentUser (app w)) "id") +:+ "/summary")])
    (GET (API_BASE_URL +:+ "/progress/"
          +:+ toStr (get_opt (currentUser (app w)) "id") +:+ "/tasks"))
  = Responded resp ->
  json resp = Ok d ->
  let w' := exec (loadProgress server) w in
  let failed_with (e : JsError) :=
    containers (page w') !! "progress-tasks" = containers (page w) !! "progress-tasks"
    /\ toasts (page w') = toasts (page w) ++ [toast_node "Error loading progress" "error"]
    /\ console (page w') = console (page w) ++ [("Error loading progress:", e)] in
  loading (page w') = false
  /\ if nullish d
     then progressData (app w') = progressData (app w)
          /\ exists e, get d "tasks" = Throw e /\ failed_with e
     else progressData (app w') = get_opt d "tasks"
          /\ match markup (Tasks (JStr "all")) (get_opt d "tasks") with
             | Ok html =>
                 containers (page w') !! "progress-tasks" = Some html
                 /\ toasts (page w') = toasts (page w)
                 /\ console (page w') = console (page w)
             | Throw e => failed_with e
             end
          /\ (truthy (get_opt d "tasks") = false ->
              forall v,
                containers (page (exec (filterBtn_click v) w')) = containers (page w')).
Proof.
  intros Hs Ho Hsrv Hj. cbv zeta. unfold loadProgress, loadProgress_try.
  rewrite (guarded_load_first_part_returns _ _ _ _ _ _ _ Hs Ho).
  destruct (load_summary_effect server (exec showLoading w))
    as (Ha & Ht & Hc & _ & Hk & _ & Hr).
  specialize (Hr Hs). cbv zeta in *.
  set (w1 := exec (load_summary server) (exec showLoading w)) in *.
  change (requests (exec showLoading w)) with (requests w) in Hr.
  change (app (exec showLoading w)) with (app w) in Ha, Hr.
  change (toasts (page (exec showLoading w))) with (toasts (page w)) in Ht.
  change (console (page (exec showLoading w))) with (console (page w)) in Hc.
  change (containers (page (exec showLoading w))) with (containers (page w)) in Hk.
  assert (Hs1 : truthy (currentUser (app w1)) = true) by by rewrite Ha.
  rewrite <- Hr, <- Ha in Hsrv.
  destruct (nullish d) eqn:Hd.
  { destruct (load_tasks_null server w1 resp d Hs1 Hsrv Hj Hd) as (e & He & Hrun).
    unfold exec, try_catch. rewrite Hrun. simpl.
    rewrite Ht, Hc, Ha. split; [done|]. split; [done|].
    exists e. split; [exact He|]. repeat split. by apply Hk. }
  pose proof (load_tasks_answered server w1 resp d Hs1 Hsrv Hj Hd) as Hrun.
  cbv zeta in Hrun.
  match goal with |- context [exec (try_catch ?b ?h) w1] =>
    set (w' := exec (try_catch b h) w1) end.
  assert (Hmain :
    progressData (app w') = get_opt d "tasks"
    /\ loading (page w') = false
    /\ match markup (Tasks (JStr "all")) (get_opt d "tasks") with
       | Ok html =>
           containers (page w') !! "progress-tasks" = Some html
           /\ toasts (page w') = toasts (page w)
           /\ console (page w') = console (page w)
       | Throw e =>
           containers (page w') !! "progress-tasks"
           = containers (page w) !! "progress-tasks"
           /\ toasts (page w')
              = toasts (page w) ++ [toast_node "Error loading progress" "error"]
           /\ console (page w') = console (page w) ++ [("Error loading progress:", e)]
       end).
  { unfold w', exec, try_catch. rewrite Hrun.
    change (markup (Tasks JUndefined) (get_opt d "tasks"))
      with (markup (Tasks (JStr "all")) (get_opt d "tasks")).
    destruct (markup (Tasks (JStr "all")) (get_opt d "tasks")) as [html|e]; simpl.
    - rewrite Ht, Hc. repeat split. apply lookup_insert_eq.
    - rewrite Ht, Hc. repeat split. by apply Hk. }
  destruct Hmain as (H1 & H2 & H3).
  split; [exact H2|]. split; [exact H1|]. split; [exact H3|].
  intros Hf v. unfold exec at 1. rewrite filterBtn_click_run. cbv zeta.
  by rewrite H1, Hf.
Qed.


(** The second part of [loadProgress]: one request, nothing notified. *)
Lemma load_tasks_effect (server : Server) (w : World) :
  let w' := exec (load_tasks server) w in
  toasts (page w') = toasts (page w)
  /\ console (page w') = console (page w)
  /\ (truthy (currentUser (app w)) = true ->
      requests w'
      = requests w
        ++ [GET (API_BASE_URL +:+ "/progress/"
                 +:+ toStr (get_opt (currentUser (app w)) "id") +:+ "/tasks")]).
Proof.
  unfold exec.
  destruct (load_tasks server w) as [res w'] eqn:Hrun. simpl snd.
  revert Hrun. unfold load_tasks. rewrite bind_run, currentUser_id_run.
  assert (Hid : truthy (currentUser (app w)) = true ->
                get (currentUser (app w)) "id"
                = Ok (get_opt (currentUser (app w)) "id")).
  { intros Hs. by rewrite (get_not_nullish _ _ (truthy_not_nullish _ Hs)). }
  destruct (get _ "id") as [id|e].
  2:{ intros [= <- <-]. repeat split; try done. intros Hs. by specialize (Hid Hs). }
  assert (Hid' : truthy (currentUser (app w)) = true ->
                 id = get_opt (currentUser (app w)) "id").
  { intros Hs. specialize (Hid Hs). by injection Hid. }
  rewrite bind_run. unfold fetch.
  destruct (server _ _) as [e|r].
  { intros [= <- <-]. repeat split; try done. intros Hs. simpl. by rewrite (Hid' Hs). }
  rewrite bind_run. unfold liftR at 1.
  destruct (json r) as [d|e].
  2:{ intros [= <- <-]. repeat split; try done. intros Hs. simpl. by rewrite (Hid' Hs). }
  rewrite bind_run. unfold liftR at 1.
  destruct (get d "tasks") as [tasks|e].
  2:{ intros [= <- <-]. repeat split; try done. intros Hs. simpl. by rewrite (Hid' Hs). }
  rewrite bind_run. unfold on_app at 1, modify at 1. cbv beta iota.
  rewrite bind_run. unfold world at 1. cbv beta iota.
  rewrite bind_run.
  change (displayTasks ?v JUndefined) with (display (Tasks JUndefined) v).
  rewrite display_run.
  destruct (markup _ _).
  2:{ intros [= <- <-]. repeat split; try done. intros Hs. simpl. by rewrite (Hid' Hs). }
  intros [= <- <-]. repeat split; try done. intros Hs. simpl. by rewrite (Hid' Hs).
Qed.

(** What a reload of the progress page asks and notifies. *)
Lemma loadProgress_reload (server : Server) (w : World) :
  truthy (currentUser (app w)) = true ->
  let w' := exec (loadProgress server) w in
  exists (later : list Toast) (rest : list Request),
    toasts (page w') = toasts (page w) ++ later
    /\ (later = [] \/ later = [toast_node "Error loading progress" "error"])
    /\ requests w'
       = requests w
         ++ GET (API_BASE_URL +:+ "/progress/"
                 +:+ toStr (get_opt (currentUser (app w)) "id") +:+ "/summary") :: rest
    /\ (rest = []
        \/ rest = [GET (API_BASE_URL +:+ "/progress/"
                        +:+ toStr (get_opt (currentUser (app w)) "id") +:+ "/tasks")]).
Proof.
  intros Hs. cbv zeta. unfold loadProgress, loadProgress_try.
  destruct (load_summary_effect server (exec showLoading w))
    as (Ha & Ht & _ & _ & _ & _ & Hr).
  specialize (Hr Hs). cbv zeta in *.
  change (requests (exec showLoading w)) with (requests w) in Hr.
  change (app (exec showLoading w)) with (app w) in Ha, Hr.
  change (toasts (page (exec showLoading w))) with (toasts (page w)) in Ht.
  destruct (outcome (load_summary server) (exec showLoading w)) as [[]|e] eqn:Ho.
  - rewrite (guarded_load_first_part_returns _ _ _ _ _ _ _ Hs Ho).
    set (w1 := exec (load_summary server) (exec showLoading w)) in *.
    assert (Hs1 : truthy (currentUser (app w1)) = true) by by rewrite Ha.
    destruct (load_tasks_effect server w1) as (Ht2 & _ & Hr2).
    specialize (Hr2 Hs1). cbv zeta in *. rewrite exec_try_catch.
    destruct (outcome (load_tasks server) w1) as [[]|e].
    + exists [], [GET (API_BASE_URL +:+ "/progress/"
                      +:+ toStr (get_opt (currentUser (app w)) "id") +:+ "/tasks")].
      rewrite Ht2, Ht, Hr2, Hr, Ha, app_nil_r, <- app_assoc. simpl. by auto.
    + destruct (catch_effect "Error loading progress:" "Error loading progress" e
                  (exec (load_tasks server) w1)) as (_ & _ & Hr3 & _ & Ht3 & _).
      cbv zeta in *.
      exists [toast_node "Error loading progress" "error"],
             [GET (API_BASE_URL +:+ "/progress/"
                   +:+ toStr (get_opt (currentUser (app w)) "id") +:+ "/tasks")].
      rewrite Ht3, Hr3, Ht2, Ht, Hr2, Hr, Ha, <- app_assoc. simpl. by auto.
  - rewrite (guarded_load_first_part_throws _ _ _ _ _ _ _ e Hs Ho).
    destruct (catch_effect "Error loading progress:" "Error loading progress" e
                (exec (load_summary server) (exec showLoading w)))
      as (_ & _ & Hr3 & _ & Ht3 & _).
    cbv zeta in *.
    exists [toast_node "Error loading progress" "error"], [].
    rewrite Ht3, Hr3, Ht, Hr. by auto.
Qed.

End LoaderFacts.

Lemma roadmap_waits_for_analysis_witness :
  exists e : JsError,
    let w' := exec (loadRoadmap (H := IntegerHost.host) Sample2.backend_bare_analysis)
                Sample2.signed in
    requests w' = [GET (API_BASE_URL +:+ "/users/7/profile")]
    /\ roadmap (app w') = JNull
    /\ console (page w') = [("Error loading roadmap:", e)].
Proof.
  eexists.
  pose proof (roadmap_waits_for_analysis (H := IntegerHost.host)
                Sample2.backend_bare_analysis Sample2.signed _
                ltac:(vm_compute; reflexivity) ltac:(vm_compute; reflexivity))
    as (Hr & Hm & _ & _ & Hc & _).
  split; [exact Hr|]. split; [exact Hm | exact Hc].
Defined.

Lemma missing_roadmap_is_no_error_witness :
  let w' := exec (loadRoadmap (H := IntegerHost.host) Sample2.backend_without_roadmap)
              Sample2.signed in
  containers (page w') !! "roadmap-content"
  = Some (empty_state "No roadmap found. Please complete onboarding.")
  /\ toasts (page w') = [].
Proof.
  pose proof (missing_roadmap_is_no_error (H := IntegerHost.host)
                Sample2.backend_without_roadmap Sample2.signed
                {| status := 404; json := Ok (JObj [("error", JStr "No growth path")]) |}
                ltac:(vm_compute; reflexivity) ltac:(vm_compute; reflexivity)
                ltac:(vm_compute; reflexivity) ltac:(vm_compute; reflexivity))
    as (Hk & _ & Ht & _).
  split; [exact Hk | exact Ht].
Defined.

Lemma roadmap_cached_before_drawn_witness :
  let w' := exec (loadRoadmap (H := IntegerHost.host) Sample2.backend_odd_roadmap)
              Sample2.signed in
  roadmap (app w') = JObj [("phases", JNum 3)]
  /\ console (page w')
     = console (page Sample2.signed)
       ++ [("Error loading roadmap:", TypeError "roadmap.phases.map is not a function")].
Proof.
  pose proof (roadmap_cached_before_drawn (H := IntegerHost.host)
                Sample2.backend_odd_roadmap Sample2.signed
                {| status := 200;
                   json := Ok (JObj [("enriched_roadmap", JObj [("phases", JNum 3)])]) |}
                (JObj [("enriched_roadmap", JObj [("phases", JNum 3)])])
                ltac:(vm_compute; reflexivity) ltac:(vm_compute; reflexivity)
                ltac:(vm_compute; reflexivity) ltac:(vm_compute; reflexivity)
                ltac:(vm_compute; reflexivity))
    as (_ & Hr & _ & _ & Hc).
  split; [exact Hr | exact Hc].
Defined.

Lemma progress_ignores_status_witness :
  loadProgress (H := IntegerHost.host) Sample2.backend Sample2.signed
  = loadProgress (H := IntegerHost.host) (Sample2.with_status 500 Sample2.backend)
      Sample2.signed.
Proof.
  apply (progress_ignores_status (H := IntegerHost.host)).
  intros l r. unfold Sample2.with_status. by destruct (Sample2.backend l r).
Defined.

Lemma tasks_cached_before_drawn_witness :
  let w' := exec (loadProgress (H := IntegerHost.host) Sample2.backend_unknown_user)
              Sample2.signed in
  progressData (app w') = JUndefined /\ loading (page w') = false.
Proof.
  pose proof (tasks_cached_before_drawn (H := IntegerHost.host)
                Sample2.backend_unknown_user Sample2.signed
                {| status := 404; json := Ok (JObj [("error", JStr "User not found")]) |}
                (JObj [("error", JStr "User not found")])
                ltac:(vm_compute; reflexivity) ltac:(vm_compute; reflexivity)
                ltac:(vm_compute; reflexivity) ltac:(vm_compute; reflexivity))
    as (Hl & Hp & _).
  split; [exact Hp | exact Hl].
Defined.

(** ** Handlers of the shell *)

Section ShellFacts.
Context `{Host}.

Lemma act_bind_run {A B} (m : Act A) (f : A -> Act B) (s : Shell) :
  (m ≫= f) s
  = match m s with
    | (Ok a, s') => f a s'
    | (Throw e, s') => (Throw e, s')
    end.
Proof. reflexivity. Qed.

Lemma lift_run {A} (m : M A) (s : Shell) :
  lift m s = (outcome m (core s), set_core (exec m (core s)) s).
Proof. reflexivity. Qed.

Lemma run_bind {A B} (m : Act A) (f : A -> Act B) (s : Shell) :
  run (m ≫= f) s
  = match fst (m s) with
    | Ok a => run (f a) (run m s)
    | Throw _ => run m s
    end.
Proof. unfold run. rewrite act_bind_run. by destruct (m s) as [[a|e] s']. Qed.

Lemma fst_bind {A B} (m : Act A) (f : A -> Act B) (s : Shell) :
  fst ((m ≫= f) s)
  = match fst (m s) with
    | Ok a => fst (f a (run m s))
    | Throw e => Throw e
    end.
Proof. unfold run. rewrite act_bind_run. by destruct (m s) as [[a|e] s']. Qed.

Lemma run_try (body : Act unit) (handler : JsError -> Act unit) (s : Shell) :
  run (try_catch_act body handler) s
  = match fst (body s) with
    | Ok _ => run body s
    | Throw e => run (handler e) (run body s)
    end.
Proof. unfold run, try_catch_act. by destruct (body s) as [[[]|e] s']. Qed.

Lemma fst_try (body : Act unit) (handler : JsError -> Act unit) (s : Shell) :
  fst (try_catch_act body handler s)
  = match fst (body s) with
    | Ok _ => Ok tt
    | Throw e => fst (handler e (run body s))
    end.
Proof. unfold run, try_catch_act. by destruct (body s) as [[[]|e] s']. Qed.

Lemma act_bind_keeps (R : Shell -> Shell -> Prop) {A B} (m : Act A) (f : A -> Act B) :
  (forall s1 s2 s3, R s1 s2 -> R s2 s3 -> R s1 s3) ->
  (forall s, R s (run m s)) ->
  (forall a s, R s (run (f a) s)) ->
  forall s, R s (run (m ≫= f) s).
Proof.
  intros Ht Hm Hf s. rewrite run_bind. destruct (fst (m s)); [|apply Hm].
  eapply Ht; [apply Hm | apply Hf].
Qed.

Lemma act_try_keeps (R : Shell -> Shell -> Prop) (body : Act unit)
    (handler : JsError -> Act unit) :
  (forall s1 s2 s3, R s1 s2 -> R s2 s3 -> R s1 s3) ->
  (forall s, R s (run body s)) ->
  (forall e s, R s (run (handler e) s)) ->
  forall s, R s (run (try_catch_act body handler) s).
Proof.
  intros Ht Hm Hf s. rewrite run_try. destruct (fst (body s)); [apply Hm|].
  eapply Ht; [apply Hm | apply Hf].
Qed.

Lemma steady_refl (s : Shell) : steady s s.
Proof. repeat split. Qed.

Lemma steady_trans (s1 s2 s3 : Shell) : steady s1 s2 -> steady s2 s3 -> steady s1 s3.
Proof.
  intros (Ha & Hb & Hc & Hd) (Ha' & Hb' & Hc' & Hd').
  split; [by rewrite Ha'|]. split; [by rewrite Hb'|]. split; [by rewrite Hc'|].
  by eapply frame_trans.
Qed.

Lemma gentle_refl (s : Shell) : gentle s s.
Proof. split; [apply steady_refl | by intros ?]. Qed.

Lemma gentle_trans (s1 s2 s3 : Shell) : gentle s1 s2 -> gentle s2 s3 -> gentle s1 s3.
Proof.
  intros [Ha Hb] [Ha' Hb']. split; [by eapply steady_trans|].
  intros Hl. by apply Hb', Hb.
Qed.

Lemma gentle_bind {A B} (m : Act A) (f : A -> Act B) :
  (forall s, gentle s (run m s)) ->
  (forall a s, gentle s (run (f a) s)) ->
  forall s, gentle s (run (m ≫= f) s).
Proof. apply act_bind_keeps, gentle_trans. Qed.

Lemma gentle_lift {A} (m : M A) :
  (forall w, frame w (exec m w) /\ calm w (exec m w)) ->
  forall s, gentle s (run (lift m) s).
Proof.
  intros Hm s. destruct (Hm (core s)) as [Hf Hc].
  split; [|exact Hc]. split; [done|]. split; [done|]. split; [done|]. exact Hf.
Qed.

Lemma gentle_update (f : Shell -> Shell) :
  (forall s, navLinks (f s) = navLinks s /\ tabBtns (f s) = tabBtns s
             /\ panes (f s) = panes s /\ core (f s) = core s) ->
  forall s, gentle s (run (update f) s).
Proof.
  intros Hf s. destruct (Hf s) as (Ha & Hb & Hc & Hd). unfold run, update. simpl.
  split; [split; [exact Ha | split; [exact Hb | split; [exact Hc|]]]|].
  - rewrite Hd. apply frame_refl.
  - rewrite Hd. by intros ?.
Qed.

Lemma gentle_quiet {A} (m : Act A) :
  (forall s, run m s = s) -> forall s, gentle s (run m s).
Proof. intros Hm s. rewrite Hm. apply gentle_refl. Qed.

Ltac still := intros w; split; [by repeat split | by intros ?].

Lemma gentle_currentUser_id (s : Shell) : gentle s (run (lift currentUser_id) s).
Proof. apply gentle_lift. still. Qed.

Lemma gentle_fetch (server : Server) (r : Request) (s : Shell) :
  gentle s (run (lift (fetch server r)) s).
Proof.
  apply gentle_lift. intros w. unfold exec, fetch, calm.
  by destruct (server (requests w) r); repeat split.
Qed.

Lemma gentle_liftR {A} (r : Result A) (s : Shell) : gentle s (run (lift (liftR r)) s).
Proof. apply gentle_lift. still. Qed.

Lemma gentle_hideLoading (s : Shell) : gentle s (run (lift hideLoading) s).
Proof. apply gentle_lift. still. Qed.

Lemma gentle_showToast (msg ty : string) (s : Shell) :
  gentle s (run (lift (showToast msg ty)) s).
Proof. apply gentle_lift. still. Qed.

Lemma gentle_display (d : DisplayFn) (v : JsValue) (s : Shell) :
  gentle s (run (lift (display d v)) s).
Proof.
  apply gentle_lift. intros w. unfold exec, calm. rewrite display_run.
  by destruct (markup d v); repeat split.
Qed.

Lemma gentle_set_value (id : string) (v : JsValue) (s : Shell) :
  gentle s (run (set_value_if_present id v) s).
Proof.
  apply gentle_update. intros s'. by destruct (editor s' !! id).
Qed.

Lemma gentle_editor_value (id : string) (s : Shell) : gentle s (run (editor_value id) s).
Proof.
  apply gentle_quiet. intros s'. unfold run, editor_value. rewrite act_bind_run. simpl.
  by destruct (editor s' !! id).
Qed.

Lemma gentle_catch (label msg : string) (e : JsError) (s : Shell) :
  gentle s (run (lift (console_error label e;; showToast msg "error";; hideLoading)) s).
Proof. apply gentle_lift. still. Qed.

(** A guarded load keeps the frame and keeps a hidden overlay hidden. *)
Lemma gentle_load (load : M unit) :
  reads_only 2 load ->
  (forall w, if truthy (currentUser (app w)) then loading (page (exec load w)) = false
             else loading (page (exec load w)) = loading (page w)) ->
  forall s, gentle s (run (lift load) s).
Proof.
  intros Hr Hl. apply gentle_lift. intros w. split; [apply Hr|].
  intros Hw. specialize (Hl w). destruct (truthy _); [exact Hl | by rewrite Hl].
Qed.

Lemma gentle_loadRoadmap (server : Server) (s : Shell) :
  gentle s (run (lift (loadRoadmap server)) s).
Proof.
  apply gentle_load; [apply loadRoadmap_reads_only|]. intros w.
  pose proof (guarded_load_settles "roadmap-content"
                (empty_state "Please complete onboarding first")
                "Error loading roadmap:" "Error loading roadmap"
                (load_analysis server) _ w (load_growth_path_releases server))
    as [_ Hs].
  destruct (truthy (currentUser (app w))); [exact Hs|].
  unfold loadRoadmap, loadRoadmap_try. by rewrite Hs.
Qed.

Lemma gentle_loadProgress (server : Server) (s : Shell) :
  gentle s (run (lift (loadProgress server)) s).
Proof.
  apply gentle_load; [apply loadProgress_reads_only|]. intros w.
  pose proof (guarded_load_settles "progress-tasks"
                (empty_state "Please complete onboarding first")
                "Error loading progress:" "Error loading progress"
                (load_summary server) _ w (load_tasks_releases server))
    as [_ Hs].
  destruct (truthy (currentUser (app w))); [exact Hs|].
  unfold loadProgress, loadProgress_try. by rewrite Hs.
Qed.


Lemma gentle_mret {A} (a : A) (s : Shell) : gentle s (run (mret a : Act A) s).
Proof. apply gentle_refl. Qed.

Lemma gentle_raise {A} (e : JsError) (s : Shell) : gentle s (run (raise e : Act A) s).
Proof. apply gentle_refl. Qed.

Lemma gentle_shell (s : Shell) : gentle s (run shell s).
Proof. apply gentle_refl. Qed.

Lemma gentle_try (body : Act unit) (handler : JsError -> Act unit) :
  (forall s, gentle s (run body s)) ->
  (forall e s, gentle s (run (handler e) s)) ->
  forall s, gentle s (run (try_catch_act body handler) s).
Proof. apply act_try_keeps, gentle_trans. Qed.

Lemma gentle_setTimeout_toast (message : JsValue) (type : string) (ms : Z) (s : Shell) :
  gentle s (run (setTimeout_toast message type ms) s).
Proof. by apply gentle_update. Qed.

Ltac gentle_steps_with leaf :=
  repeat (first
    [ leaf | apply gentle_currentUser_id | apply gentle_fetch | apply gentle_liftR
    | apply gentle_hideLoading | apply gentle_showToast | apply gentle_set_value
    | apply gentle_editor_value | apply gentle_catch | apply gentle_mret
    | apply gentle_raise | apply gentle_shell | apply gentle_setTimeout_toast
    | apply gentle_loadProgress | apply gentle_loadRoadmap
    | apply (gentle_display Resume) | apply (gentle_display LinkedIn)
    | apply gentle_bind; [|intros ?]
    | match goal with |- context [if ?b then _ else _] => destruct b end ]).

Ltac gentle_steps := gentle_steps_with ltac:(fail).

Lemma settles_bind {A B} (m : Act A) (f : A -> Act B) :
  (forall a, settles (f a)) -> settles (m ≫= f).
Proof.
  intros Hf s. rewrite fst_bind, run_bind.
  destruct (fst (m s)); [apply Hf | done].
Qed.

Lemma settles_after {A B} (m : Act A) (f : A -> Act B) :
  settles m -> (forall a s, gentle s (run (f a) s)) -> settles (m ≫= f).
Proof.
  intros Hm Hf s. rewrite fst_bind, run_bind.
  destruct (fst (m s)) as [a|e] eqn:Hms; [|done].
  intros _. apply (Hf a (run m s)). apply Hm. by rewrite Hms.
Qed.

Lemma settles_hideLoading : settles (lift hideLoading).
Proof. by intros s _. Qed.

Lemma settles_raise {A} (e : JsError) : settles (raise e : Act A).
Proof. by intros s Hs. Qed.

(** A handler guarded by the session check and a [try] block whose catch
    block notifies and hides the overlay. *)
Lemma guarded_handler (body : Act unit) (label msg : string) (s : Shell) :
  (forall s, gentle s (run body s)) ->
  settles body ->
  let h :=
    (s ← shell;
     if negb (signed_in s) then mret tt
     else
       lift showLoading;;
       try_catch_act body
         (fun error =>
            lift (console_error label error;; showToast msg "error";; hideLoading)))
  in
  fst (h s) = Ok tt
  /\ steady s (run h s)
  /\ if signed_in s then loading (page (core (run h s))) = false else run h s = s.
Proof.
  intros Hg Hst h. unfold h. rewrite fst_bind, run_bind.
  change (fst (shell s)) with (Ok s : Result Shell). cbv beta iota.
  change (run shell s) with s.
  destruct (signed_in s);
    [change (negb true) with false | change (negb false) with true]; cbv beta iota.
  2:{ split; [done|]. split; [apply steady_refl | done]. }
  rewrite fst_bind, run_bind.
  change (fst (lift showLoading s)) with (Ok tt : Result unit). cbv beta iota.
  set (s1 := run (lift showLoading) s).
  assert (H1 : steady s s1) by by repeat split.
  rewrite fst_try, run_try.
  destruct (Hg s1) as [Hb _]. specialize (Hst s1).
  destruct (fst (body s1)) as [[]|e].
  - split; [done|]. split; [by eapply steady_trans | by apply Hst].
  - split; [done|]. split; [|done].
    eapply steady_trans; [exact H1|]. eapply steady_trans; [exact Hb|].
    apply gentle_catch.
Qed.

Lemma loadProfile_try_gentle (server : Server) (s : Shell) :
  gentle s (run (loadProfile_try server) s).
Proof. revert s. unfold loadProfile_try. gentle_steps. Qed.

Lemma loadProfile_try_settles (server : Server) : settles (loadProfile_try server).
Proof.
  unfold loadProfile_try.
  repeat (apply settles_bind; intros ?). apply settles_hideLoading.
Qed.

Lemma loadProfile_contained (server : Server) (s : Shell) :
  fst (loadProfile server s) = Ok tt
  /\ steady s (run (loadProfile server) s)
  /\ if signed_in s then loading (page (core (run (loadProfile server) s))) = false
     else run (loadProfile server) s = s.
Proof.
  apply (guarded_handler (loadProfile_try server) "Error loading profile:"
           "Error loading profile" s);
    [apply loadProfile_try_gentle | apply loadProfile_try_settles].
Qed.

Lemma guarded_gentle (h : Act unit) (s : Shell) :
  steady s (run h s)
  /\ (if signed_in s then loading (page (core (run h s))) = false else run h s = s) ->
  gentle s (run h s).
Proof.
  intros [Hs Hl]. split; [exact Hs|]. intros Hc.
  destruct (signed_in s); [exact Hl | by rewrite Hl].
Qed.

Lemma gentle_loadProfile (server : Server) (s : Shell) :
  gentle s (run (loadProfile server) s).
Proof. apply guarded_gentle, loadProfile_contained. Qed.


Ltac gentle_steps_profile := gentle_steps_with ltac:(apply gentle_loadProfile).

Lemma updateTaskStatus_contained (server : Server) (itemId status : string) (s : Shell) :
  let h := updateTaskStatus server itemId status in
  fst (h s) = Ok tt
  /\ steady s (run h s)
  /\ if signed_in s then loading (page (core (run h s))) = false else run h s = s.
Proof.
  apply guarded_handler.
  - gentle_steps.
  - apply settles_bind; intros id. apply settles_bind; intros response.
    destruct (negb (ok response)); [apply settles_raise|].
    apply settles_bind; intros data.
    apply settles_after; [apply settles_hideLoading | intros _].
    gentle_steps.
Qed.

Lemma refreshProfile_click_contained (server : Server) (s : Shell) :
  let h := refreshProfile_click server in
  fst (h s) = Ok tt
  /\ steady s (run h s)
  /\ if signed_in s then loading (page (core (run h s))) = false else run h s = s.
Proof.
  apply guarded_handler.
  - gentle_steps_profile.
  - apply settles_bind; intros id. apply settles_bind; intros response.
    destruct (negb (ok response)); [apply settles_raise|].
    apply settles_after; [apply settles_hideLoading | intros _].
    gentle_steps_profile.
Qed.

Lemma refreshRoadmap_click_contained (server : Server) (confirmed : bool) (s : Shell) :
  let h := refreshRoadmap_click server confirmed in
  fst (h s) = Ok tt
  /\ steady s (run h s)
  /\ if signed_in s
     then if confirmed then loading (page (core (run h s))) = false else run h s = s
     else run h s = s.
Proof.
  destruct confirmed.
  - apply (guarded_handler _ "Error regenerating roadmap:" "Error regenerating roadmap" s).
    + gentle_steps.
    + apply settles_bind; intros id. apply settles_bind; intros response.
      destruct (negb (ok response)); [apply settles_raise|].
      apply settles_after; [apply settles_hideLoading | intros _].
      gentle_steps.
  - cbv zeta. unfold refreshRoadmap_click, run. rewrite act_bind_run. simpl.
    destruct (signed_in s); simpl; (split; [done|]); (split; [apply steady_refl | done]).
Qed.

Lemma resumeForm_submit_contained (server : Server) (s : Shell) :
  let h := resumeForm_submit server in
  fst (h s) = Ok tt
  /\ steady s (run h s)
  /\ if signed_in s then loading (page (core (run h s))) = false else run h s = s.
Proof.
  cbv zeta. unfold resumeForm_submit. rewrite fst_bind, run_bind.
  change (fst (shell s)) with (Ok s : Result Shell). cbv beta iota.
  change (run shell s) with s.
  destruct (signed_in s);
    [change (negb true) with false | change (negb false) with true]; cbv beta iota.
  2:{ split; [done|]. split; [apply steady_refl | done]. }
  rewrite fst_bind, run_bind.
  change (fst (lift showLoading s)) with (Ok tt : Result unit). cbv beta iota.
  set (s1 := run (lift showLoading) s).
  assert (H1 : steady s s1) by by repeat split.
  rewrite fst_bind, run_bind, fst_try, run_try.
  match goal with |- context [fst (?b s1)] => set (body := b) end.
  assert (Hb : forall s, gentle s (run body s)).
  { unfold body. gentle_steps_profile. }
  destruct (Hb s1) as [Hb1 _].
  destruct (fst (body s1)) as [[]|e]; cbv beta iota.
  - split; [done|]. split; [|done].
    eapply steady_trans; [exact H1|]. eapply steady_trans; [exact Hb1|].
    apply gentle_hideLoading.
  - change (fst (lift (console_error EmptyString e;;
                       showToast "Failed to save details" "error") (run body s1)))
      with (Ok tt : Result unit). cbv beta iota.
    split; [done|]. split; [|done].
    eapply steady_trans; [exact H1|]. eapply steady_trans; [exact Hb1|].
    eapply steady_trans; [|apply gentle_hideLoading].
    apply gentle_lift. still.
Qed.

Lemma downloadResume_click_contained (server : Server) (s : Shell) :
  let h := downloadResume_click server in
  fst (h s) = Ok tt
  /\ gentle s (run h s)
  /\ (signed_in s = false -> run h s = s).
Proof.
  cbv zeta. unfold downloadResume_click. rewrite fst_bind, run_bind.
  change (fst (shell s)) with (Ok s : Result Shell). cbv beta iota.
  change (run shell s) with s.
  destruct (signed_in s);
    [change (negb true) with false | change (negb false) with true]; cbv beta iota.
  2:{ split; [done|]. split; [apply gentle_refl | done]. }
  rewrite fst_try, run_try.
  match goal with |- context [fst (?b s)] => set (body := b) end.
  assert (Hb : forall s, gentle s (run body s)).
  { unfold body. gentle_steps. }
  destruct (fst (body s)) as [[]|e]; cbv beta iota.
  - split; [done|]. split; [apply Hb | done].
  - split; [done|]. split; [|done].
    eapply gentle_trans; [apply Hb|]. apply gentle_lift. still.
Qed.

Lemma loadPageData_contained (server : Server) (page : string) (s : Shell) :
  let h := loadPageData server page in
  fst (h s) = Ok tt
  /\ gentle s (run h s)
  /\ (signed_in s = false -> run h s = s).
Proof.
  cbv zeta. unfold loadPageData. rewrite fst_bind, run_bind.
  change (fst (shell s)) with (Ok s : Result Shell). cbv beta iota.
  change (run shell s) with s.
  destruct (signed_in s);
    [change (negb true) with false | change (negb false) with true]; cbv beta iota.
  2:{ split; [done|]. split; [apply gentle_refl | done]. }
  destruct (String.eqb page "roadmap").
  { split; [|split; [apply gentle_loadRoadmap | done]].
    rewrite lift_run. simpl fst.
    apply (guarded_load_settles _ _ _ _ _ _ (core s) (load_growth_path_releases server)). }
  destruct (String.eqb page "progress").
  { split; [|split; [apply gentle_loadProgress | done]].
    rewrite lift_run. simpl fst.
    apply (guarded_load_settles _ _ _ _ _ _ (core s) (load_tasks_releases server)). }
  destruct (String.eqb page "profile").
  { split; [apply loadProfile_contained|]. split; [apply gentle_loadProfile | done]. }
  split; [done|]. split; [apply gentle_refl | done].
Qed.

(** X17. Every handler guarded by a session check and a [try] block is
    contained: it never throws, whatever the backend answers; it leaves the
    navigation, the tabs, the pages, the form, the session identity and the
    current page as they were; it keeps a hidden overlay hidden; and without
    a session it does nothing at all.  The handlers that show the overlay
    end with it hidden. *)
Theorem handlers_are_contained (server : Server) (target itemId status : string)
    (confirmed : bool) (s : Shell) :
  Forall (fun h : Act unit =>
            fst (h s) = Ok tt
            /\ gentle s (run h s)
            /\ (signed_in s = false -> run h s = s))
    (guarded_handlers server target itemId status confirmed)
  /\ (signed_in s = true ->
      Forall (fun h : Act unit => loading (page (core (run h s))) = false)
        [ loadProfile server; updateTaskStatus server itemId status;
          resumeForm_submit server; refreshProfile_click server;
          refreshRoadmap_click server true ]).
Proof.
  pose proof (loadProfile_contained server s) as (A1 & A2 & A3).
  pose proof (updateTaskStatus_contained server itemId status s) as (B1 & B2 & B3).
  pose proof (resumeForm_submit_contained server s) as (C1 & C2 & C3).
  pose proof (refreshProfile_click_contained server s) as (D1 & D2 & D3).
  pose proof (refreshRoadmap_click_contained server confirmed s) as (E1 & E2 & E3).
  pose proof (refreshRoadmap_click_contained server true s) as (_ & _ & E4).
  cbv zeta in *.
  assert (Hg : forall h : Act unit,
            steady s (run h s) ->
            (if signed_in s then loading (page (core (run h s))) = false
             else run h s = s) ->
            gentle s (run h s) /\ (signed_in s = false -> run h s = s)).
  { intros h Hs Hl. split; [by apply guarded_gentle|].
    intros Hn. by rewrite Hn in Hl. }
  split.
  - unfold guarded_handlers. repeat apply List.Forall_cons; try apply List.Forall_nil.
    + split; [exact A1 | by apply Hg].
    + apply loadPageData_contained.
    + split; [exact B1 | by apply Hg].
    + split; [exact C1 | by apply Hg].
    + split; [exact D1 | by apply Hg].
    + apply downloadResume_click_contained.
    + split; [exact E1|].
      destruct (signed_in s); [destruct confirmed|].
      * split; [|done]. split; [exact E2 | by intros _].
      * rewrite E3. split; [apply gentle_refl | done].
      * rewrite E3. split; [apply gentle_refl | done].
  - intros Hs. rewrite Hs in *.
    repeat apply List.Forall_cons; try apply List.Forall_nil; assumption.
Qed.


Lemma lift_bind {A B} (m : M A) (f : A -> Act B) (s : Shell) :
  (lift m ≫= f) s
  = match m (core s) with
    | (Ok a, w') => f a (set_core w' s)
    | (Throw e, w') => (Throw e, set_core w' s)
    end.
Proof. rewrite act_bind_run. unfold lift. by destruct (m (core s)) as [[a|e] w']. Qed.

Lemma signed_id_of (w : World) (cu : JsValue) :
  currentUser (app w) = cu -> truthy cu = true ->
  currentUser_id w = (Ok (get_opt cu "id"), w).
Proof. intros <- Hs. by apply signed_id. Qed.

Lemma fetch_responded (server : Server) (r : Request) (w : World) (l : list Request)
    (resp : Response) :
  requests w = l -> server l r = Responded resp ->
  fetch server r w = (Ok resp, set_requests (l ++ [r]) w).
Proof. intros <- Hr. unfold fetch. by rewrite Hr. Qed.

Lemma fetch_rejected (server : Server) (r : Request) (w : World) (l : list Request)
    (e : JsError) :
  requests w = l -> server l r = Rejected e ->
  fetch server r w = (Throw e, set_requests (l ++ [r]) w).
Proof. intros <- Hr. unfold fetch. by rewrite Hr. Qed.

Lemma loadProgress_returns (server : Server) (w : World) :
  loadProgress server w = (Ok tt, exec (loadProgress server) w).
Proof.
  pose proof (guarded_load_settles "progress-tasks"
                (empty_state "Please complete onboarding first")
                "Error loading progress:" "Error loading progress"
                (load_summary server) _ w (load_tasks_releases server)) as [Ho _].
  unfold outcome in Ho. unfold exec.
  change (loadProgress server w) with
    ((w ← world;
      if negb (truthy (currentUser (app w)))
      then set_innerHTML "progress-tasks" (empty_state "Please complete onboarding first")
      else
        showLoading;;
        try_catch (load_summary server;; load_tasks server)
          (fun error => console_error "Error loading progress:" error;;
                        showToast "Error loading progress" "error";; hideLoading)) w).
  destruct ((w ← world; _) w) as [r w']. simpl in *. by rewrite Ho.
Qed.

(** X18. Marking a task completed, when the backend accepts the update
    and its answer carries an encouragement message: the "Great job" toast is
    shown at once, a second toast with the message is scheduled 1000 ms
    later and nothing else is scheduled, and the progress page is reloaded:
    after the update request comes the summary request, followed by the
    tasks request unless the summary step fails. *)
Theorem completed_task_cheers (server : Server) (s : Shell) (itemId : string)
    (resp : Response) (d : JsValue) :
  signed_in s = true ->
  server (requests (core s))
    (POST (API_BASE_URL +:+ "/progress/update")
       (JObj [("user_id", get_opt (currentUser (app (core s))) "id");
              ("item_id", JStr itemId); ("status", JStr "completed")]))
  = Responded resp ->
  ok resp = true ->
  json resp = Ok d ->
  nullish d = false ->
  nullish (get_opt d "progress") = false ->
  truthy (get_opt (get_opt d "progress") "encouragement_message") = true ->
  let s' := run (updateTaskStatus server itemId "completed") s in
  deferred s'
  = deferred s
    ++ [(1000%Z, LaterToast (get_opt (get_opt d "progress") "encouragement_message") "info")]
  /\ (exists later,
        toasts (page (core s'))
        = toasts (page (core s))
          ++ toast_node "🎉 Great job! Task completed!" "success" :: later)
  /\ (exists rest,
        requests (core s')
        = requests (core s)
          ++ POST (API_BASE_URL +:+ "/progress/update")
               (JObj [("user_id", get_opt (currentUser (app (core s))) "id");
                      ("item_id", JStr itemId); ("status", JStr "completed")])
             :: GET (API_BASE_URL +:+ "/progress/"
                     +:+ toStr (get_opt (currentUser (app (core s))) "id")
                     +:+ "/summary")
             :: rest
        /\ (rest = []
            \/ rest = [GET (API_BASE_URL +:+ "/progress/"
                            +:+ toStr (get_opt (currentUser (app (core s))) "id")
                            +:+ "/tasks")])).
Proof.
  intros Hs Hsrv Hok Hj Hd Hp Ht. cbv zeta. unfold run.
  destruct (updateTaskStatus server itemId "completed" s) as [res s'] eqn:Hrun.
  simpl snd. revert Hrun. unfold updateTaskStatus.
  rewrite act_bind_run. change (shell s) with (Ok s, s). cbv beta iota.
  rewrite Hs. change (negb true) with false. cbv beta iota.
  unfold signed_in in Hs.
  rewrite lift_bind.
  change (showLoading (core s))
    with (Ok tt, set_page (set_loading true (page (core s))) (core s)).
  cbv beta iota. unfold try_catch_act.
  rewrite lift_bind. cbn [core set_core].
  rewrite (signed_id_of _ (currentUser (app (core s)))); [|reflexivity|exact Hs].
  cbv beta iota.
  rewrite lift_bind. cbn [core set_core].
  rewrite (fetch_responded server _ _ (requests (core s)) resp);
    [|reflexivity|exact Hsrv].
  cbv beta iota. rewrite Hok. change (negb true) with false. cbv beta iota.
  rewrite lift_bind. cbn [core set_core]. unfold liftR at 1. rewrite Hj. cbv beta iota.
  rewrite lift_bind. cbn [core set_core].
  unfold hideLoading at 1, on_page at 1, modify at 1. cbv beta iota.
  change (String.eqb "completed" "completed") with true. cbv beta iota.
  rewrite act_bind_run.
  rewrite lift_bind, showToast_run. cbn [core set_core]. cbv beta iota.
  rewrite lift_bind. unfold liftR at 1. rewrite (get_not_nullish _ _ Hd). cbv beta iota.
  rewrite lift_bind. unfold liftR at 1. rewrite (get_not_nullish _ _ Hp). cbv beta iota.
  rewrite Ht. unfold setTimeout_toast, update. cbv beta iota.
  rewrite lift_run. cbn [core set_core]. unfold outcome. rewrite loadProgress_returns. simpl fst. cbv beta iota.
  intros [= <- <-].
  match goal with |- context [exec (loadProgress server) ?w] => set (wk := w) end.
  destruct (loadProgress_reload server wk Hs) as (later & rest & Hlt & _ & Hrq & Hrest).
  cbv zeta in *. cbn [deferred core set_core set_deferred].
  split; [reflexivity|]. split.
  - exists later. rewrite Hlt. unfold wk. simpl. by rewrite <- app_assoc.
  - exists rest. split; [|exact Hrest]. rewrite Hrq. unfold wk. simpl.
    by rewrite <- app_assoc.
Qed.


Lemma get_nullish (v : JsValue) (k : string) :
  nullish v = true -> is_ok (get v k) = false.
Proof. by destruct v. Qed.

(** What the catch block of a shell handler leaves. *)
Lemma lift_catch_effect (label msg : string) (e : JsError) (s : Shell) :
  let s' := run (lift (console_error label e;; showToast msg "error";; hideLoading)) s in
  fst (lift (console_error label e;; showToast msg "error";; hideLoading) s) = Ok tt
  /\ deferred s' = deferred s /\ downloads s' = downloads s /\ editor s' = editor s
  /\ app (core s') = app (core s) /\ requests (core s') = requests (core s)
  /\ containers (page (core s')) = containers (page (core s))
  /\ toasts (page (core s')) = toasts (page (core s)) ++ [toast_node msg "error"]
  /\ console (page (core s')) = console (page (core s)) ++ [(label, e)]
  /\ loading (page (core s')) = false.
Proof. by repeat split. Qed.

(** X19. A completed update whose answer has no progress record is
    accepted by the backend and still reported as an error: the "Great job"
    toast is followed by "Error updating task", the failure is logged,
    nothing is scheduled, and the progress page is not reloaded. *)
Theorem update_without_record (server : Server) (s : Shell) (itemId : string)
    (resp : Response) (d : JsValue) :
  signed_in s = true ->
  server (requests (core s))
    (POST (API_BASE_URL +:+ "/progress/update")
       (JObj [("user_id", get_opt (currentUser (app (core s))) "id");
              ("item_id", JStr itemId); ("status", JStr "completed")]))
  = Responded resp ->
  ok resp = true ->
  json resp = Ok d ->
  nullish d = false ->
  nullish (get_opt d "progress") = true ->
  let s' := run (updateTaskStatus server itemId "completed") s in
  toasts (page (core s'))
  = toasts (page (core s))
    ++ [toast_node "🎉 Great job! Task completed!" "success";
        toast_node "Error updating task" "error"]
  /\ requests (core s')
     = requests (core s)
       ++ [POST (API_BASE_URL +:+ "/progress/update")
             (JObj [("user_id", get_opt (currentUser (app (core s))) "id");
                    ("item_id", JStr itemId); ("status", JStr "completed")])]
  /\ deferred s' = deferred s
  /\ length (console (page (core s'))) = S (length (console (page (core s))))
  /\ progressData (app (core s')) = progressData (app (core s))
  /\ loading (page (core s')) = false.
Proof.
  intros Hs Hsrv Hok Hj Hd Hp. cbv zeta. unfold run.
  destruct (updateTaskStatus server itemId "completed" s) as [res s'] eqn:Hrun.
  simpl snd. revert Hrun. unfold updateTaskStatus.
  rewrite act_bind_run. change (shell s) with (Ok s, s). cbv beta iota.
  rewrite Hs. change (negb true) with false. cbv beta iota.
  unfold signed_in in Hs.
  rewrite lift_bind.
  change (showLoading (core s))
    with (Ok tt, set_page (set_loading true (page (core s))) (core s)).
  cbv beta iota. unfold try_catch_act.
  rewrite lift_bind. cbn [core set_core].
  rewrite (signed_id_of _ (currentUser (app (core s)))); [|reflexivity|exact Hs].
  cbv beta iota.
  rewrite lift_bind. cbn [core set_core].
  rewrite (fetch_responded server _ _ (requests (core s)) resp);
    [|reflexivity|exact Hsrv].
  cbv beta iota. rewrite Hok. change (negb true) with false. cbv beta iota.
  rewrite lift_bind. cbn [core set_core]. unfold liftR at 1. rewrite Hj. cbv beta iota.
  rewrite lift_bind. cbn [core set_core].
  unfold hideLoading at 1, on_page at 1, modify at 1. cbv beta iota.
  change (String.eqb "completed" "completed") with true. cbv beta iota.
  rewrite act_bind_run.
  rewrite lift_bind, showToast_run. cbn [core set_core]. cbv beta iota.
  rewrite lift_bind. unfold liftR at 1. rewrite (get_not_nullish _ _ Hd). cbv beta iota.
  rewrite lift_bind. unfold liftR at 1.
  pose proof (get_nullish _ "encouragement_message" Hp) as Hg.
  destruct (get (get_opt d "progress") "encouragement_message") as [m|e]; [done|].
  cbv beta iota.
  match goal with |- ?h ?sk = _ -> _ =>
    destruct (lift_catch_effect "Error updating task:" "Error updating task" e sk)
      as (_ & Hdf & _ & _ & Ha & Hr & _ & Ht & Hc & Hl) end.
  cbv zeta in *. unfold run in *.
  intros Hrun. rewrite Hrun in *. simpl snd in *.
  rewrite Ht, Hr, Hdf, Hc, Ha, Hl. simpl. rewrite <- app_assoc, length_app. simpl.
  repeat split. lia.
Qed.

(** X20. An update the backend refuses (the request is rejected, or the
    answer has a status outside 200..299) sends that one request, logs the
    failure and shows "Error updating task" and nothing else: no success
    toast, nothing scheduled, no reload of the progress page; the overlay is
    hidden. *)
Theorem refused_update (server : Server) (s : Shell) (itemId status : string) :
  signed_in s = true ->
  let request :=
    POST (API_BASE_URL +:+ "/progress/update")
      (JObj [("user_id", get_opt (currentUser (app (core s))) "id");
             ("item_id", JStr itemId); ("status", JStr status)]) in
  refused (server (requests (core s)) request) = true ->
  let s' := run (updateTaskStatus server itemId status) s in
  requests (core s') = requests (core s) ++ [request]
  /\ toasts (page (core s'))
     = toasts (page (core s)) ++ [toast_node "Error updating task" "error"]
  /\ console (page (core s'))
     = console (page (core s))
       ++ [("Error updating task:",
            refusal (server (requests (core s)) request) "Failed to update progress")]
  /\ deferred s' = deferred s
  /\ app (core s') = app (core s)
  /\ containers (page (core s')) = containers (page (core s))
  /\ loading (page (core s')) = false.
Proof.
  intros Hs request Href. cbv zeta. unfold run.
  destruct (updateTaskStatus server itemId status s) as [res s'] eqn:Hrun.
  simpl snd. revert Hrun. unfold updateTaskStatus.
  rewrite act_bind_run. change (shell s) with (Ok s, s). cbv beta iota.
  rewrite Hs. change (negb true) with false. cbv beta iota.
  unfold signed_in in Hs.
  rewrite lift_bind.
  change (showLoading (core s))
    with (Ok tt, set_page (set_loading true (page (core s))) (core s)).
  cbv beta iota. unfold try_catch_act.
  rewrite lift_bind. cbn [core set_core].
  rewrite (signed_id_of _ (currentUser (app (core s)))); [|reflexivity|exact Hs].
  cbv beta iota.
  rewrite lift_bind. cbn [core set_core]. fold request.
  destruct (server (requests (core s)) request) as [e|resp] eqn:Hsrv.
  - rewrite (fetch_rejected server _ _ (requests (core s)) e);
      [|reflexivity|exact Hsrv].
    cbv beta iota.
    match goal with |- ?h ?sk = _ -> _ =>
      destruct (lift_catch_effect "Error updating task:" "Error updating task" e sk)
        as (_ & Hdf & _ & _ & Ha & Hr & Hk & Ht & Hc & Hl) end.
    cbv zeta in *. unfold run in *.
    intros Hrun. rewrite Hrun in *. simpl snd in *.
    rewrite Ht, Hr, Hdf, Hc, Ha, Hl, Hk. by repeat split.
  - rewrite (fetch_responded server _ _ (requests (core s)) resp);
      [|reflexivity|exact Hsrv].
    cbv beta iota. simpl in Href. rewrite Href. cbv beta iota.
    unfold raise at 1. cbv beta iota.
    match goal with |- ?h ?sk = _ -> _ =>
      destruct (lift_catch_effect "Error updating task:" "Error updating task"
                  (Error "Failed to update progress") sk)
        as (_ & Hdf & _ & _ & Ha & Hr & Hk & Ht & Hc & Hl) end.
    cbv zeta in *. unfold run in *.
    intros Hrun. rewrite Hrun in *. simpl snd in *.
    rewrite Ht, Hr, Hdf, Hc, Ha, Hl, Hk. by repeat split.
Qed.


Lemma loadRoadmap_returns (server : Server) (w : World) :
  loadRoadmap server w = (Ok tt, exec (loadRoadmap server) w).
Proof.
  pose proof (guarded_load_settles "roadmap-content"
                (empty_state "Please complete onboarding first")
                "Error loading roadmap:" "Error loading roadmap"
                (load_analysis server) _ w (load_growth_path_releases server)) as [Ho _].
  unfold outcome in Ho. unfold exec.
  change (loadRoadmap server w) with
    ((w ← world;
      if negb (truthy (currentUser (app w)))
      then set_innerHTML "roadmap-content" (empty_state "Please complete onboarding first")
      else
        showLoading;;
        try_catch (load_analysis server;; load_growth_path server)
          (fun error => console_error "Error loading roadmap:" error;;
                        showToast "Error loading roadmap" "error";; hideLoading)) w).
  destruct ((w ← world; _) w) as [r w']. simpl in *. by rewrite Ho.
Qed.

(** X21. Regenerating the roadmap: declining the confirmation changes
    nothing; accepting it first sends the generate request for the session's
    user with a timeline of 12 months, whatever horizon the onboarding form
    holds, and what follows is at most the two GETs of a roadmap reload;
    nothing follows when the backend refuses. *)
Theorem regenerate_asks_twelve_months (server : Server) (s : Shell) :
  signed_in s = true ->
  let request :=
    POST (API_BASE_URL +:+ "/growth-path/generate")
      (JObj [("user_id", get_opt (currentUser (app (core s))) "id");
             ("timeline_months", JNum 12)]) in
  run (refreshRoadmap_click server false) s = s
  /\ let s' := run (refreshRoadmap_click server true) s in
     exists rs,
       requests (core s') = requests (core s) ++ request :: rs
       /\ length rs <= 2
       /\ Forall (fun r => method r = "GET") rs
       /\ (refused (server (requests (core s)) request) = true ->
           rs = []
           /\ toasts (page (core s'))
              = toasts (page (core s)) ++ [toast_node "Error regenerating roadmap" "error"]).
Proof.
  intros Hs request. split.
  { unfold run, refreshRoadmap_click. rewrite act_bind_run.
    change (shell s) with (Ok s, s). cbv beta iota. by rewrite Hs. }
  cbv zeta. unfold run.
  destruct (refreshRoadmap_click server true s) as [res s'] eqn:Hrun.
  simpl snd. revert Hrun. unfold refreshRoadmap_click.
  rewrite act_bind_run. change (shell s) with (Ok s, s). cbv beta iota.
  rewrite Hs. change (negb true) with false. cbv beta iota.
  unfold signed_in in Hs.
  rewrite lift_bind.
  change (showLoading (core s))
    with (Ok tt, set_page (set_loading true (page (core s))) (core s)).
  cbv beta iota. unfold try_catch_act.
  rewrite lift_bind. cbn [core set_core].
  rewrite (signed_id_of _ (currentUser (app (core s)))); [|reflexivity|exact Hs].
  cbv beta iota.
  rewrite lift_bind. cbn [core set_core]. fold request.
  destruct (server (requests (core s)) request) as [e|resp] eqn:Hsrv.
  - rewrite (fetch_rejected server _ _ (requests (core s)) e);
      [|reflexivity|exact Hsrv].
    cbv beta iota.
    match goal with |- ?h ?sk = _ -> _ =>
      destruct (lift_catch_effect "Error regenerating roadmap:"
                  "Error regenerating roadmap" e sk)
        as (_ & _ & _ & _ & _ & Hr & _ & Ht & _) end.
    cbv zeta in *. unfold run in *.
    intros Hrun. rewrite Hrun in *. simpl snd in *.
    exists []. rewrite Hr, Ht. simpl. repeat split; [lia | constructor].
  - rewrite (fetch_responded server _ _ (requests (core s)) resp);
      [|reflexivity|exact Hsrv].
    cbv beta iota. simpl refused.
    destruct (ok resp);
      [change (negb true) with false | change (negb false) with true]; cbv beta iota.
    + rewrite lift_bind. cbn [core set_core].
      unfold hideLoading at 1, on_page at 1, modify at 1. cbv beta iota.
      rewrite lift_bind, showToast_run. cbn [core set_core]. cbv beta iota.
      rewrite lift_run. cbn [core set_core]. unfold outcome.
      rewrite loadRoadmap_returns. simpl fst. cbv beta iota.
      intros [= <- <-].
      match goal with |- context [exec (loadRoadmap server) ?w] => set (wk := w) end.
      destruct (loadRoadmap_reads_only server wk) as (_ & rs & Hrq & Hlen & Hget).
      exists rs. cbn [core set_core]. rewrite Hrq. unfold wk. simpl.
      rewrite <- app_assoc. repeat split; done.
    + unfold raise at 1. cbv beta iota.
      match goal with |- ?h ?sk = _ -> _ =>
        destruct (lift_catch_effect "Error regenerating roadmap:"
                    "Error regenerating roadmap" (Error "Failed to regenerate roadmap") sk)
          as (_ & _ & _ & _ & _ & Hr & _ & Ht & _) end.
      cbv zeta in *. unfold run in *.
      intros Hrun. rewrite Hrun in *. simpl snd in *.
      exists []. rewrite Hr, Ht. simpl. repeat split; [lia | constructor].
Qed.

Lemma editor_value_bind {B} (id v : string) (f : JsValue -> Act B) (s : Shell) :
  editor s !! id = Some v -> (editor_value id ≫= f) s = f (JStr v) s.
Proof.
  intros Hv. rewrite act_bind_run. unfold editor_value. rewrite act_bind_run.
  unfold shell. by rewrite Hv.
Qed.

Lemma editor_value_missing {B} (id : string) (f : JsValue -> Act B) (s : Shell) :
  editor s !! id = None ->
  (editor_value id ≫= f) s = (Throw (null_read "value"), s).
Proof.
  intros Hv. rewrite act_bind_run. unfold editor_value. rewrite act_bind_run.
  unfold shell. by rewrite Hv.
Qed.

(** X22. Saving the contact details: the request carries the session's
    user and the four editor inputs as they stand; when the backend answers
    with a status outside 200..299 the failure is not reported at all (no
    toast, nothing logged, the editor and the displays as they were), and
    the overlay is hidden. *)
Theorem save_failure_is_silent (server : Server) (s : Shell)
    (phone linkedin github portfolio : string) (resp : Response) :
  signed_in s = true ->
  editor s !! "res-phone" = Some phone ->
  editor s !! "res-linkedin" = Some linkedin ->
  editor s !! "res-github" = Some github ->
  editor s !! "res-portfolio" = Some portfolio ->
  let request :=
    POST (API_BASE_URL +:+ "/profile/details")
      (JObj [("user_id", get_opt (currentUser (app (core s))) "id");
             ("phone_number", JStr phone); ("linkedin_url", JStr linkedin);
             ("github_url", JStr github); ("portfolio_url", JStr portfolio)]) in
  server (requests (core s)) request = Responded resp ->
  ok resp = false ->
  let s' := run (resumeForm_submit server) s in
  requests (core s') = requests (core s) ++ [request]
  /\ toasts (page (core s')) = toasts (page (core s))
  /\ console (page (core s')) = console (page (core s))
  /\ containers (page (core s')) = containers (page (core s))
  /\ editor s' = editor s
  /\ loading (page (core s')) = false.
Proof.
  intros Hs H1 H2 H3 H4 request Hsrv Hok. cbv zeta. unfold run.
  destruct (resumeForm_submit server s) as [res s'] eqn:Hrun.
  simpl snd. revert Hrun. unfold resumeForm_submit.
  rewrite act_bind_run. change (shell s) with (Ok s, s). cbv beta iota.
  rewrite Hs. change (negb true) with false. cbv beta iota.
  unfold signed_in in Hs.
  rewrite lift_bind.
  change (showLoading (core s))
    with (Ok tt, set_page (set_loading true (page (core s))) (core s)).
  cbv beta iota. rewrite act_bind_run. unfold try_catch_act.
  rewrite lift_bind. cbn [core set_core].
  rewrite (signed_id_of _ (currentUser (app (core s)))); [|reflexivity|exact Hs].
  cbv beta iota.
  rewrite (editor_value_bind "res-phone" phone); [|exact H1].
  rewrite (editor_value_bind "res-linkedin" linkedin); [|exact H2].
  rewrite (editor_value_bind "res-github" github); [|exact H3].
  rewrite (editor_value_bind "res-portfolio" portfolio); [|exact H4].
  rewrite lift_bind. cbn [core set_core]. fold request.
  rewrite (fetch_responded server _ _ (requests (core s)) resp);
    [|reflexivity|exact Hsrv].
  cbv beta iota. rewrite Hok. cbv beta iota.
  intros [= <- <-]. by repeat split.
Qed.


(** X23. Saving the contact details reads four inputs of the page; when
    one of them is not in the document, no request is sent, the failure is
    logged and "Failed to save details" is shown, and the overlay is
    hidden. *)
Theorem save_needs_all_inputs (server : Server) (s : Shell) :
  signed_in s = true ->
  Exists (fun id => editor s !! id = None)
    ["res-phone"; "res-linkedin"; "res-github"; "res-portfolio"] ->
  let s' := run (resumeForm_submit server) s in
  requests (core s') = requests (core s)
  /\ toasts (page (core s'))
     = toasts (page (core s)) ++ [toast_node "Failed to save details" "error"]
  /\ console (page (core s'))
     = console (page (core s)) ++ [(EmptyString, null_read "value")]
  /\ editor s' = editor s
  /\ loading (page (core s')) = false.
Proof.
  intros Hs Hmiss. cbv zeta. unfold run.
  destruct (resumeForm_submit server s) as [res s'] eqn:Hrun.
  simpl snd. revert Hrun. unfold resumeForm_submit.
  rewrite act_bind_run. change (shell s) with (Ok s, s). cbv beta iota.
  rewrite Hs. change (negb true) with false. cbv beta iota.
  unfold signed_in in Hs.
  rewrite lift_bind.
  change (showLoading (core s))
    with (Ok tt, set_page (set_loading true (page (core s))) (core s)).
  cbv beta iota. rewrite act_bind_run. unfold try_catch_act.
  rewrite lift_bind. cbn [core set_core].
  rewrite (signed_id_of _ (currentUser (app (core s)))); [|reflexivity|exact Hs].
  cbv beta iota.
  destruct (editor s !! "res-phone") as [phone|] eqn:H1.
  2:{ rewrite editor_value_missing; [|exact H1]. by intros [= <- <-]. }
  rewrite (editor_value_bind "res-phone" phone); [|exact H1].
  destruct (editor s !! "res-linkedin") as [linkedin|] eqn:H2.
  2:{ rewrite editor_value_missing; [|exact H2]. by intros [= <- <-]. }
  rewrite (editor_value_bind "res-linkedin" linkedin); [|exact H2].
  destruct (editor s !! "res-github") as [github|] eqn:H3.
  2:{ rewrite editor_value_missing; [|exact H3]. by intros [= <- <-]. }
  rewrite (editor_value_bind "res-github" github); [|exact H3].
  destruct (editor s !! "res-portfolio") as [portfolio|] eqn:H4.
  2:{ rewrite editor_value_missing; [|exact H4]. by intros [= <- <-]. }
  exfalso. rewrite !Exists_cons, Exists_nil in Hmiss.
  destruct Hmiss as [Hm|[Hm|[Hm|[Hm|[]]]]]; congruence.
Qed.

(** X24. Downloading the resume never looks at the status of the
    answer: any answer with a readable body that is not null, a 404
    included, hands its [resume] (undefined when the body has none) to the
    browser as resume.json and shows "Resume downloaded!".  A body that is
    null makes the read of [resume] throw: nothing is downloaded, the error
    is logged and "Error downloading resume" is shown.  In both cases the
    one request has been sent and the overlay is not touched. *)
Theorem download_ignores_status (server : Server) (s : Shell) (resp : Response)
    (d : JsValue) :
  signed_in s = true ->
  let request :=
    GET (API_BASE_URL +:+ "/profile/"
         +:+ toStr (get_opt (currentUser (app (core s))) "id") +:+ "/resume") in
  server (requests (core s)) request = Responded resp ->
  json resp = Ok d ->
  let s' := run (downloadResume_click server) s in
  requests (core s') = requests (core s) ++ [request]
  /\ loading (page (core s')) = loading (page (core s))
  /\ if nullish d
     then downloads s' = downloads s
          /\ exists e,
               get d "resume" = Throw e
               /\ toasts (page (core s'))
                  = toasts (page (core s))
                    ++ [toast_node "Error downloading resume" "error"]
               /\ console (page (core s'))
                  = console (page (core s)) ++ [("Error downloading resume:", e)]
     else downloads s' = downloads s ++ [("resume.json", get_opt d "resume")]
          /\ toasts (page (core s'))
             = toasts (page (core s)) ++ [toast_node "Resume downloaded!" "success"]
          /\ console (page (core s')) = console (page (core s)).
Proof.
  intros Hs request Hsrv Hj. cbv zeta. unfold run.
  destruct (downloadResume_click server s) as [res s'] eqn:Hrun.
  simpl snd. revert Hrun. unfold downloadResume_click.
  rewrite act_bind_run. change (shell s) with (Ok s, s). cbv beta iota.
  rewrite Hs. change (negb true) with false. cbv beta iota.
  unfold signed_in in Hs. unfold try_catch_act.
  rewrite lift_bind.
  rewrite (signed_id_of _ (currentUser (app (core s)))); [|reflexivity|exact Hs].
  cbv beta iota.
  rewrite lift_bind. cbn [core set_core]. fold request.
  rewrite (fetch_responded server _ _ (requests (core s)) resp);
    [|reflexivity|exact Hsrv].
  cbv beta iota.
  rewrite lift_bind. cbn [core set_core]. unfold liftR at 1. rewrite Hj. cbv beta iota.
  rewrite lift_bind. cbn [core set_core]. unfold liftR at 1.
  destruct (nullish d) eqn:Hd.
  { destruct (nullish_get_throws d "resume" Hd) as [e He]. rewrite He. cbv beta iota.
    intros [= <- <-]. split; [done|]. split; [done|]. split; [done|].
    exists e. by repeat split. }
  rewrite (get_not_nullish _ _ Hd). cbv beta iota.
  rewrite act_bind_run. unfold update at 1. cbv beta iota.
  rewrite lift_run. cbn [core set_core set_downloads]. unfold outcome, exec.
  rewrite showToast_run. simpl fst. simpl snd.
  intros [= <- <-]. by repeat split.
Qed.


(** *** Navigation links and tabs *)

Lemma activate_first_some (id : string) (ps : list Pane) :
  id ∈ map pane_id ps -> is_Some (activate_first id ps).
Proof.
  induction ps as [|p ps IH]; simpl; [by intros ?%elem_of_nil|].
  intros [->|Hin]%elem_of_cons.
  - by rewrite String.eqb_refl.
  - destruct (String.eqb (pane_id p) id); [done|].
    destruct (IH Hin) as [ps' ->]. done.
Qed.

Lemma activate_first_none (id : string) (ps : list Pane) :
  id ∉ map pane_id ps -> activate_first id ps = None.
Proof.
  induction ps as [|p ps IH]; simpl; [done|].
  intros Hnot. apply not_elem_of_cons in Hnot as [Hne Hnot].
  destruct (String.eqb (pane_id p) id) eqn:He.
  - apply String.eqb_eq in He. congruence.
  - by rewrite (IH Hnot).
Qed.

Lemma activate_first_spec (id : string) (ps ps' : list Pane) :
  activate_first id ps = Some ps' ->
  map pane_id ps' = map pane_id ps
  /\ (exists p, p ∈ ps' /\ pane_id p = id /\ pane_active p = true)
  /\ (forall p, p ∈ ps' -> p ∈ ps \/ pane_id p = id).
Proof.
  revert ps'. induction ps as [|p ps IH]; simpl; [done|]. intros ps'.
  destruct (String.eqb (pane_id p) id) eqn:He.
  - apply String.eqb_eq in He. intros [= <-]. split; [done|]. split.
    + exists (set_pane_active true p). split; [apply list_elem_of_here | done].
    + intros q [->|Hq]%elem_of_cons; [by right|].
      left. by apply list_elem_of_further.
  - destruct (activate_first id ps) as [ps1|]; [|done]. simpl. intros [= <-].
    destruct (IH ps1 eq_refl) as (Hids & (q & Hq & Hqid & Hqa) & Hrest).
    split; [simpl; by rewrite Hids|]. split.
    + exists q. split; [by apply list_elem_of_further | done].
    + intros r [->|Hr]%elem_of_cons; [left; apply list_elem_of_here|].
      destruct (Hrest r Hr) as [Hin|Hid]; [left; by apply list_elem_of_further | by right].
Qed.

Lemma hide_hidden (matched : Pane -> bool) (ps : list Pane) :
  (forall b p, matched (set_pane_active b p) = matched p) ->
  forall p, p ∈ map (hide matched) ps -> matched p = true -> pane_active p = false.
Proof.
  intros Hm p Hin Hp. apply list_elem_of_fmap in Hin as (q & -> & _).
  unfold hide in *. destruct (matched q) eqn:Hq; [done|]. congruence.
Qed.

Lemma hide_ids (matched : Pane -> bool) (ps : list Pane) :
  map pane_id (map (hide matched) ps) = map pane_id ps.
Proof.
  induction ps as [|p ps IH]; [done|]. simpl. rewrite IH. f_equal.
  unfold hide. by destruct (matched p).
Qed.

Lemma show_only_run (matched : Pane -> bool) (id : string) (s : Shell) :
  show_only matched id s
  = match activate_first id (map (hide matched) (panes s)) with
    | None => (Throw (null_read "classList"),
               set_panes (map (hide matched) (panes s)) s)
    | Some ps => (Ok tt, set_panes ps (set_panes (map (hide matched) (panes s)) s))
    end.
Proof.
  unfold show_only. rewrite act_bind_run. unfold update at 1. cbv beta iota.
  rewrite act_bind_run. unfold shell at 1. cbv beta iota. cbn [panes set_panes].
  change (map (fun p => if matched p then set_pane_active false p else p) (panes s))
    with (map (hide matched) (panes s)).
  by destruct (activate_first id _).
Qed.

Lemma hide_unmatched (matched : Pane -> bool) (ps : list Pane) :
  (forall b p, matched (set_pane_active b p) = matched p) ->
  forall p, p ∈ map (hide matched) ps -> matched p = false -> p ∈ ps.
Proof.
  intros Hm p Hin Hp. apply list_elem_of_fmap in Hin as (q & -> & Hq).
  unfold hide in *. destruct (matched q) eqn:Hmq; [|done].
  rewrite Hm in Hp. congruence.
Qed.

(** A click on a link or a tab whose target is in the document. *)
Lemma show_only_shown (matched : Pane -> bool) (id : string) (s : Shell) :
  (forall b p, matched (set_pane_active b p) = matched p) ->
  id ∈ map pane_id (panes s) ->
  let s' := run (show_only matched id) s in
  show_only matched id s = (Ok tt, s')
  /\ navLinks s' = navLinks s /\ tabBtns s' = tabBtns s /\ core s' = core s
  /\ map pane_id (panes s') = map pane_id (panes s)
  /\ (exists p, p ∈ panes s' /\ pane_id p = id /\ pane_active p = true)
  /\ only_shown matched id (panes s')
  /\ (forall p, p ∈ panes s' -> matched p = false -> pane_id p <> id -> p ∈ panes s).
Proof.
  intros Hm Hin. cbv zeta. unfold run. rewrite show_only_run.
  assert (Hin' : id ∈ map pane_id (map (hide matched) (panes s)))
    by by rewrite hide_ids.
  destruct (activate_first_some _ _ Hin') as [ps Hps]. rewrite Hps. simpl.
  destruct (activate_first_spec _ _ _ Hps) as (Hids & Hex & Hrest).
  repeat split; try done.
  - by rewrite Hids, hide_ids.
  - intros p Hp Hmp Hact. destruct (Hrest p Hp) as [Hold|Hid]; [|done].
    by rewrite (hide_hidden matched (panes s) Hm p Hold Hmp) in Hact.
  - intros p Hp Hmp Hne. destruct (Hrest p Hp) as [Hold|Hid]; [|done].
    by apply (hide_unmatched matched (panes s) Hm).
Qed.

(** A click on a link or a tab whose target is not in the document. *)
Lemma show_only_missing (matched : Pane -> bool) (id : string) (s : Shell) :
  (forall b p, matched (set_pane_active b p) = matched p) ->
  id ∉ map pane_id (panes s) ->
  let s' := run (show_only matched id) s in
  show_only matched id s = (Throw (null_read "classList"), s')
  /\ navLinks s' = navLinks s /\ tabBtns s' = tabBtns s /\ core s' = core s
  /\ (forall p, p ∈ panes s' -> matched p = true -> pane_active p = false).
Proof.
  intros Hm Hin. cbv zeta. unfold run. rewrite show_only_run.
  assert (Hin' : id ∉ map pane_id (map (hide matched) (panes s)))
    by by rewrite hide_ids.
  rewrite (activate_first_none _ _ Hin'). simpl. repeat split; try done.
  by apply hide_hidden.
Qed.


Lemma is_page_kept (b : bool) (p : Pane) : is_page (set_pane_active b p) = is_page p.
Proof. reflexivity. Qed.

Lemma is_tab_content_kept (b : bool) (p : Pane) :
  is_tab_content (set_pane_active b p) = is_tab_content p.
Proof. reflexivity. Qed.

(** X25. A click on a navigation link whose page is in the document
    never throws; it leaves exactly that link active, and of the pages
    exactly the target; elements that are not pages keep their state; the
    current page becomes the link's target; the form is not touched, and
    without a session no request is sent. *)
Theorem nav_click_shows_target (server : Server) (s : Shell) (i : nat) (link : NavLink) :
  navLinks s !! i = Some link ->
  data_page link +:+ "-page" ∈ map pane_id (panes s) ->
  let s' := run (navLink_click server i) s in
  fst (navLink_click server i s) = Ok tt
  /\ length (navLinks s') = length (navLinks s)
  /\ (forall j l, navLinks s' !! j = Some l -> link_active l = Nat.eqb j i)
  /\ map pane_id (panes s') = map pane_id (panes s)
  /\ (exists p, p ∈ panes s' /\ pane_id p = data_page link +:+ "-page"
                 /\ pane_active p = true)
  /\ only_shown is_page (data_page link +:+ "-page") (panes s')
  /\ (forall p, p ∈ panes s' -> is_page p = false ->
                 pane_id p <> data_page link +:+ "-page" -> p ∈ panes s)
  /\ currentPage (app (core s')) = data_page link
  /\ wizard (core s') = wizard (core s) /\ fields (core s') = fields (core s)
  /\ (signed_in s = false -> requests (core s') = requests (core s)).
Proof.
  intros Hlink Hin. cbv zeta. unfold run.
  destruct (navLink_click server i s) as [res s'] eqn:Hrun.
  simpl fst. simpl snd. revert Hrun. unfold navLink_click.
  rewrite act_bind_run. change (shell s) with (Ok s, s). cbv beta iota.
  rewrite Hlink. cbv beta iota zeta.
  rewrite act_bind_run. unfold update at 1. cbv beta iota.
  match goal with |- context [set_navLinks ?ls s] => set (s1 := set_navLinks ls s) end.
  rewrite act_bind_run.
  destruct (show_only_shown is_page (data_page link +:+ "-page") s1 is_page_kept Hin)
    as (Hshow & Hn & Ht & Hc & Hids & Hex & Honly & Hrest).
  cbv zeta in *. rewrite Hshow. cbv beta iota.
  set (s2 := run (show_only is_page (data_page link +:+ "-page")) s1) in *.
  rewrite lift_bind. unfold on_app at 1, modify at 1. cbv beta iota.
  match goal with |- loadPageData _ _ ?sk = _ -> _ => set (s3 := sk) end.
  destruct (loadPageData_contained server (data_page link) s3)
    as (Hok & [(Hn3 & _ & Hp3 & (Hw3 & Hf3 & _ & Hcp3)) _] & Hidle).
  cbv zeta in *. unfold run in *.
  intros Hrun. rewrite Hrun in *. simpl fst in *. simpl snd in *.
  split; [exact Hok|]. rewrite Hn3, Hp3, Hcp3, Hw3, Hf3.
  change (navLinks s3) with (navLinks s2). change (panes s3) with (panes s2).
  rewrite Hn. change (wizard (core s3)) with (wizard (core s2)).
  change (fields (core s3)) with (fields (core s2)). rewrite Hc.
  split; [apply length_imap|]. split.
  { intros j l. simpl. rewrite list_lookup_imap.
    destruct (navLinks s !! j); [|done]. by intros [= <-]. }
  split; [exact Hids|]. split; [exact Hex|]. split; [exact Honly|].
  split; [exact Hrest|]. split; [done|]. split; [done|]. split; [done|].
  intros Hs. rewrite Hidle; [simpl; by rewrite Hc|].
  unfold signed_in in *. simpl. by rewrite Hc.
Qed.

(** X26. A click on a navigation link whose page is not in the document
    throws after the damage is done: the link is marked active and every
    page is hidden, but the current page is not updated and nothing is
    loaded. *)
Theorem nav_click_without_page (server : Server) (s : Shell) (i : nat) (link : NavLink) :
  navLinks s !! i = Some link ->
  data_page link +:+ "-page" ∉ map pane_id (panes s) ->
  let s' := run (navLink_click server i) s in
  fst (navLink_click server i s) = Throw (null_read "classList")
  /\ (forall j l, navLinks s' !! j = Some l -> link_active l = Nat.eqb j i)
  /\ (forall p, p ∈ panes s' -> is_page p = true -> pane_active p = false)
  /\ core s' = core s.
Proof.
  intros Hlink Hin. cbv zeta. unfold run.
  destruct (navLink_click server i s) as [res s'] eqn:Hrun.
  simpl fst. simpl snd. revert Hrun. unfold navLink_click.
  rewrite act_bind_run. change (shell s) with (Ok s, s). cbv beta iota.
  rewrite Hlink. cbv beta iota zeta.
  rewrite act_bind_run. unfold update at 1. cbv beta iota.
  match goal with |- context [set_navLinks ?ls s] => set (s1 := set_navLinks ls s) end.
  rewrite act_bind_run.
  destruct (show_only_missing is_page (data_page link +:+ "-page") s1 is_page_kept Hin)
    as (Hshow & Hn & Ht & Hc & Hhid).
  cbv zeta in *. rewrite Hshow. cbv beta iota.
  intros [= <- <-]. split; [done|]. rewrite Hn, Hc. split; [|by split].
  intros j l. simpl. rewrite list_lookup_imap.
  destruct (navLinks s !! j); [|done]. by intros [= <-].
Qed.

(** X27. A click on a profile tab whose content is in the document
    leaves exactly that tab button active and, of the tab contents, exactly
    the target; the pages, the navigation and everything outside the tabs
    stay as they were, and no request is sent. *)
Theorem tab_click_shows_target (s : Shell) (i : nat) (btn : TabBtn) :
  tabBtns s !! i = Some btn ->
  data_tab btn +:+ "-tab" ∈ map pane_id (panes s) ->
  let s' := run (tabBtn_click i) s in
  fst (tabBtn_click i s) = Ok tt
  /\ (forall j b, tabBtns s' !! j = Some b -> tab_active b = Nat.eqb j i)
  /\ (exists p, p ∈ panes s' /\ pane_id p = data_tab btn +:+ "-tab"
                 /\ pane_active p = true)
  /\ only_shown is_tab_content (data_tab btn +:+ "-tab") (panes s')
  /\ (forall p, p ∈ panes s' -> is_tab_content p = false ->
                 pane_id p <> data_tab btn +:+ "-tab" -> p ∈ panes s)
  /\ navLinks s' = navLinks s
  /\ core s' = core s.
Proof.
  intros Hbtn Hin. cbv zeta. unfold run.
  destruct (tabBtn_click i s) as [res s'] eqn:Hrun.
  simpl fst. simpl snd. revert Hrun. unfold tabBtn_click.
  rewrite act_bind_run. change (shell s) with (Ok s, s). cbv beta iota.
  rewrite Hbtn. cbv beta iota zeta.
  rewrite act_bind_run. unfold update at 1. cbv beta iota.
  match goal with |- context [set_tabBtns ?ls s] => set (s1 := set_tabBtns ls s) end.
  destruct (show_only_shown is_tab_content (data_tab btn +:+ "-tab") s1
              is_tab_content_kept Hin)
    as (Hshow & Hn & Ht & Hc & Hids & Hex & Honly & Hrest).
  cbv zeta in *. rewrite Hshow.
  intros [= <- <-]. split; [done|]. rewrite Hn, Ht, Hc.
  split.
  { intros j b. simpl. rewrite list_lookup_imap.
    destruct (tabBtns s !! j); [|done]. by intros [= <-]. }
  by repeat split.
Qed.


(** *** The contact editor *)

Lemma fill_lookup (id v : string) (s : Shell) (id' : string) :
  editor (match editor s !! id with
          | Some _ => set_editor (<[id := v]> (editor s)) s
          | None => s
          end) !! id'
  = if decide (id' = id) then (fun _ => v) <$> editor s !! id else editor s !! id'.
Proof.
  destruct (decide (id' = id)) as [->|Hne].
  - destruct (editor s !! id) eqn:He; simpl; [by rewrite lookup_insert_eq | done].
  - destruct (editor s !! id) eqn:He; simpl; [by rewrite lookup_insert_ne | done].
Qed.

Lemma fill_core (id v : string) (s : Shell) :
  core (match editor s !! id with
        | Some _ => set_editor (<[id := v]> (editor s)) s
        | None => s
        end) = core s.
Proof. by destruct (editor s !! id). Qed.

Lemma set_core_core (s : Shell) : set_core (core s) s = s.
Proof. by destruct s. Qed.

Lemma lift_pure_bind {A B} (a : A) (f : A -> Act B) (s : Shell) :
  (lift (liftR (Ok a)) ≫= f) s = f a s.
Proof. rewrite lift_bind. unfold liftR. by rewrite set_core_core. Qed.

(** The "Populate editor fields" block of [loadProfile]. *)
Lemma populate_effect (resume : JsValue) (rest : Act unit) (s : Shell) :
  exists s1,
    ((if truthy resume then
        h ← lift (liftR (get resume "header"));
        if truthy h then
          phone ← lift (liftR (get h "phone"));
          set_value_if_present "res-phone" (or_else phone (JStr EmptyString));;
          linkedin ← lift (liftR (get h "linkedin"));
          set_value_if_present "res-linkedin" (or_else linkedin (JStr EmptyString));;
          github ← lift (liftR (get h "github"));
          set_value_if_present "res-github" (or_else github (JStr EmptyString));;
          portfolio ← lift (liftR (get h "portfolio"));
          set_value_if_present "res-portfolio" (or_else portfolio (JStr EmptyString))
        else mret tt
      else mret tt);; rest) s
    = rest s1
    /\ core s1 = core s
    /\ if truthy resume && truthy (get_opt resume "header")
       then forall id key, (id, key) ∈ header_inputs ->
              editor s1 !! id
              = (fun _ => toStr (or_else (get_opt (get_opt resume "header") key)
                                   (JStr EmptyString)))
                <$> editor s !! id
       else editor s1 = editor s.
Proof.
  rewrite act_bind_run.
  destruct (truthy resume) eqn:Hr; [|by exists s].
  rewrite (get_not_nullish _ _ (truthy_not_nullish _ Hr)), lift_pure_bind.
  destruct (truthy (get_opt resume "header")) eqn:Hh; [|by exists s].
  pose proof (truthy_not_nullish _ Hh) as Hn.
  rewrite !(get_not_nullish _ _ Hn).
  rewrite lift_pure_bind.
  rewrite act_bind_run. unfold set_value_if_present at 1, update at 1. cbv beta iota.
  rewrite lift_pure_bind.
  rewrite act_bind_run. unfold set_value_if_present at 1, update at 1. cbv beta iota.
  rewrite lift_pure_bind.
  rewrite act_bind_run. unfold set_value_if_present at 1, update at 1. cbv beta iota.
  rewrite lift_pure_bind.
  unfold set_value_if_present at 1, update at 1. cbv beta iota.
  eexists. split; [reflexivity|]. split.
  { by rewrite !fill_core. }
  simpl andb. cbv iota. intros id key Hin. unfold header_inputs in Hin.
  rewrite fill_lookup.
  rewrite !elem_of_cons, elem_of_nil in Hin.
  destruct Hin as [Hin|[Hin|[Hin|[Hin|[]]]]]; injection Hin as -> ->.
  - repeat (case_decide; [done|]).
    rewrite fill_lookup. repeat (case_decide; [done|]).
    rewrite fill_lookup. repeat (case_decide; [done|]).
    rewrite fill_lookup. by case_decide.
  - repeat (case_decide; [done|]).
    rewrite fill_lookup. repeat (case_decide; [done|]).
    rewrite fill_lookup. case_decide; [|done].
    rewrite fill_lookup. by case_decide.
  - repeat (case_decide; [done|]).
    rewrite fill_lookup. case_decide; [|done].
    rewrite fill_lookup. case_decide; [done|].
    rewrite fill_lookup. by case_decide.
  - case_decide; [|done].
    rewrite fill_lookup. case_decide; [done|].
    rewrite fill_lookup. case_decide; [done|].
    rewrite fill_lookup. by case_decide.
Qed.


Lemma editor_bind {A B} (m : Act A) (f : A -> Act B) :
  (forall s, editor (run m s) = editor s) ->
  (forall a s, editor (run (f a) s) = editor s) ->
  forall s, editor (run (m ≫= f) s) = editor s.
Proof.
  apply (act_bind_keeps (fun s s' => editor s' = editor s)).
  intros s1 s2 s3 H1 H2. by rewrite H2.
Qed.

Lemma editor_try (body : Act unit) (handler : JsError -> Act unit) :
  (forall s, editor (run body s) = editor s) ->
  (forall e s, editor (run (handler e) s) = editor s) ->
  forall s, editor (run (try_catch_act body handler) s) = editor s.
Proof.
  apply (act_try_keeps (fun s s' => editor s' = editor s)).
  intros s1 s2 s3 H1 H2. by rewrite H2.
Qed.

Lemma editor_lift {A} (m : M A) (s : Shell) : editor (run (lift m) s) = editor s.
Proof. reflexivity. Qed.

(** X28. Loading the profile page fills the contact editor from the
    header of the resume: each of the four inputs that is in the document
    gets the header's field as text, or the empty string when the field is
    missing or falsy, and an input that is not in the document is not
    created; when the answer has no resume or no header the editor keeps
    what it held.  This holds whatever happens later in the load. *)
Theorem profile_fills_editor (server : Server) (s : Shell) (resp : Response)
    (d : JsValue) :
  signed_in s = true ->
  server (requests (core s))
    (GET (API_BASE_URL +:+ "/profile/"
          +:+ toStr (get_opt (currentUser (app (core s))) "id") +:+ "/resume"))
  = Responded resp ->
  json resp = Ok d ->
  nullish d = false ->
  let resume := get_opt d "resume" in
  let s' := run (loadProfile server) s in
  if truthy resume && truthy (get_opt resume "header")
  then forall id key, (id, key) ∈ header_inputs ->
         editor s' !! id
         = (fun _ => toStr (or_else (get_opt (get_opt resume "header") key)
                              (JStr EmptyString)))
           <$> editor s !! id
  else editor s' = editor s.
Proof.
  intros Hs Hsrv Hj Hd. cbv zeta. unfold run.
  destruct (loadProfile server s) as [res s'] eqn:Hrun.
  simpl snd. revert Hrun. unfold loadProfile.
  rewrite act_bind_run. change (shell s) with (Ok s, s). cbv beta iota.
  rewrite Hs. change (negb true) with false. cbv beta iota.
  unfold signed_in in Hs.
  rewrite lift_bind.
  change (showLoading (core s))
    with (Ok tt, set_page (set_loading true (page (core s))) (core s)).
  cbv beta iota. unfold try_catch_act, loadProfile_try.
  rewrite lift_bind. cbn [core set_core].
  rewrite (signed_id_of _ (currentUser (app (core s)))); [|reflexivity|exact Hs].
  cbv beta iota.
  rewrite lift_bind. cbn [core set_core].
  rewrite (fetch_responded server _ _ (requests (core s)) resp);
    [|reflexivity|exact Hsrv].
  cbv beta iota.
  rewrite lift_bind. cbn [core set_core]. unfold liftR at 1. rewrite Hj. cbv beta iota.
  rewrite lift_bind. cbn [core set_core]. unfold liftR at 1.
  rewrite (get_not_nullish _ _ Hd). cbv beta iota.
  match goal with |- context [(_ ≫= (fun _ : unit => ?r)) ?sk] =>
    destruct (populate_effect (get_opt d "resume") r sk) as (s1 & Hrun1 & _ & He1);
    rewrite Hrun1; set (rest := r) end.
  match goal with |- match rest s1 with _ => _ end = _ -> _ =>
    change (match rest s1 with
            | (Ok tt, s') => (Ok tt, s')
            | (Throw e, s') =>
                lift (console_error "Error loading profile:" e;;
                      showToast "Error loading profile" "error";; hideLoading) s'
            end)
      with (try_catch_act rest
              (fun e => lift (console_error "Error loading profile:" e;;
                              showToast "Error loading profile" "error";; hideLoading)) s1)
  end.
  intros Hrun.
  assert (Hed : editor s' = editor s1).
  { change s' with (snd (res, s')). rewrite <- Hrun.
    apply (editor_try rest); [|intros e s0; apply editor_lift].
    unfold rest. repeat (apply editor_bind; [apply editor_lift | intros ?]).
    apply editor_lift. }
  rewrite Hed. exact He1.
Qed.


(** *** The relocation toggle *)

(** X29. The relocation controls follow the toggle: after a change the
    input group is displayed exactly when the box is checked, the status
    text reads "Yes" or "No" accordingly, and the goal input, if there is
    one, is required exactly when the box is checked; the fields of the form
    keep their text, yet a draft gathered afterwards carries the relocation
    goal only when the box is checked and null otherwise.  When the input
    group or the status text is missing, the change does nothing. *)
Theorem relocation_follows_toggle (s : Shell) (checked old : bool) :
  relocationToggle (fields (core s)) = Some old ->
  let s' := run (relocationToggle_change checked) s in
  match relocationInputGroup s, relocationStatus s with
  | Some _, Some _ =>
      relocationInputGroup s' = Some (if checked then "block" else "none")
      /\ relocationStatus s' = Some (if checked then "Yes" else "No")
      /\ relocationGoal s' = (fun _ => checked) <$> relocationGoal s
      /\ formData (fields (core s')) = formData (fields (core s))
      /\ forall data, gather (fields (core s')) = Ok data ->
            assoc "relocation_goal" data
            = if checked then formData_get (fields (core s)) "relocation_goal"
              else JNull
  | _, _ => s' = s
  end.
Proof.
  intros Hold. cbv zeta. unfold run, relocationToggle_change.
  rewrite act_bind_run. change (shell s) with (Ok s, s). cbv beta iota.
  rewrite Hold.
  destruct (relocationInputGroup s) as [g|]; [|done].
  destruct (relocationStatus s) as [st|]; [|done].
  rewrite lift_bind. unfold on_fields at 1, modify at 1, update. cbv beta iota.
  cbn [snd relocationInputGroup relocationStatus relocationGoal core fields
       set_relocationGoal set_relocationStatus set_relocationInputGroup set_core
       set_fields].
  repeat split.
  intros data Hg.
  apply gather_inv in Hg
    as (ti & cs & photo & horizon & c & pct & ei & _ & _ & _ & Hr & _ & _ & _ & ->).
  simpl in Hr. injection Hr as <-. simpl. by destruct checked.
Qed.


(** *** Updates that do not complete a task *)

Lemma deferred_bind {A B} (m : Act A) (f : A -> Act B) :
  (forall s, deferred (run m s) = deferred s) ->
  (forall a s, deferred (run (f a) s) = deferred s) ->
  forall s, deferred (run (m ≫= f) s) = deferred s.
Proof.
  apply (act_bind_keeps (fun s s' => deferred s' = deferred s)).
  intros s1 s2 s3 H1 H2. by rewrite H2.
Qed.

Lemma deferred_try (body : Act unit) (handler : JsError -> Act unit) :
  (forall s, deferred (run body s) = deferred s) ->
  (forall e s, deferred (run (handler e) s) = deferred s) ->
  forall s, deferred (run (try_catch_act body handler) s) = deferred s.
Proof.
  apply (act_try_keeps (fun s s' => deferred s' = deferred s)).
  intros s1 s2 s3 H1 H2. by rewrite H2.
Qed.

Lemma deferred_lift {A} (m : M A) (s : Shell) : deferred (run (lift m) s) = deferred s.
Proof. reflexivity. Qed.

(** X30. Only a completed task is cheered: an update to any other status
    schedules nothing, whatever the backend answers; and when the backend
    accepts it with a readable body, the toast shown is "Task status
    updated" and the progress page is reloaded, starting with the summary
    request. *)
Theorem plain_update_is_not_cheered (server : Server) (s : Shell) (itemId status : string) :
  String.eqb status "completed" = false ->
  let s' := run (updateTaskStatus server itemId status) s in
  let request :=
    POST (API_BASE_URL +:+ "/progress/update")
      (JObj [("user_id", get_opt (currentUser (app (core s))) "id");
             ("item_id", JStr itemId); ("status", JStr status)]) in
  deferred s' = deferred s
  /\ forall resp d,
       signed_in s = true ->
       server (requests (core s)) request = Responded resp ->
       ok resp = true ->
       json resp = Ok d ->
       exists later rest,
         toasts (page (core s'))
         = toasts (page (core s)) ++ toast_node "Task status updated" "success" :: later
         /\ requests (core s')
            = requests (core s)
              ++ request
                 :: GET (API_BASE_URL +:+ "/progress/"
                         +:+ toStr (get_opt (currentUser (app (core s))) "id")
                         +:+ "/summary")
                 :: rest.
Proof.
  intros Hne. cbv zeta. split.
  { revert s. unfold updateTaskStatus.
    apply deferred_bind; [done | intros s0].
    destruct (negb (signed_in s0)); [done|].
    apply deferred_bind; [apply deferred_lift | intros _].
    apply deferred_try; [|intros e; apply deferred_lift].
    apply deferred_bind; [apply deferred_lift | intros id].
    apply deferred_bind; [apply deferred_lift | intros response].
    destruct (negb (ok response)); [done|].
    apply deferred_bind; [apply deferred_lift | intros data].
    apply deferred_bind; [apply deferred_lift | intros _].
    rewrite Hne.
    apply deferred_bind; [apply deferred_lift | intros _]. apply deferred_lift. }
  intros resp d Hs Hsrv Hok Hj. unfold run.
  destruct (updateTaskStatus server itemId status s) as [res s'] eqn:Hrun.
  simpl snd. revert Hrun. unfold updateTaskStatus.
  rewrite act_bind_run. change (shell s) with (Ok s, s). cbv beta iota.
  rewrite Hs. change (negb true) with false. cbv beta iota.
  unfold signed_in in Hs.
  rewrite lift_bind.
  change (showLoading (core s))
    with (Ok tt, set_page (set_loading true (page (core s))) (core s)).
  cbv beta iota. unfold try_catch_act.
  rewrite lift_bind. cbn [core set_core].
  rewrite (signed_id_of _ (currentUser (app (core s)))); [|reflexivity|exact Hs].
  cbv beta iota.
  rewrite lift_bind. cbn [core set_core].
  rewrite (fetch_responded server _ _ (requests (core s)) resp);
    [|reflexivity|exact Hsrv].
  cbv beta iota. rewrite Hok. change (negb true) with false. cbv beta iota.
  rewrite lift_bind. cbn [core set_core]. unfold liftR at 1. rewrite Hj. cbv beta iota.
  rewrite lift_bind. cbn [core set_core].
  unfold hideLoading at 1, on_page at 1, modify at 1. cbv beta iota.
  rewrite Hne. cbv beta iota.
  rewrite lift_bind, showToast_run. cbn [core set_core]. cbv beta iota.
  rewrite lift_run. cbn [core set_core]. unfold outcome.
  rewrite loadProgress_returns. simpl fst. cbv beta iota.
  intros [= <- <-].
  match goal with |- context [exec (loadProgress server) ?w] => set (wk := w) end.
  destruct (loadProgress_reload server wk Hs) as (later & rest & Hlt & _ & Hrq & _).
  cbv zeta in *. cbn [core set_core].
  exists later, rest. rewrite Hlt, Hrq. unfold wk. simpl.
  by rewrite <- !app_assoc.
Qed.

End ShellFacts.

Lemma handlers_are_contained_witness :
  loading (page (core (run (updateTaskStatus (H := IntegerHost.host) Sample2.backend
                              "c1" "completed")
                         (Sample2.shell0 Sample2.signed)))) = false.
Proof.
  pose proof (proj2 (handlers_are_contained (H := IntegerHost.host) Sample2.backend
                       "progress" "c1" "completed" true
                       (Sample2.shell0 Sample2.signed))
                ltac:(vm_compute; reflexivity)) as Hall.
  apply Forall_cons in Hall as [_ Hall]. by apply Forall_cons in Hall as [Hu _].
Defined.

Lemma completed_task_cheers_witness :
  deferred (run (updateTaskStatus (H := IntegerHost.host) Sample2.backend "c1" "completed")
              (Sample2.shell0 Sample2.signed))
  = [(1000%Z, LaterToast (JStr "Well done") "info")].
Proof.
  exact (proj1 (completed_task_cheers (H := IntegerHost.host) Sample2.backend
                  (Sample2.shell0 Sample2.signed) "c1"
                  {| status := 200;
                     json := Ok (JObj [("progress",
                                        JObj [("status", JStr "completed");
                                              ("encouragement_message",
                                               JStr "Well done")])]) |}
                  (JObj [("progress", JObj [("status", JStr "completed");
                                            ("encouragement_message", JStr "Well done")])])
                  ltac:(vm_compute; reflexivity) ltac:(vm_compute; reflexivity)
                  ltac:(vm_compute; reflexivity) ltac:(vm_compute; reflexivity)
                  ltac:(vm_compute; reflexivity) ltac:(vm_compute; reflexivity)
                  ltac:(vm_compute; reflexivity))).
Defined.

Lemma update_without_record_witness :
  toasts (page (core (run (updateTaskStatus (H := IntegerHost.host) Sample2.backend_terse
                             "c1" "completed")
                        (Sample2.shell0 Sample2.signed))))
  = [toast_node "🎉 Great job! Task completed!" "success";
     toast_node "Error updating task" "error"].
Proof.
  exact (proj1 (update_without_record (H := IntegerHost.host) Sample2.backend_terse
                  (Sample2.shell0 Sample2.signed) "c1"
                  {| status := 200; json := Ok (JObj [("ok", JBool true)]) |}
                  (JObj [("ok", JBool true)])
                  ltac:(vm_compute; reflexivity) ltac:(vm_compute; reflexivity)
                  ltac:(vm_compute; reflexivity) ltac:(vm_compute; reflexivity)
                  ltac:(vm_compute; reflexivity) ltac:(vm_compute; reflexivity))).
Defined.

Lemma refused_update_witness :
  toasts (page (core (run (updateTaskStatus (H := IntegerHost.host)
                             Sample2.backend_readonly "c1" "in_progress")
                        (Sample2.shell0 Sample2.signed))))
  = [toast_node "Error updating task" "error"].
Proof.
  pose proof (refused_update (H := IntegerHost.host) Sample2.backend_readonly
                (Sample2.shell0 Sample2.signed) "c1" "in_progress"
                ltac:(vm_compute; reflexivity) ltac:(vm_compute; reflexivity))
    as (_ & Ht & _).
  exact Ht.
Defined.

Lemma regenerate_asks_twelve_months_witness :
  run (refreshRoadmap_click (H := IntegerHost.host) Sample2.backend false)
    (Sample2.shell0 Sample2.signed)
  = Sample2.shell0 Sample2.signed.
Proof.
  exact (proj1 (regenerate_asks_twelve_months (H := IntegerHost.host) Sample2.backend
                  (Sample2.shell0 Sample2.signed) ltac:(vm_compute; reflexivity))).
Defined.

Lemma save_failure_is_silent_witness :
  toasts (page (core (run (resumeForm_submit (H := IntegerHost.host)
                             Sample2.backend_readonly)
                        (Sample2.shell0 Sample2.signed)))) = [].
Proof.
  pose proof (save_failure_is_silent (H := IntegerHost.host) Sample2.backend_readonly
                (Sample2.shell0 Sample2.signed)
                EmptyString EmptyString EmptyString EmptyString
                {| status := 403; json := Ok (JObj [("error", JStr "read only")]) |}
                ltac:(vm_compute; reflexivity) ltac:(vm_compute; reflexivity)
                ltac:(vm_compute; reflexivity) ltac:(vm_compute; reflexivity)
                ltac:(vm_compute; reflexivity) ltac:(vm_compute; reflexivity)
                ltac:(vm_compute; reflexivity))
    as (_ & Ht & _).
  exact Ht.
Defined.

Lemma save_needs_all_inputs_witness :
  let s := Shell_init Sample2.signed [] [] []
             (list_to_map [("res-phone", EmptyString)]) in
  requests (core (run (resumeForm_submit (H := IntegerHost.host) Sample2.backend) s)) = [].
Proof.
  intros s.
  pose proof (save_needs_all_inputs (H := IntegerHost.host) Sample2.backend s
                ltac:(vm_compute; reflexivity)
                ltac:(apply Exists_cons_tl, Exists_cons_hd; vm_compute; reflexivity))
    as (Hr & _).
  exact Hr.
Defined.

Lemma download_ignores_status_witness :
  downloads (run (downloadResume_click (H := IntegerHost.host) Sample2.backend_unknown_user)
               (Sample2.shell0 Sample2.signed))
  = [("resume.json", JUndefined)].
Proof.
  exact (proj1 (proj2 (proj2 (download_ignores_status (H := IntegerHost.host)
                  Sample2.backend_unknown_user (Sample2.shell0 Sample2.signed)
                  {| status := 404; json := Ok (JObj [("error", JStr "User not found")]) |}
                  (JObj [("error", JStr "User not found")])
                  ltac:(vm_compute; reflexivity) ltac:(vm_compute; reflexivity)
                  ltac:(vm_compute; reflexivity))))).
Defined.

Lemma nav_click_shows_target_witness :
  currentPage (app (core (run (navLink_click (H := IntegerHost.host) Sample2.backend 2)
                            (Sample2.shell0 Sample.world0))))
  = "progress".
Proof.
  pose proof (nav_click_shows_target (H := IntegerHost.host) Sample2.backend
                (Sample2.shell0 Sample.world0) 2
                {| data_page := "progress"; link_active := false |}
                ltac:(vm_compute; reflexivity)
                ltac:(vm_compute; do 2 apply list_elem_of_further; apply list_elem_of_here))
    as (_ & _ & _ & _ & _ & _ & _ & Hc & _).
  exact Hc.
Defined.

Lemma nav_click_without_page_witness :
  fst (navLink_click (H := IntegerHost.host) Sample2.backend 4
         (Sample2.shell0 Sample.world0))
  = Throw (null_read "classList").
Proof.
  exact (proj1 (nav_click_without_page (H := IntegerHost.host) Sample2.backend
                  (Sample2.shell0 Sample.world0) 4
                  {| data_page := "settings"; link_active := false |}
                  ltac:(vm_compute; reflexivity)
                  ltac:(vm_compute; intros Hin;
                        repeat (apply elem_of_cons in Hin as [Hin|Hin]; [discriminate|]);
                        by apply elem_of_nil in Hin))).
Defined.

Lemma tab_click_shows_target_witness :
  fst (tabBtn_click 1 (Sample2.shell0 Sample.world0)) = Ok tt.
Proof.
  exact (proj1 (tab_click_shows_target (Sample2.shell0 Sample.world0) 1
                  {| data_tab := "linkedin"; tab_active := false |}
                  ltac:(vm_compute; reflexivity)
                  ltac:(vm_compute; do 5 apply list_elem_of_further;
                        apply list_elem_of_here))).
Defined.

Lemma profile_fills_editor_witness :
  editor (run (loadProfile (H := IntegerHost.host) Sample2.backend)
            (Sample2.shell0 Sample2.signed)) !! "res-phone"
  = Some "555".
Proof.
  pose proof (profile_fills_editor (H := IntegerHost.host) Sample2.backend
                (Sample2.shell0 Sample2.signed)
                {| status := 200;
                   json := Ok (JObj [("resume",
                                      JObj [("header", JObj [("name", JStr "Ada");
                                                             ("phone", JStr "555")])])]) |}
                (JObj [("resume", JObj [("header", JObj [("name", JStr "Ada");
                                                         ("phone", JStr "555")])])])
                ltac:(vm_compute; reflexivity) ltac:(vm_compute; reflexivity)
                ltac:(vm_compute; reflexivity) ltac:(vm_compute; reflexivity)) as Hfill.
  cbv zeta in Hfill.
  exact (Hfill "res-phone" "phone" ltac:(apply list_elem_of_here)).
Defined.

Lemma relocation_follows_toggle_witness :
  relocationStatus (run (relocationToggle_change true) (Sample2.shell0 Sample.world0))
  = Some "Yes".
Proof.
  pose proof (relocation_follows_toggle (H := IntegerHost.host)
                (Sample2.shell0 Sample.world0) true false ltac:(vm_compute; reflexivity))
    as Hrel.
  cbv zeta in Hrel. exact (proj1 (proj2 Hrel)).
Defined.

Lemma plain_update_is_not_cheered_witness :
  deferred (run (updateTaskStatus (H := IntegerHost.host) Sample2.backend "c1" "in_progress")
              (Sample2.shell0 Sample2.signed))
  = [].
Proof.
  exact (proj1 (plain_update_is_not_cheered (H := IntegerHost.host) Sample2.backend
                  (Sample2.shell0 Sample2.signed) "c1" "in_progress"
                  ltac:(vm_compute; reflexivity))).
Defined.
